(** * Admin dashboard of the savings community

    A shallow embedding of the annual-report pipeline of
    [src/pages/AnnualReports.jsx] (fetching with its fallback query, totals
    per user, grouping by month, pagination), of the report utilities that
    [UserReportModal.jsx] imports as [./reportUtils], of the interest-rate
    settings page [AdminInterestSettings], of [src/exportToPDF.js] and of
    [src/utils/userBlocking.js], followed by the properties the specification
    states about them.

    Conventions of the embedding.
    - Amounts are integers ([Z]) in the pipeline: the source adds them with
      [+] inside [reduce].  JavaScript numbers are binary64 values; module
      [Binary64] has their addition, and [reduce_sum_exact] shows that the
      sums of whole amounts whose absolute values add up to 2^53 at most
      are the sums of integers.
    - An object used as a map from identifiers ([{}]) is a finite map; the
      two agree on the keys that do not name a member of [Object.prototype]
      (module [PlainObject]).
    - An instant is a number of milliseconds ([Z]) on the local time line, as
      [Date.prototype.valueOf] gives it; the time zone offset is taken as
      constant.
    - A JavaScript string is a [string] of 8-bit code units.
    - A Firestore snapshot is the list of its documents in delivery order;
      Firestore, jsPDF and the authentication service are outside the
      repository and appear as arguments of the functions that call them. *)

From Stdlib Require Import ZArith QArith List Bool Ascii String Lia Permutation Sorted.
From Stdlib Require Qcanon.
From stdpp Require Import base gmap strings list sorting pretty.

Local Open Scope Z_scope.

(** ** JavaScript values and array primitives *)

Module JS.

(** The values a document field can hold, as far as the code inspects them. *)
Inductive value : Type :=
| Undefined
| Null
| Bool (b : bool)
| Num (n : Z)
| NaN
| Str (s : string).

#[global] Instance value_eq_dec : EqDecision value.
Proof. solve_decision. Defined.

(** [ToBoolean]. *)
Definition truthy (v : value) : bool :=
  match v with
  | Undefined | Null | NaN => false
  | Bool b => b
  | Num n => negb (n =? 0)
  | Str s => negb (String.eqb s "")
  end.

(** [v === s] for a string literal [s]. *)
Definition strict_eq_str (v : value) (s : string) : bool :=
  match v with
  | Str t => String.eqb t s
  | _ => false
  end.

(** [arr.reduce((sum, x) => sum + f(x), 0)]. *)
Definition reduce_sum {A : Type} (f : A -> Z) (arr : list A) : Z :=
  fold_left (fun sum x => sum + f x) arr 0.

(** The sum of a list of numbers, by recursion on the list. *)
Fixpoint total (l : list Z) : Z :=
  match l with
  | [] => 0
  | x :: l' => x + total l'
  end.

(** [hay.includes(needle)] *)
Fixpoint includes (hay needle : string) : bool :=
  String.prefix needle hay
  || match hay with
     | EmptyString => false
     | String _ rest => includes rest needle
     end.

(** [Array.prototype.sort(cmp)] is stable: elements that compare equal keep
    their order.  The result is the one of inserting the elements from the
    right, each before the first element it does not come after. *)
Fixpoint insert {A : Type} (cmp : A -> A -> Z) (x : A) (arr : list A) : list A :=
  match arr with
  | [] => [x]
  | y :: arr' => if cmp x y <=? 0 then x :: y :: arr' else y :: insert cmp x arr'
  end.

Definition sort {A : Type} (cmp : A -> A -> Z) (arr : list A) : list A :=
  fold_right (insert cmp) [] arr.

End JS.

(** ** Records of the deposits and loans collections *)

(** A [timestamp] field is either a Firestore [Timestamp] (it has [toDate])
    or a value handed to [new Date(...)]. *)
Inductive Timestamp : Type :=
| FirestoreTimestamp (ms : Z)
| RawDate (ms : Z).

(** [ts.toDate ? ts.toDate() : new Date(ts)] *)
Definition toDateOrNew (ts : Timestamp) : Z :=
  match ts with
  | FirestoreTimestamp ms => ms
  | RawDate ms => ms
  end.

Record Deposit : Type := mkDeposit {
  deposit_id : string;
  deposit_userId : string;
  deposit_amount : Z;
  deposit_timestamp : Timestamp
}.

Record Loan : Type := mkLoan {
  loan_id : string;
  loan_userId : string;
  loan_amount : Z;
  loan_timestamp : Timestamp;
  paymentStatus : JS.value;
  paid : JS.value
}.

(** The fields the pipeline reads from a document of either collection. *)
Class Doc (R : Type) : Type := {
  docId : R -> string;
  userId : R -> string;
  amount : R -> Z;
  timestamp : R -> Timestamp
}.

#[global] Instance Deposit_Doc : Doc Deposit :=
  {| docId := deposit_id; userId := deposit_userId;
     amount := deposit_amount; timestamp := deposit_timestamp |}.

#[global] Instance Loan_Doc : Doc Loan :=
  {| docId := loan_id; userId := loan_userId;
     amount := loan_amount; timestamp := loan_timestamp |}.

Definition date {R} `{Doc R} (r : R) : Z := toDateOrNew (timestamp r).

(** [d >= startDate && d <= endDate] on the date of a record: the test of the
    month filters and of the fallback query. *)
Definition within {R} `{Doc R} (startDate endDate : Z) (r : R) : bool :=
  (startDate <=? date r) && (date r <=? endDate).

Record UserTotals : Type := mkUserTotals {
  totalDeposits : Z;
  totalLoans : Z;
  paidLoansCount : nat;
  unpaidLoansCount : nat
}.

(** ** The aggregator of the report page *)

Module AnnualReports.

(** [calculateUserTotals] of [AnnualReports.jsx], the one the page calls. *)
Definition calculateUserTotals (deposits : list Deposit) (loans : list Loan)
  : UserTotals :=
  let totalDeposits := JS.reduce_sum amount deposits in
  let totalLoans := JS.reduce_sum amount loans in
  let paidLoansCount :=
    length (List.filter
              (fun loan => JS.strict_eq_str (paymentStatus loan) "approved")
              loans) in
  let unpaidLoansCount :=
    length (List.filter
              (fun loan => negb (JS.strict_eq_str (paymentStatus loan) "approved"))
              loans) in
  {| totalDeposits := totalDeposits;
     totalLoans := totalLoans;
     paidLoansCount := paidLoansCount;
     unpaidLoansCount := unpaidLoansCount |}.

End AnnualReports.

Module ReportUtils.

(** [calculateUserTotals] exported by [reportUtils.js]: it classifies by
    the truthiness of the [paid] field.  No page imports it. *)
Definition calculateUserTotals (deposits : list Deposit) (loans : list Loan)
  : UserTotals :=
  let totalDeposits := JS.reduce_sum amount deposits in
  let totalLoans := JS.reduce_sum amount loans in
  let paidLoansCount :=
    length (List.filter (fun loan => JS.truthy (paid loan)) loans) in
  let unpaidLoansCount :=
    length (List.filter (fun loan => negb (JS.truthy (paid loan))) loans) in
  {| totalDeposits := totalDeposits;
     totalLoans := totalLoans;
     paidLoansCount := paidLoansCount;
     unpaidLoansCount := unpaidLoansCount |}.

End ReportUtils.

(** The example of the specification: two deposits, one approved loan and one
    pending loan. *)
Definition example_deposits : list Deposit :=
  [ mkDeposit "d1" "u1" 3000 (RawDate 0); mkDeposit "d2" "u1" 2000 (RawDate 0) ].

Definition example_loans : list Loan :=
  [ mkLoan "l1" "u1" 1000 (RawDate 0) (JS.Str "approved") JS.Undefined;
    mkLoan "l2" "u1" 1000 (RawDate 0) (JS.Str "pending") JS.Undefined ].

(** ** Pagination *)

Module Pagination.

(** [Array.prototype.slice(start, end)]: negative indices count from the end,
    both are clamped to the length, and an empty range gives the empty
    array. *)
Definition slice {A : Type} (arr : list A) (start end_ : Z) : list A :=
  let len := Z.of_nat (length arr) in
  let k := if start <? 0 then Z.max (len + start) 0 else Z.min start len in
  let final := if end_ <? 0 then Z.max (len + end_) 0 else Z.min end_ len in
  take (Z.to_nat (final - k)) (drop (Z.to_nat k) arr).

(** [Math.ceil(n / d)] on integers, for a positive [d]. *)
Definition Math_ceil_div (n d : Z) : Z := - ((- n) / d).

Section Table.

Context {A : Type}.
Variable itemsPerPage : Z.

(** [const totalPages = Math.ceil(data.length / itemsPerPage)] *)
Definition totalPages (data : list A) : Z :=
  Math_ceil_div (Z.of_nat (length data)) itemsPerPage.

Definition startIndex (currentPage : Z) : Z := (currentPage - 1) * itemsPerPage.

Definition endIndex (currentPage : Z) : Z := startIndex currentPage + itemsPerPage.

(** [data.slice(startIndex, endIndex)]: the rows on display. *)
Definition currentData (data : list A) (currentPage : Z) : list A :=
  slice data (startIndex currentPage) (endIndex currentPage).

(** [setCurrentPage(prev => Math.max(prev - 1, 1))] *)
Definition onPrevious (prev : Z) : Z := Z.max (prev - 1) 1.

(** [setCurrentPage(prev => Math.min(prev + 1, totalPages))] *)
Definition onNext (data : list A) (prev : Z) : Z := Z.min (prev + 1) (totalPages data).

(** [Array.from({ length: totalPages }, (_, i) => i + 1)]: the page buttons. *)
Definition pageButtons (data : list A) : list Z :=
  map (fun i => Z.of_nat i + 1) (seq 0 (Z.to_nat (totalPages data))).

(** The page-index state of a table and the rows it is given. *)
Record TableState : Type := mkTableState {
  rows : list A;
  currentPage : Z
}.

Definition initial (data : list A) : TableState :=
  {| rows := data; currentPage := 1 |}.

(** What can happen to a [PaginatedTable]: a press of Previous, of Next or
    of a page button, which are rendered only when [totalPages > 1]; a new
    [data] prop, which leaves [currentPage] as it is. *)
Inductive table_step : TableState -> TableState -> Prop :=
| table_previous s :
    1 < totalPages (rows s) ->
    table_step s {| rows := rows s; currentPage := onPrevious (currentPage s) |}
| table_next s :
    1 < totalPages (rows s) ->
    table_step s {| rows := rows s; currentPage := onNext (rows s) (currentPage s) |}
| table_goto s page :
    1 < totalPages (rows s) ->
    In page (pageButtons (rows s)) ->
    table_step s {| rows := rows s; currentPage := page |}
| table_data s data :
    table_step s {| rows := data; currentPage := currentPage s |}.

(** States reached from a first render. *)
Inductive reaches (step : TableState -> TableState -> Prop) (s0 : TableState)
  : TableState -> Prop :=
| reaches_here : reaches step s0 s0
| reaches_step s s' : reaches step s0 s -> step s s' -> reaches step s0 s'.

(** The page index is within the pages, or is 1 when there is no page. *)
Definition page_in_range (s : TableState) : Prop :=
  1 <= currentPage s <= Z.max 1 (totalPages (rows s)).

End Table.

End Pagination.

(** Twelve rows in a [PaginatedTable] of five per page, the third page on
    display; then the table is given three rows. *)
Definition twelve_rows : list Z := [1; 2; 3; 4; 5; 6; 7; 8; 9; 10; 11; 12].

Definition shrunk_table : Pagination.TableState :=
  {| Pagination.rows := [1; 2; 3]; Pagination.currentPage := 3 |}.

(** ** Dates *)

Module JSDate.

Definition msPerDay : Z := 86400000.

(** Days from 1970-01-01 to the civil date [y]-[m]-[d], [m] from 1 to 12. *)
Definition days_from_civil (y m d : Z) : Z :=
  let y' := if m <=? 2 then y - 1 else y in
  let era := y' / 400 in
  let yoe := y' - era * 400 in
  let doy := (153 * (if m >? 2 then m - 3 else m + 9) + 2) / 5 + d - 1 in
  let doe := yoe * 365 + yoe / 4 - yoe / 100 + doy in
  era * 146097 + doe - 719468.

(** The civil year, the month index (0 to 11) and the day of the month of a
    day number. *)
Definition civil_from_days (days : Z) : Z * Z * Z :=
  let z := days + 719468 in
  let era := z / 146097 in
  let doe := z - era * 146097 in
  let yoe := (doe - doe / 1460 + doe / 36524 - doe / 146096) / 365 in
  let doy := doe - (365 * yoe + yoe / 4 - yoe / 100) in
  let mp := (5 * doy + 2) / 153 in
  let m := if mp <? 10 then mp + 3 else mp - 9 in
  (yoe + era * 400 + (if m <=? 2 then 1 else 0), m - 1,
   doy - (153 * mp + 2) / 5 + 1).

(** [MakeDay(year, month, date)]: months beyond 0..11 carry into the year,
    and the day of the month counts on from the first of the month, so that
    day 0 is the last day of the month before. *)
Definition MakeDay (year month date : Z) : Z :=
  let ym := year + month / 12 in
  let mn := month mod 12 in
  days_from_civil ym (mn + 1) 1 + date - 1.

(** [new Date(year, monthIndex, day)]: local midnight; a year from 0 to 99
    stands for 1900 + year. *)
Definition Date_new (year monthIndex day : Z) : Z :=
  let yr := if (0 <=? year) && (year <=? 99) then 1900 + year else year in
  MakeDay yr monthIndex day * msPerDay.

Definition getFullYear (t : Z) : Z := fst (fst (civil_from_days (t / msPerDay))).

Definition getMonth (t : Z) : Z := snd (fst (civil_from_days (t / msPerDay))).

Definition getDate (t : Z) : Z := snd (civil_from_days (t / msPerDay)).

Definition monthNames : list string :=
  ["Jan"; "Feb"; "Mar"; "Apr"; "May"; "Jun";
   "Jul"; "Aug"; "Sep"; "Oct"; "Nov"; "Dec"]%string.

(** date-fns [startOfYear]: the first instant of the year of [t]. *)
Definition startOfYear (t : Z) : Z := MakeDay (getFullYear t) 0 1 * msPerDay.

(** date-fns [endOfYear]: [setFullYear(year + 1, 0, 0)] and
    [setHours(23, 59, 59, 999)], the last millisecond of the year of [t]. *)
Definition endOfYear (t : Z) : Z :=
  MakeDay (getFullYear t + 1) 0 0 * msPerDay + (msPerDay - 1).

(** date-fns [format(t, 'MMM')]. *)
Definition format_MMM (t : Z) : string :=
  nth (Z.to_nat (getMonth t)) monthNames ""%string.

End JSDate.

(** ** Grouping by month *)

Module MonthGrouping.

Definition getStartOfYear (year : Z) : Z :=
  JSDate.startOfYear (JSDate.Date_new year 0 1).

Definition getEndOfYear (year : Z) : Z :=
  JSDate.endOfYear (JSDate.Date_new year 0 1).

Definition getStartOfMonth (year month : Z) : Z :=
  JSDate.Date_new year (month - 1) 1.

Definition getEndOfMonth (year month : Z) : Z :=
  JSDate.Date_new year month 0.

Record MonthBucket : Type := mkMonthBucket {
  month : string;
  deposits : Z;
  loans : Z
}.

(** The body of the loop of [groupDataByMonth] for one [month]. *)
Definition monthBucket (deposits : list Deposit) (loans : list Loan)
           (year month : Z) : MonthBucket :=
  let monthStart := getStartOfMonth year month in
  let monthEnd := getEndOfMonth year month in
  let monthDeposits := List.filter (within monthStart monthEnd) deposits in
  let monthLoans := List.filter (within monthStart monthEnd) loans in
  {| month := JSDate.format_MMM monthStart;
     deposits := JS.reduce_sum amount monthDeposits;
     loans := JS.reduce_sum amount monthLoans |}.

(** [for (let month = 1; month <= 12; month++) monthlyData.push(...)] *)
Definition groupDataByMonth (deposits : list Deposit) (loans : list Loan)
           (year : Z) : list MonthBucket :=
  map (fun i => monthBucket deposits loans year (Z.of_nat i)) (seq 1 12).

(** The amounts of the records of the calendar year, the year running from
    [getStartOfYear] to [getEndOfYear] as in [fetchUserReports]. *)
Definition yearTotal {R} `{Doc R} (records : list R) (year : Z) : Z :=
  JS.total (map amount
              (List.filter (within (getStartOfYear year) (getEndOfYear year))
                           records)).

(** A deposit of 100 made on 31 January 2023 at 10:00. *)
Definition last_day_deposit : Deposit :=
  mkDeposit "d1" "u1" 100
            (FirestoreTimestamp (JSDate.Date_new 2023 0 31 + 10 * 3600000)).

End MonthGrouping.

(** ** The data fetcher *)

Module Fetcher.

(** A Firestore query on a collection: [where('userId', 'in', userIds)],
    with or without the two [where] on [timestamp] and
    [orderBy('timestamp', 'desc')]. *)
Record Query : Type := mkQuery {
  collectionName : string;
  userId_in : list string;
  timestamp_between : option (Z * Z);
  orderBy_timestamp_desc : bool
}.

(** What [await getDocs(query)] gives: a snapshot, or an error thrown. *)
Inductive QueryResult (R : Type) : Type :=
| Snapshot (docs : list R)
| Rejected (message : string).

Arguments Snapshot {R} docs.
Arguments Rejected {R} message.

Definition rangeOrderQuery (coll : string) (userIds : list string)
           (startDate endDate : Z) : Query :=
  mkQuery coll userIds (Some (startDate, endDate)) true.

Definition equalityQuery (coll : string) (userIds : list string) : Query :=
  mkQuery coll userIds None false.

Section Fetch.

Context {R : Type} `{Doc R}.

(** [if (!data[r.userId]) data[r.userId] = []; data[r.userId].push(r)] *)
Definition push (data : gmap string (list R)) (r : R) : gmap string (list R) :=
  <[userId r := default [] (data !! userId r) ++ [r]]> data.

(** The [forEach] of the indexed path: every document, by user. *)
Definition collect (docs : list R) : gmap string (list R) :=
  fold_left push docs ∅.

(** The [forEach] of the fallback path: the documents within the dates. *)
Definition collectWithin (startDate endDate : Z) (docs : list R)
  : gmap string (list R) :=
  fold_left (fun data r => if within startDate endDate r then push data r else data)
            docs ∅.

(** [(a, b) => dateB - dateA] *)
Definition byDateDesc (a b : R) : Z := date b - date a.

(** [Object.keys(data).forEach(userId => data[userId].sort(...))] *)
Definition sortEach (data : gmap string (list R)) : gmap string (list R) :=
  JS.sort byDateDesc <$> data.

(** [fetchDepositsForUsers] and [fetchLoansForUsers], which differ in the
    collection they name.  An error of the fallback query, and an error of
    the indexed query that is not about the index, reach the outer [catch],
    which returns [{}].  The notice set with [setIndexError] is left out. *)
Definition fetchForUsers (getDocs : Query -> QueryResult R) (coll : string)
           (userIds : list string) (startDate endDate : Z)
  : gmap string (list R) :=
  match getDocs (rangeOrderQuery coll userIds startDate endDate) with
  | Snapshot docs => collect docs
  | Rejected message =>
      if JS.includes message "requires an index" then
        match getDocs (equalityQuery coll userIds) with
        | Snapshot docs => sortEach (collectWithin startDate endDate docs)
        | Rejected _ => ∅
        end
      else ∅
  end.




End Fetch.



End Fetcher.




(** Two backends over the same two deposits of one user: one without the
    composite index, one with it.  With the index, records of equal timestamp
    come in descending order of document name, as the index the page links to
    declares ([userId] ascending, [timestamp] descending, [__name__]
    descending); the equality query delivers in ascending order of name. *)
Module FetcherExamples.






End FetcherExamples.

(** ** Exceptions *)

Module Exc.

(** An [Error] object, as the code reads it: its [message]. *)
Record Error : Type := mkError {
  name : string;
  message : string
}.

(** A computation returns a value or throws. *)
Inductive result (A : Type) : Type :=
| Ok (a : A)
| Throw (e : Error).

Arguments Ok {A} a.
Arguments Throw {A} e.

Definition bind {A B : Type} (m : result A) (k : A -> result B) : result B :=
  match m with
  | Ok a => k a
  | Throw e => Throw e
  end.

(** [try { body } catch (error) { handler }] *)
Definition try_catch {A : Type} (body : result A) (handler : Error -> result A)
  : result A :=
  match body with
  | Ok a => Ok a
  | Throw e => handler e
  end.

End Exc.

(** ** The block-status check *)

Module UserBlocking.

Record User : Type := mkUser { uid : string }.

(** The data of a document of the [users] collection, as far as read here. *)
Record UserData : Type := mkUserData { isBlocked : JS.value }.

(** A [DocumentSnapshot]: [exists()] holds when there is data. *)
Record DocumentSnapshot : Type := mkSnapshot { data : option UserData }.

Definition exists_ (snap : DocumentSnapshot) : bool :=
  match data snap with Some _ => true | None => false end.

(** [v === true] *)
Definition strict_eq_true (v : JS.value) : bool :=
  match v with JS.Bool true => true | _ => false end.

(** [checkUserBlockStatus]: [currentUser] is [auth.currentUser], [getDoc]
    what [await getDoc(doc(db, 'users', uid))] gives or throws. *)
Definition checkUserBlockStatus (currentUser : option User)
           (getDoc : string -> Exc.result DocumentSnapshot) : Exc.result bool :=
  Exc.try_catch
    (match currentUser with
     | None => Exc.Ok false
     | Some user =>
         Exc.bind (getDoc (uid user)) (fun userDocSnap =>
           match data userDocSnap with
           | Some userData => Exc.Ok (strict_eq_true (isBlocked userData))
           | None => Exc.Ok false
           end)
     end)
    (fun error => Exc.Ok false).

End UserBlocking.

(** ** Numbers and their reading from strings *)

Module JSNumber.

(** A Number value: a finite value is given by the rational it equals. *)
Inductive number : Type :=
| NaN
| Infinity (negative : bool)
| Finite (q : Q).

Definition isNaN (x : number) : bool :=
  match x with NaN => true | _ => false end.

(** [a < b]: false as soon as one side is [NaN]. *)
Definition lt (a b : number) : bool :=
  match a, b with
  | NaN, _ | _, NaN => false
  | Infinity true, Infinity true => false
  | Infinity true, _ => true
  | _, Infinity true => false
  | Infinity false, _ => false
  | Finite _, Infinity false => true
  | Finite x, Finite y => negb (Qle_bool y x)
  end.

(** [a > b] *)
Definition gt (a b : number) : bool := lt b a.

Definition code (c : ascii) : Z := Z.of_N (N_of_ascii c).

(** White space and line terminators among the 8-bit code units. *)
Definition isWhiteSpace (c : ascii) : bool :=
  let n := code c in
  (n =? 9) || (n =? 10) || (n =? 11) || (n =? 12) || (n =? 13)
  || (n =? 32) || (n =? 160).

Fixpoint trimStart (s : string) : string :=
  match s with
  | EmptyString => EmptyString
  | String c rest => if isWhiteSpace c then trimStart rest else s
  end.

Fixpoint trimEnd (s : string) : string :=
  match s with
  | EmptyString => EmptyString
  | String c rest =>
      let rest' := trimEnd rest in
      if isWhiteSpace c && String.eqb rest' "" then EmptyString
      else String c rest'
  end.

Definition trim (s : string) : string := trimEnd (trimStart s).

(** The value of a digit or letter as a digit. *)
Definition digitValue (c : ascii) : option Z :=
  let n := code c in
  if (48 <=? n) && (n <=? 57) then Some (n - 48)
  else if (97 <=? n) && (n <=? 122) then Some (n - 87)
  else if (65 <=? n) && (n <=? 90) then Some (n - 55)
  else None.

(** The longest run of digits of the radix at the head of [s], and the rest. *)
Fixpoint scanDigits (radix : Z) (s : string) : list Z * string :=
  match s with
  | EmptyString => ([], EmptyString)
  | String c rest =>
      match digitValue c with
      | Some d =>
          if d <? radix
          then let '(ds, rest') := scanDigits radix rest in (d :: ds, rest')
          else ([], s)
      | None => ([], s)
      end
  end.

Definition digitsValue (radix : Z) (ds : list Z) : Z :=
  fold_left (fun acc d => acc * radix + d) ds 0.

Definition nonEmpty {A : Type} (l : list A) : bool :=
  match l with [] => false | _ => true end.

(** An optional sign at the head of [s]: whether it is [-], and the rest. *)
Definition scanSign (s : string) : bool * string :=
  match s with
  | String "+" r => (false, r)
  | String "-" r => (true, r)
  | _ => (false, s)
  end.

(** [ExponentPart]: [e] or [E], an optional sign, at least one digit. *)
Definition scanExponent (s : string) : option (Z * string) :=
  match s with
  | String c rest =>
      if Ascii.eqb c "e" || Ascii.eqb c "E" then
        let '(negative, rest1) := scanSign rest in
        let '(ds, rest2) := scanDigits 10 rest1 in
        if nonEmpty ds
        then Some (if negative then - digitsValue 10 ds else digitsValue 10 ds, rest2)
        else None
      else None
  | EmptyString => None
  end.

(** A [.] at the head of [s] and the digits after it. *)
Definition scanFraction (s : string) : bool * list Z * string :=
  match s with
  | String "." r => let '(fp, r') := scanDigits 10 r in (true, fp, r')
  | _ => (false, [], s)
  end.

(** The radix that the letter after a leading [0] announces. *)
Definition radixOf (c : ascii) : option Z :=
  if Ascii.eqb c "x" || Ascii.eqb c "X" then Some 16
  else if Ascii.eqb c "o" || Ascii.eqb c "O" then Some 8
  else if Ascii.eqb c "b" || Ascii.eqb c "B" then Some 2
  else None.

Section Reading.

(** The Number value of a rational: its rounding to binary64. *)
Variable round : Q -> number.

(** The longest prefix of [s] that is a [StrDecimalLiteral], as a Number,
    and what follows it. *)
Definition scanStrDecimalLiteral (s : string) : option (number * string) :=
  let '(negative, s1) := scanSign s in
  if String.prefix "Infinity" s1
  then Some (Infinity negative, String.substring 8 (String.length s1 - 8) s1)
  else
    let '(ip, s2) := scanDigits 10 s1 in
    let '(hasDot, fp, s3) := scanFraction s2 in
    if nonEmpty ip || (hasDot && nonEmpty fp) then
      let '(e, s4) :=
        match scanExponent s3 with
        | Some (e, r) => (e, r)
        | None => (0, s3)
        end in
      let m := digitsValue 10 (ip ++ fp) in
      let q := (inject_Z m * Qpower (inject_Z 10) (e - Z.of_nat (length fp)))%Q in
      Some (round (if negative then Qopp q else q), s4)
    else None.

(** [0x], [0o] and [0b] literals: [Some] when [s] begins as one. *)
Definition nonDecimalLiteral (s : string) : option number :=
  match s with
  | String "0" (String c rest) =>
      match radixOf c with
      | Some r =>
          let '(ds, rest') := scanDigits r rest in
          if nonEmpty ds && String.eqb rest' ""
          then Some (round (inject_Z (digitsValue r ds)))
          else Some NaN
      | None => None
      end
  | _ => None
  end.

(** [Number(s)]: the whole string, white space trimmed, must be a numeric
    literal; the empty string is 0. *)
Definition Number (s : string) : number :=
  let t := trim s in
  if String.eqb t "" then Finite 0
  else match nonDecimalLiteral t with
       | Some n => n
       | None =>
           match scanStrDecimalLiteral t with
           | Some (n, EmptyString) => n
           | _ => NaN
           end
       end.

(** [parseFloat(s)]: the longest decimal literal at the head of the string,
    leading white space skipped. *)
Definition parseFloat (s : string) : number :=
  match scanStrDecimalLiteral (trimStart s) with
  | Some (n, _) => n
  | None => NaN
  end.

End Reading.

(** Every rational taken as a Number of its own. *)
Definition exact (q : Q) : number := Finite (Qred q).

End JSNumber.

(** ** What a number input delivers *)

(** The value of [<input type="number">] is the empty string or a valid
    floating-point number: an optional [-], digits, or digits (possibly none)
    with a [.] and at least one digit after it, and optionally an exponent
    with [e] or [E], an optional sign and at least one digit. *)
Module NumberInput.

Definition isDigit (d : Z) : Prop := 0 <= d <= 9.

Definition digitChar (d : Z) : ascii := ascii_of_N (Z.to_N (48 + d)).

Fixpoint digitsText (ds : list Z) : string :=
  match ds with
  | [] => EmptyString
  | d :: ds' => String (digitChar d) (digitsText ds')
  end.

Record FloatText : Type := mkFloatText {
  negative : bool;
  integerDigits : list Z;
  fractionDigits : list Z;
  exponentPart : option (bool * option bool * list Z)
}.

Definition exponentText (e : option (bool * option bool * list Z)) : string :=
  match e with
  | None => EmptyString
  | Some (capital, sign, ds) =>
      String (if capital then "E" else "e")%char
             ((match sign with
               | None => EmptyString
               | Some true => "-"
               | Some false => "+"
               end) ++ digitsText ds)
  end.

Definition fractionText (fp : list Z) : string :=
  match fp with
  | [] => EmptyString
  | _ => String "." (digitsText fp)
  end.

Definition text (ft : FloatText) : string :=
  (if negative ft then "-" else "")
    ++ digitsText (integerDigits ft)
    ++ fractionText (fractionDigits ft)
    ++ exponentText (exponentPart ft).

Definition wellFormed (ft : FloatText) : Prop :=
  Forall isDigit (integerDigits ft)
  /\ Forall isDigit (fractionDigits ft)
  /\ (integerDigits ft <> [] \/ fractionDigits ft <> [])
  /\ match exponentPart ft with
     | None => True
     | Some (_, _, ds) => Forall isDigit ds /\ ds <> []
     end.

Definition exponentValue (e : option (bool * option bool * list Z)) : Z :=
  match e with
  | None => 0
  | Some (_, Some true, ds) => - JSNumber.digitsValue 10 ds
  | Some (_, _, ds) => JSNumber.digitsValue 10 ds
  end.

Definition value (ft : FloatText) : Q :=
  let m := JSNumber.digitsValue 10 (integerDigits ft ++ fractionDigits ft) in
  let q := (inject_Z m
            * Qpower (inject_Z 10)
                     (exponentValue (exponentPart ft)
                      - Z.of_nat (length (fractionDigits ft))))%Q in
  if negative ft then Qopp q else q.

(** The head of [s] is not a decimal digit. *)
Definition stops (s : string) : Prop :=
  match s with
  | EmptyString => True
  | String c _ =>
      match JSNumber.digitValue c with
      | Some d => 10 <= d
      | None => True
      end
  end.

(** The characters of a number text. *)
Definition floatChar (c : ascii) : bool :=
  let n := JSNumber.code c in
  ((48 <=? n) && (n <=? 57))
  || Ascii.eqb c "." || Ascii.eqb c "-" || Ascii.eqb c "+"
  || Ascii.eqb c "e" || Ascii.eqb c "E".

Fixpoint allChars (p : ascii -> bool) (s : string) : bool :=
  match s with
  | EmptyString => true
  | String c rest => p c && allChars p rest
  end.

End NumberInput.
(** ** Amounts as the Numbers they are *)

Module Binary64.

Import JSNumber.

(** The rational [n / d] divided by [2 ^ k], as a numerator and a
    denominator. *)
Definition scale2 (k n d : Z) : Z * Z :=
  if 0 <=? k then (n, d * 2 ^ k) else (n * 2 ^ (- k), d).

(** The integer [e] with [2 ^ e <= n / d < 2 ^ (e + 1)], for positive [n]
    and [d]. *)
Definition exponent (n d : Z) : Z :=
  let e0 := Z.log2 n - Z.log2 d in
  let '(n', d') := scale2 e0 n d in
  if d' <=? n' then e0 else e0 - 1.

(** The integer nearest to [n / d]; of two that are as near, the even one. *)
Definition roundHalfEven (n d : Z) : Z :=
  let q := n / d in
  let r := n mod d in
  if 2 * r <? d then q
  else if d <? 2 * r then q + 1
  else if Z.even q then q else q + 1.

(** The binary64 value nearest to [n / d], for positive [n] and [d]: a
    multiple of [2 ^ p], where [p] leaves 53 significant bits and is -1074 at
    least. *)
Definition nearest (n d : Z) : Q :=
  let p := Z.max (exponent n d) (-1022) - 52 in
  let '(n', d') := scale2 p n d in
  let m := roundHalfEven n' d' in
  if 0 <=? p then inject_Z (m * 2 ^ p)
  else Qred (m # Z.to_pos (2 ^ (- p))).

(** The Number value for a real number (ECMAScript 6.1.6.1): the binary64
    value nearest to it, the one with an even significand of two that are
    as near, and an infinity from 2^1024 - 2^970 on.  The two zeros are not
    told apart. *)
Definition round (x : Q) : number :=
  match Qnum x with
  | 0 => Finite 0
  | _ =>
      let v := nearest (Z.abs (Qnum x)) (Z.pos (Qden x)) in
      if Qle_bool (inject_Z (2 ^ 1024)) v then Infinity (Qnum x <? 0)
      else Finite (if Qnum x <? 0 then Qopp v else v)
  end.

(** [x + y] on Numbers (ECMAScript [Number::add]): the Number value for the
    sum of two finite values. *)
Definition add (x y : number) : number :=
  match x, y with
  | NaN, _ | _, NaN => NaN
  | Infinity s, Infinity s' => if Bool.eqb s s' then Infinity s else NaN
  | Infinity s, Finite _ => Infinity s
  | Finite _, Infinity s => Infinity s
  | Finite a, Finite b => round (a + b)
  end.

(** [arr.reduce((sum, x) => sum + f(x), 0)] *)
Definition reduce_sum {A : Type} (f : A -> number) (arr : list A) : number :=
  fold_left (fun sum x => add sum (f x)) arr (Finite 0).

(** A whole number as a Number; it is that number up to 2^53. *)
Definition ofZ (n : Z) : number := Finite (inject_Z n).

(** The sum of the absolute values. *)
Definition magnitude (l : list Z) : Z := JS.total (map Z.abs l).

(** A deposit and a loan as [calculateUserTotals] reads them. *)
Record Deposit : Type := mkDeposit {
  deposit_amount : number
}.

Record Loan : Type := mkLoan {
  loan_amount : number;
  paymentStatus : JS.value;
  paid : JS.value
}.

Record UserTotals : Type := mkUserTotals {
  totalDeposits : number;
  totalLoans : number;
  paidLoansCount : nat;
  unpaidLoansCount : nat
}.

Module AnnualReports.

(** [calculateUserTotals] of [AnnualReports.jsx] *)
Definition calculateUserTotals (deposits : list Deposit) (loans : list Loan)
  : UserTotals :=
  let totalDeposits := reduce_sum deposit_amount deposits in
  let totalLoans := reduce_sum loan_amount loans in
  let paidLoansCount :=
    length (List.filter
              (fun loan => JS.strict_eq_str (paymentStatus loan) "approved")
              loans) in
  let unpaidLoansCount :=
    length (List.filter
              (fun loan => negb (JS.strict_eq_str (paymentStatus loan) "approved"))
              loans) in
  {| totalDeposits := totalDeposits;
     totalLoans := totalLoans;
     paidLoansCount := paidLoansCount;
     unpaidLoansCount := unpaidLoansCount |}.

End AnnualReports.

Module ReportUtils.

(** [calculateUserTotals] of [reportUtils.js] *)
Definition calculateUserTotals (deposits : list Deposit) (loans : list Loan)
  : UserTotals :=
  let totalDeposits := reduce_sum deposit_amount deposits in
  let totalLoans := reduce_sum loan_amount loans in
  let paidLoansCount :=
    length (List.filter (fun loan => JS.truthy (paid loan)) loans) in
  let unpaidLoansCount :=
    length (List.filter (fun loan => negb (JS.truthy (paid loan))) loans) in
  {| totalDeposits := totalDeposits;
     totalLoans := totalLoans;
     paidLoansCount := paidLoansCount;
     unpaidLoansCount := unpaidLoansCount |}.

End ReportUtils.

(** Deposits and loans of whole amounts. *)
Definition wholeDeposits (amounts : list Z) : list Deposit :=
  map (fun n => mkDeposit (ofZ n)) amounts.

Definition wholeLoans (amounts : list Z) : list Loan :=
  map (fun n => mkLoan (ofZ n) JS.Undefined JS.Undefined) amounts.

(** Deposits of decimal amounts: each is the Number value for the decimal. *)
Definition decimalDeposits (amounts : list Q) : list Deposit :=
  map (fun q => mkDeposit (round q)) amounts.

End Binary64.

(** ** The interest-rate settings page *)

Module InterestSettings.

(** A document of the [interest] collection. *)
Record InterestDoc : Type := mkInterestDoc {
  doc_interest : JSNumber.number;
  doc_timestamp : Z
}.

(** The state of the component that [handleSave] reads and sets. *)
Record State : Type := mkState {
  interest : string;
  interestDocId : option string;
  saving : bool;
  message : option string;
  messageType : string
}.

(** The writes sent to Firestore. *)
Inductive Call : Type :=
| UpdateDoc (id : string) (data : InterestDoc)
| SetDoc (id : string) (data : InterestDoc).

Definition callData (c : Call) : InterestDoc :=
  match c with
  | UpdateDoc _ data => data
  | SetDoc _ data => data
  end.

(** The component, the [interest] collection, the writes issued so far, and
    what Firestore answers to the requests to come, in order: [Some error]
    to a request it rejects, [None] to one it fulfils; the requests past the
    end of the list are fulfilled. *)
Record World : Type := mkWorld {
  state : State;
  store : gmap string InterestDoc;
  issued : list Call;
  pending : list (option Exc.Error)
}.

(** A step of the handler: it returns or throws, and leaves a world. *)
Definition M (A : Type) : Type := World -> Exc.result A * World.

Definition ret {A : Type} (a : A) : M A := fun w => (Exc.Ok a, w).

Definition throw {A : Type} (e : Exc.Error) : M A := fun w => (Exc.Throw e, w).

Definition bind {A B : Type} (m : M A) (k : A -> M B) : M B :=
  fun w =>
    match m w with
    | (Exc.Ok a, w') => k a w'
    | (Exc.Throw e, w') => (Exc.Throw e, w')
    end.

Notation "m ;;; k" := (bind m (fun _ => k))
  (at level 100, right associativity).

(** [try { body } catch (error) { handler } finally { final }] *)
Definition try_catch_finally (body : M unit) (handler : Exc.Error -> M unit)
           (final : M unit) : M unit :=
  fun w =>
    match body w with
    | (Exc.Ok _, w') => final w'
    | (Exc.Throw e, w') =>
        match handler e w' with
        | (Exc.Ok _, w'') => final w''
        | (Exc.Throw e', w'') =>
            match final w'' with
            | (Exc.Ok _, w3) => (Exc.Throw e', w3)
            | thrown => thrown
            end
        end
    end.

Definition modify (f : State -> State) : M unit :=
  fun w => (Exc.Ok tt, {| state := f (state w); store := store w;
                          issued := issued w; pending := pending w |}).

Definition setInterest (v : string) : M unit :=
  modify (fun s => mkState v (interestDocId s) (saving s) (message s) (messageType s)).

Definition setInterestDocId (v : string) : M unit :=
  modify (fun s => mkState (interest s) (Some v) (saving s) (message s) (messageType s)).

Definition setSaving (v : bool) : M unit :=
  modify (fun s => mkState (interest s) (interestDocId s) v (message s) (messageType s)).

Definition setMessage (v : string) : M unit :=
  modify (fun s => mkState (interest s) (interestDocId s) (saving s) (Some v) (messageType s)).

Definition setMessageType (v : string) : M unit :=
  modify (fun s => mkState (interest s) (interestDocId s) (saving s) (message s) v).

(** The call is sent. *)
Definition issue (c : Call) : M unit :=
  fun w => (Exc.Ok tt, {| state := state w; store := store w;
                          issued := issued w ++ [c]; pending := pending w |}).

(** The answer of Firestore to a request: the promise is fulfilled or is
    rejected with an error. *)
Definition answer : M unit :=
  fun w =>
    let w' := {| state := state w; store := store w; issued := issued w;
                 pending := tail (pending w) |} in
    match pending w with
    | Some error :: _ => (Exc.Throw error, w')
    | _ => (Exc.Ok tt, w')
    end.

(** What Firestore answers to the request that comes after [k] others. *)
Definition answerAt (k : nat) (w : World) : option Exc.Error :=
  nth k (pending w) None.

(** The collection is written. *)
Definition write (id : string) (data : InterestDoc) : M unit :=
  fun w => (Exc.Ok tt, {| state := state w; store := <[id := data]> (store w);
                          issued := issued w; pending := pending w |}).

(** [await updateDoc(doc(db, "interest", id), data)]: the fields of [data]
    replace those of the document; the promise is rejected when Firestore
    rejects the request and when there is no document, and nothing is
    written then. *)
Definition updateDoc (id : string) (data : InterestDoc) : M unit :=
  issue (UpdateDoc id data) ;;;
  answer ;;;
  fun w =>
    match store w !! id with
    | Some _ => write id data w
    | None => (Exc.Throw (Exc.mkError "FirebaseError" "No document to update"), w)
    end.

(** [await setDoc(newDocRef, data)]: nothing is written when Firestore
    rejects the request. *)
Definition setDoc (id : string) (data : InterestDoc) : M unit :=
  issue (SetDoc id data) ;;;
  answer ;;;
  write id data.

(** [await getDocs(q)] of the refresh of the chart data: the history it
    sets is not part of the state kept here. *)
Definition refreshHistory : M unit := answer.

Section Handlers.

(** The translation [t] of a message key, the rounding of the reader of
    numbers, and [toFixed(2)]. *)
Variable t : string -> string.
Variable round : Q -> JSNumber.number.
Variable toFixed2 : JSNumber.number -> string.

(** The body of the [try] of [handleSave].  [now] is [new Date()] and
    [newDocId] the identifier of [doc(collection(db, "interest"))]. *)
Definition saveBody (now : Z) (newDocId : string) : M unit :=
  fun w =>
    (let interestValue := JSNumber.parseFloat round (interest (state w)) in
     if JSNumber.lt interestValue (JSNumber.Finite 0)
        || JSNumber.gt interestValue (JSNumber.Finite 100)
     then throw (Exc.mkError "Error" (t "error_interest_rate_range"))
     else
       let interestData :=
         {| doc_interest := interestValue; doc_timestamp := now |} in
       (match interestDocId (state w) with
        | Some id => updateDoc id interestData
        | None => setDoc newDocId interestData ;;; setInterestDocId newDocId
        end) ;;;
       setMessage (t "success_interest_rate_saved") ;;;
       setMessageType "success" ;;;
       refreshHistory) w.

(** [handleSave] *)
Definition handleSave (now : Z) (newDocId : string) : M unit :=
  fun w =>
    (if String.eqb (interest (state w)) ""
        || JSNumber.isNaN (JSNumber.Number round (interest (state w)))
     then
       setMessage (t "error_invalid_interest_rate") ;;;
       setMessageType "error"
     else
       setSaving true ;;;
       try_catch_finally
         (saveBody now newDocId)
         (fun error =>
            setMessage (t "error_save_interest_rate" ++ Exc.message error) ;;;
            setMessageType "error")
         (setSaving false)) w.

(** The world after [handleSave]. *)
Definition afterSave (now : Z) (newDocId : string) (w : World) : World :=
  snd (handleSave now newDocId w).

(** The message after a write that Firestore fulfilled: of success, or of
    the error of the refresh when Firestore rejects it. *)
Definition saved (w w' : World) : Prop :=
  match answerAt 1 w with
  | Some error =>
      messageType (state w') = "error"%string
      /\ message (state w')
         = Some (t "error_save_interest_rate" ++ Exc.message error)%string
  | None =>
      messageType (state w') = "success"%string
      /\ message (state w') = Some (t "success_interest_rate_saved")
  end.

(** What is left after a write that was rejected with [error]: the
    collection and the identifier as they were, and the message of the
    error. *)
Definition notSaved (error : Exc.Error) (w w' : World) : Prop :=
  store w' = store w
  /\ interestDocId (state w') = interestDocId (state w)
  /\ messageType (state w') = "error"%string
  /\ message (state w')
     = Some (t "error_save_interest_rate" ++ Exc.message error)%string.

(** [fetchInterest], given the snapshot of the query ordered by timestamp,
    newest first: the first document becomes the current one. *)
Definition fetchInterest (snap : Exc.result (list (string * InterestDoc))) : M unit :=
  match snap with
  | Exc.Ok ((id, docData) :: _) =>
      setInterest (toFixed2 (doc_interest docData)) ;;;
      setInterestDocId id
  | Exc.Ok [] => setInterest "10.00"
  | Exc.Throw _ =>
      setMessage (t "error_fetch_interest_rate") ;;;
      setMessageType "error"
  end.

(** The input changes: [onChange={(e) => setInterest(e.target.value)}]. *)
Definition onChange (value : string) (w : World) : World :=
  snd (setInterest value w).

End Handlers.

(** The page as first rendered, before any record is loaded. *)
Definition initialState : State :=
  {| interest := "10.00"; interestDocId := None; saving := false;
     message := None; messageType := "success" |}.

End InterestSettings.

(** Worlds of the settings page used in the examples. *)
Module InterestExamples.

Import InterestSettings.

(** A page with [input] typed in, over a given collection. *)
Definition typed (input : string) (docId : option string)
           (docs : gmap string InterestDoc) : World :=
  {| state := mkState input docId false None "success";
     store := docs; issued := []; pending := [] |}.

(** The same page when Firestore gives the [answers] to the requests to
    come. *)
Definition answering (answers : list (option Exc.Error)) (w : World) : World :=
  {| state := state w; store := store w; issued := issued w;
     pending := answers |}.

(** The error of a request that Firestore rejects. *)
Definition denied : Exc.Error :=
  Exc.mkError "FirebaseError" "Missing or insufficient permissions.".

(** Message keys left as they are. *)
Definition keys (k : string) : string := k.


(** The text [12.5] as a number input delivers it. *)
Definition twelveAndHalf : NumberInput.FloatText :=
  {| NumberInput.negative := false;
     NumberInput.integerDigits := [1; 2];
     NumberInput.fractionDigits := [5];
     NumberInput.exponentPart := None |}.



End InterestExamples.

(** ** The PDF export *)

Module ExportToPDF.

Record UserInfo : Type := mkUserInfo {
  name : option string;
  email : option string;
  phone : option string
}.

(** A report as [exportToPDF] reads it.  [user] may be missing: reading a
    field of it then throws a [TypeError]. *)
Record UserReport : Type := mkUserReport {
  user : option UserInfo;
  deposits : list Deposit;
  loans : list Loan;
  totals : UserTotals
}.

(** What [exportToPDF] returns: [{ success: true, filename }] or
    [{ success: false, error }]. *)
Inductive ExportResult : Type :=
| Success (filename : string)
| Failure (error : string).

(** The calls made on the jsPDF document and on [autoTable]. *)
Inductive Call : Type :=
| SetFillColor (r g b : Z)
| Rect (x y w h : Z)
| SetTextColor (r g b : Z)
| SetFontSize (size : Z)
| SetFont (style : string)
| Text (text : string) (x y : Z)
| AddPage
| SetPage (i : nat)
| AutoTable (startY : Z) (head : list string) (body : list (list string))
| Save (filename : string).

(** The library: which calls it throws on, where a table ends and how many
    pages it adds. *)
Record Library : Type := mkLibrary {
  rejects : Call -> option Exc.Error;
  tableFinalY : Z -> list (list string) -> Z;
  tablePages : Z -> list (list string) -> nat
}.

(** The document, with the [currentYPosition] of the function. *)
Record Document : Type := mkDocument {
  numberOfPages : nat;
  currentYPosition : Z;
  lastFinalY : Z;
  calls : list Call
}.

(** [new jsPDF({ orientation: 'portrait', unit: 'mm', format: 'a4' })], the
    reading of the page size and [setFont('helvetica')] come before the [try]
    and take constants only: they are the document as first made. *)
Definition newDocument : Document :=
  {| numberOfPages := 1; currentYPosition := 0; lastFinalY := 0; calls := [] |}.

Definition pageWidth : Z := 210.
Definition pageHeight : Z := 297.
Definition margin : Z := 20.

Definition P (A : Type) : Type := Document -> Exc.result (A * Document).

Definition ret {A : Type} (a : A) : P A := fun d => Exc.Ok (a, d).

Definition bind {A B : Type} (m : P A) (k : A -> P B) : P B :=
  fun d =>
    match m d with
    | Exc.Ok (a, d') => k a d'
    | Exc.Throw e => Exc.Throw e
    end.

Notation "x <- m ;; k" := (bind m (fun x => k))
  (at level 100, m at next level, right associativity).
Notation "m ;;; k" := (bind m (fun _ => k))
  (at level 100, right associativity).

(** A pure step that may throw. *)
Definition lift {A : Type} (r : Exc.result A) : P A :=
  fun d => match r with Exc.Ok a => Exc.Ok (a, d) | Exc.Throw e => Exc.Throw e end.

Fixpoint forEach {A : Type} (f : A -> P unit) (l : list A) : P unit :=
  match l with
  | [] => ret tt
  | x :: l' => f x ;;; forEach f l'
  end.

(** [arr.map(f)] for an [f] that may throw. *)
Fixpoint mapE {A B : Type} (f : A -> Exc.result B) (l : list A)
  : Exc.result (list B) :=
  match l with
  | [] => Exc.Ok []
  | x :: l' => Exc.bind (f x) (fun y => Exc.bind (mapE f l') (fun ys => Exc.Ok (y :: ys)))
  end.

Definition getY : P Z := fun d => Exc.Ok (currentYPosition d, d).

Definition setY (y : Z) : P unit :=
  fun d => Exc.Ok (tt, mkDocument (numberOfPages d) y (lastFinalY d) (calls d)).

Definition getNumberOfPages : P nat := fun d => Exc.Ok (numberOfPages d, d).

Definition getLastFinalY : P Z := fun d => Exc.Ok (lastFinalY d, d).

Definition typeError (what : string) : Exc.Error :=
  Exc.mkError "TypeError" what.

(** [a || fallback] on an optional string. *)
Definition orElse (a : option string) (fallback : string) : string :=
  match a with
  | Some s => if String.eqb s "" then fallback else s
  | None => fallback
  end.

(** [`$${amount.toFixed(2)}`] on an integer amount. *)
Definition formatCurrency (amount : Z) : string :=
  "$" ++ pretty amount ++ ".00".

(** [toLocaleDateString('en-US', { year: 'numeric', month: 'short', day:
    'numeric' })] *)
Definition formatDateForPDF (timestamp : option Timestamp) : string :=
  match timestamp with
  | None => "N/A"
  | Some ts =>
      let t := toDateOrNew ts in
      JSDate.format_MMM t ++ " " ++ pretty (JSDate.getDate t) ++ ", "
        ++ pretty (JSDate.getFullYear t)
  end.

(** [toUpperCase] on the letters a to z, of which the statuses that the
    application writes consist. *)
Fixpoint toUpperCase (s : string) : string :=
  match s with
  | EmptyString => EmptyString
  | String c rest =>
      let n := JSNumber.code c in
      String (if (97 <=? n) && (n <=? 122) then ascii_of_N (Z.to_N (n - 32)) else c)
             (toUpperCase rest)
  end.

(** [paymentStatus === "approved" ? "PAID" : paymentStatus ?
    paymentStatus.toUpperCase() : "UNPAID"]: a truthy status that is not a
    string has no [toUpperCase]. *)
Definition getStatusText (paymentStatus : JS.value) : Exc.result string :=
  if JS.strict_eq_str paymentStatus "approved" then Exc.Ok "PAID"%string
  else if JS.truthy paymentStatus then
    match paymentStatus with
    | JS.Str s => Exc.Ok (toUpperCase s)
    | _ => Exc.Throw (typeError "paymentStatus.toUpperCase is not a function")
    end
  else Exc.Ok "UNPAID"%string.

(** The message of the [TypeError] that V8 (Chrome, Node.js) throws on
    reading [property] of [undefined]. *)
Definition cannotRead (property : string) : string :=
  "Cannot read properties of undefined (reading '" ++ property ++ "')".

(** [report.user.name], [.email], [.phone]: [property] is the name of the
    field and [f] reads it. *)
Definition userField (property : string) (f : UserInfo -> option string)
           (r : UserReport) : Exc.result (option string) :=
  match user r with
  | Some u => Exc.Ok (f u)
  | None => Exc.Throw (typeError (cannotRead property))
  end.

Section Generation.

Variable lib : Library.
(** [new Date().toLocaleDateString(...)] at the time of the export. *)
Variable today : string.
Variable userReports : list UserReport.
Variable year : Z.

(** A call of the library: it throws when the library rejects it. *)
Definition call (c : Call) : P unit :=
  fun d =>
    match rejects lib c with
    | Some e => Exc.Throw e
    | None => Exc.Ok (tt, mkDocument (numberOfPages d) (currentYPosition d)
                                     (lastFinalY d) (calls d ++ [c]))
    end.

Definition addPage : P unit :=
  call AddPage ;;;
  fun d => Exc.Ok (tt, mkDocument (S (numberOfPages d)) (currentYPosition d)
                                  (lastFinalY d) (calls d)).

(** [autoTable(doc, { head, body, startY, ... })]; the [didDrawPage] and
    [didDrawCell] callbacks only set values that are set again after it. *)
Definition autoTable (startY : Z) (head : list string) (body : list (list string))
  : P unit :=
  call (AutoTable startY head body) ;;;
  fun d => Exc.Ok (tt, mkDocument (numberOfPages d + tablePages lib startY body)
                                  (currentYPosition d)
                                  (tableFinalY lib startY body) (calls d)).

Definition addHeader : P unit :=
  call (SetFillColor 41 98 255) ;;;
  call (Rect 0 0 pageWidth 30) ;;;
  call (SetTextColor 255 255 255) ;;;
  call (SetFontSize 20) ;;;
  call (SetFont "bold") ;;;
  call (Text "Annual User Reports" (pageWidth / 2) 20) ;;;
  call (SetFontSize 14) ;;;
  call (SetFont "normal") ;;;
  call (Text (pretty year) (pageWidth / 2) 26) ;;;
  call (SetTextColor 0 0 0).

Definition addFooter (pageNumber : nat) : P unit :=
  call (SetFontSize 8) ;;;
  call (SetTextColor 100 100 100) ;;;
  call (Text ("Page " ++ pretty pageNumber) (pageWidth / 2) (pageHeight - 10)).

Definition addTitlePage : P unit :=
  addHeader ;;;
  call (SetFontSize 28) ;;;
  call (SetTextColor 41 98 255) ;;;
  call (Text "Annual User Reports" (pageWidth / 2) 100) ;;;
  call (SetFontSize 22) ;;;
  call (Text (pretty year) (pageWidth / 2) 115) ;;;
  call (SetFontSize 12) ;;;
  call (SetTextColor 100 100 100) ;;;
  call (Text ("Generated on " ++ today) (pageWidth / 2) 130) ;;;
  call (SetTextColor 0 0 0) ;;;
  call (SetFontSize 14) ;;;
  call (SetFont "bold") ;;;
  call (Text "Summary Statistics" margin 160) ;;;
  call (SetFont "normal") ;;;
  call (SetFontSize 12) ;;;
  let totalUsers := length userReports in
  let totalDeposits := JS.reduce_sum (fun r => totalDeposits (totals r)) userReports in
  let totalLoans := JS.reduce_sum (fun r => totalLoans (totals r)) userReports in
  let totalPaidLoans :=
    JS.reduce_sum (fun r => Z.of_nat (paidLoansCount (totals r))) userReports in
  let totalUnpaidLoans :=
    JS.reduce_sum (fun r => Z.of_nat (unpaidLoansCount (totals r))) userReports in
  call (Text ("Total Users: " ++ pretty totalUsers) margin 175) ;;;
  call (Text ("Total Deposits: " ++ formatCurrency totalDeposits) margin 185) ;;;
  call (Text ("Total Loans: " ++ formatCurrency totalLoans) margin 195) ;;;
  call (Text ("Total Paid Loans: " ++ pretty totalPaidLoans) margin 205) ;;;
  call (Text ("Total Unpaid Loans: " ++ pretty totalUnpaidLoans) margin 215) ;;;
  addFooter 1 ;;;
  addPage.

Definition summaryRow (report : UserReport) : Exc.result (list string) :=
  Exc.bind (userField "name" name report) (fun n =>
    Exc.Ok [ orElse n "Unknown User";
             formatCurrency (totalDeposits (totals report));
             pretty (paidLoansCount (totals report));
             pretty (unpaidLoansCount (totals report));
             formatCurrency (totalLoans (totals report)) ]).

Definition addSummaryTable : P unit :=
  addHeader ;;;
  data <- lift (mapE summaryRow userReports) ;;
  autoTable 40 ["User Name"; "Total Deposits ($)"; "Paid Loans"; "Unpaid Loans";
                "Total Loans ($)"]%string data ;;;
  finalY <- getLastFinalY ;;
  setY (finalY + 10) ;;;
  n <- getNumberOfPages ;;
  addFooter n.

Definition checkAndAddPageIfNeeded (neededSpace : Z) : P bool :=
  y <- getY ;;
  let remainingSpace := pageHeight - y - 20 in
  if remainingSpace <? neededSpace then
    addPage ;;;
    addHeader ;;;
    setY 40 ;;;
    n <- getNumberOfPages ;;
    addFooter n ;;;
    ret true
  else ret false.

(** [doc.text(s, margin, currentYPosition); currentYPosition += dy] *)
Definition textLine (s : string) (dy : Z) : P unit :=
  y <- getY ;;
  call (Text s margin y) ;;;
  setY (y + dy).

Definition loanRow (loan : Loan) : Exc.result (list string) :=
  Exc.bind (getStatusText (paymentStatus loan)) (fun status =>
    Exc.Ok [ formatCurrency (amount loan);
             formatDateForPDF (Some (timestamp loan));
             status ]).

Definition addUserDetails (userReport : UserReport) : P unit :=
  let estimatedSpace :=
    60 + Z.of_nat (length (deposits userReport)) * 10
       + Z.of_nat (length (loans userReport)) * 10 in
  checkAndAddPageIfNeeded estimatedSpace ;;;
  call (SetFontSize 16) ;;;
  call (SetFont "bold") ;;;
  call (SetTextColor 41 98 255) ;;;
  n <- lift (userField "name" name userReport) ;;
  textLine (orElse n "Unknown User") 10 ;;;
  call (SetFontSize 12) ;;;
  call (SetFont "normal") ;;;
  call (SetTextColor 0 0 0) ;;;
  e <- lift (userField "email" email userReport) ;;
  textLine ("Email: " ++ orElse e "N/A") 10 ;;;
  p <- lift (userField "phone" phone userReport) ;;
  textLine ("Phone: " ++ orElse p "N/A") 15 ;;;
  (match deposits userReport with
   | _ :: _ =>
       let depositData :=
         map (fun deposit => [ formatCurrency (amount deposit);
                               formatDateForPDF (Some (timestamp deposit)) ])
             (deposits userReport) in
       checkAndAddPageIfNeeded 30 ;;;
       y <- getY ;;
       autoTable y ["Amount"; "Date"]%string depositData ;;;
       finalY <- getLastFinalY ;;
       setY (finalY + 10)
   | [] =>
       checkAndAddPageIfNeeded 20 ;;;
       call (SetFontSize 10) ;;;
       call (SetTextColor 100 100 100) ;;;
       y <- getY ;;
       call (Text "No deposits found" margin y) ;;;
       call (SetTextColor 0 0 0) ;;;
       setY (y + 10)
   end) ;;;
  (match loans userReport with
   | _ :: _ =>
       loanData <- lift (mapE loanRow (loans userReport)) ;;
       checkAndAddPageIfNeeded 30 ;;;
       y <- getY ;;
       autoTable y ["Amount"; "Date"; "Status"]%string loanData ;;;
       finalY <- getLastFinalY ;;
       setY (finalY + 15)
   | [] =>
       checkAndAddPageIfNeeded 20 ;;;
       call (SetFontSize 10) ;;;
       call (SetTextColor 100 100 100) ;;;
       y <- getY ;;
       call (Text "No loans found" margin y) ;;;
       call (SetTextColor 0 0 0) ;;;
       setY (y + 15)
   end).

(** [`annual-reports-${year}.pdf`] *)
Definition pdfFilename : string := "annual-reports-" ++ pretty year ++ ".pdf".

(** The body of the [try]. *)
Definition generate : P ExportResult :=
  addTitlePage ;;;
  addSummaryTable ;;;
  (match userReports with
   | _ :: _ => addPage ;;; addHeader ;;; setY 40
   | [] => ret tt
   end) ;;;
  forEach addUserDetails userReports ;;;
  pageCount <- getNumberOfPages ;;
  forEach (fun i => call (SetPage i) ;;; addFooter i) (seq 1 pageCount) ;;;
  let filename := pdfFilename in
  call (Save filename) ;;;
  ret (Success filename).

(** [exportToPDF]: what it returns, or what it throws. *)
Definition exportToPDF : Exc.result ExportResult :=
  Exc.try_catch
    (Exc.bind (generate newDocument) (fun out => Exc.Ok (fst out)))
    (fun error => Exc.Ok (Failure (Exc.message error))).

End Generation.

(** A library that takes every call; a table takes 10 mm per row and a
    head. *)
Definition permissive : Library :=
  {| rejects := fun _ => None;
     tableFinalY := fun startY body => startY + 10 + 10 * Z.of_nat (length body);
     tablePages := fun _ _ => 0%nat |}.

(** A library whose [save] fails. *)
Definition cannotSave : Library :=
  {| rejects := fun c => match c with
                         | Save _ => Some (Exc.mkError "Error" "save failed")
                         | _ => None
                         end;
     tableFinalY := tableFinalY permissive;
     tablePages := tablePages permissive |}.

(** The first report of the test data of the repository. *)
Definition johnDoe : UserReport :=
  {| user := Some (mkUserInfo (Some "John Doe") (Some "john.doe@example.com")
                              (Some "+1234567890"));
     deposits := example_deposits;
     loans := example_loans;
     totals := mkUserTotals 5000 2000 1 1 |}.

(** A report without its user. *)
Definition orphan : UserReport :=
  {| user := None; deposits := []; loans := []; totals := mkUserTotals 0 0 0 0 |}.

End ExportToPDF.

(** ** Objects used as maps *)

Module PlainObject.

(** The names of the members of [Object.prototype].  On an object made by
    [{}] that has no such key of its own, reading one of these names gives
    the inherited member and not [undefined]: the test [!data[key]] is
    false, [data[key].push] is not a function, and [data[key] || []] is not
    an array. *)
Definition prototypeNames : list string :=
  [ "constructor"; "__defineGetter__"; "__defineSetter__"; "hasOwnProperty";
    "__lookupGetter__"; "__lookupSetter__"; "isPrototypeOf";
    "propertyIsEnumerable"; "toString"; "valueOf"; "__proto__";
    "toLocaleString" ]%string.

Definition inherited (key : string) : bool :=
  existsb (String.eqb key) prototypeNames.

(** A key on which an object made by [{}] and a finite map agree.  The
    identifiers that Firestore and the authentication service give (20 and
    28 letters and digits) are such keys. *)
Definition ordinary (key : string) : Prop := inherited key = false.

(** The [TypeError] of a call of a method that the value does not have. *)
Definition notAFunction (callee : string) : Exc.Error :=
  Exc.mkError "TypeError" (callee ++ " is not a function").

Section Arrays.

Context {R : Type}.

(** [if (!data[key]) data[key] = []; data[key].push(r)] on an object made by
    [{}], whose keys of its own are those of the map: a key of its own has
    its array; without one, a name of [Object.prototype] reads the member,
    which is truthy and has no [push]. *)
Definition pushAt (callee : string) (data : gmap string (list R))
           (key : string) (r : R) : Exc.result (gmap string (list R)) :=
  match data !! key with
  | Some records => Exc.Ok (<[key := records ++ [r]]> data)
  | None =>
      if inherited key then Exc.Throw (notAFunction callee)
      else Exc.Ok (<[key := [r]]> data)
  end.

(** [data[key] || []], at the call of a method of arrays on it. *)
Definition arrayAt (callee : string) (data : gmap string (list R))
           (key : string) : Exc.result (list R) :=
  match data !! key with
  | Some records => Exc.Ok records
  | None =>
      if inherited key then Exc.Throw (notAFunction callee) else Exc.Ok []
  end.

End Arrays.

(** [querySnapshot.forEach(doc => ...)] of the indexed path, on an object:
    the documents are filed by [userId] until one cannot be. *)
Fixpoint pushAll {R : Type} `{Doc R} (callee : string) (docs : list R)
         (data : gmap string (list R)) : Exc.result (gmap string (list R)) :=
  match docs with
  | [] => Exc.Ok data
  | r :: rest =>
      Exc.bind (pushAt callee data (userId r) r) (pushAll callee rest)
  end.

Definition collect {R : Type} `{Doc R} (callee : string) (docs : list R)
  : Exc.result (gmap string (list R)) :=
  pushAll callee docs ∅.

End PlainObject.

(** ** The windows of the month grouping *)

Module MonthWindows.

(** The months of the loop of [groupDataByMonth]. *)
Definition months : list Z := [1; 2; 3; 4; 5; 6; 7; 8; 9; 10; 11; 12].

(** The year [new Date(year, ...)] means. *)
Definition fullYear (year : Z) : Z :=
  if (0 <=? year) && (year <=? 99) then 1900 + year else year.

(** The record is counted in the bucket of [month]. *)
Definition inMonth {R} `{Doc R} (year month : Z) (r : R) : bool :=
  within (MonthGrouping.getStartOfMonth year month)
         (MonthGrouping.getEndOfMonth year month) r.

(** The record was made on the last day of [month], after midnight. *)
Definition afterMonthEnd {R} `{Doc R} (year month : Z) (r : R) : bool :=
  (MonthGrouping.getEndOfMonth year month <? date r)
  && (date r <? MonthGrouping.getStartOfMonth year (month + 1)).

(** The amounts of the records made on the last day of [month], after
    midnight. *)
Definition lastDayTotal {R} `{Doc R} (records : list R) (year month : Z) : Z :=
  JS.total (map amount (List.filter (afterMonthEnd year month) records)).

(** What [f] sums to over the records made from [s] on and before [e]. *)
Definition windowTotal {R} `{Doc R} (f : R -> Z) (s e : Z) (records : list R) : Z :=
  JS.total (map f (List.filter (fun r => (s <=? date r) && (date r <? e)) records)).

End MonthWindows.

(** ** The report page: search, filters and status display *)

Module ReportPage.

(** [String.prototype.toLowerCase] on the code units up to 255: the letters A
    to Z and the capital letters of Latin-1 (192 to 222 but the multiplication
    sign) move up by 32. *)
Definition lowerChar (c : ascii) : ascii :=
  let n := JSNumber.code c in
  if ((65 <=? n) && (n <=? 90))
     || ((192 <=? n) && (n <=? 222) && negb (n =? 215))
  then ascii_of_N (Z.to_N (n + 32))
  else c.

Fixpoint toLowerCase (s : string) : string :=
  match s with
  | EmptyString => EmptyString
  | String c rest => String (lowerChar c) (toLowerCase rest)
  end.

(** [field?.toLowerCase().includes(query)]: [undefined], which is falsy, when
    the field is missing. *)
Definition fieldIncludes (field : option string) (query : string) : bool :=
  match field with
  | Some s => JS.includes (toLowerCase s) query
  | None => false
  end.

(** [user.user?.name], [user.user?.email], [user.user?.phone] *)
Definition optionalField (f : ExportToPDF.UserInfo -> option string)
           (user : ExportToPDF.UserReport) : option string :=
  match ExportToPDF.user user with
  | Some u => f u
  | None => None
  end.

(** The test of the filter of [filterUsersBySearch]. *)
Definition matchesQuery (query : string) (user : ExportToPDF.UserReport) : bool :=
  fieldIncludes (optionalField ExportToPDF.name user) query
  || fieldIncludes (optionalField ExportToPDF.email user) query
  || fieldIncludes (optionalField ExportToPDF.phone user) query.

(** [filterUsersBySearch] of [AnnualReports.jsx]. *)
Definition filterUsersBySearch (users : list ExportToPDF.UserReport)
           (searchQuery : string) : list ExportToPDF.UserReport :=
  if String.eqb (JSNumber.trim searchQuery) "" then users
  else
    let query := toLowerCase searchQuery in
    List.filter (matchesQuery query) users.

(** The [filteredUsers] of the page, from [Object.values(userReports)], the
    debounced search text and the unpaid-only switch. *)
Definition filteredUsers (userReports : list ExportToPDF.UserReport)
           (debouncedSearchQuery : string) (showOnlyUnpaid : bool)
  : list ExportToPDF.UserReport :=
  match userReports with
  | [] => []
  | _ :: _ =>
      let filtered := userReports in
      let filtered :=
        if String.eqb debouncedSearchQuery "" then filtered
        else filterUsersBySearch filtered debouncedSearchQuery in
      let filtered :=
        if showOnlyUnpaid then
          List.filter
            (fun report =>
               (0 <? Z.of_nat (unpaidLoansCount (ExportToPDF.totals report))))
            filtered
        else filtered in
      filtered
  end.

(** A string of white space only. *)
Fixpoint blank (s : string) : bool :=
  match s with
  | EmptyString => true
  | String c rest => JSNumber.isWhiteSpace c && blank rest
  end.

(** What [getLoanStatusInfo] returns. *)
Record StatusInfo : Type := mkStatusInfo {
  text : string;
  className : string
}.

(** [getLoanStatusInfo]: a truthy status that is not a string has no
    [toUpperCase]. *)
Definition getLoanStatusInfo (paymentStatus : JS.value) : Exc.result StatusInfo :=
  if JS.strict_eq_str paymentStatus "approved" then
    Exc.Ok {| text := "PAID"; className := "bg-green-100 text-green-800" |}
  else
    Exc.bind
      (if JS.truthy paymentStatus then
         match paymentStatus with
         | JS.Str s => Exc.Ok (ExportToPDF.toUpperCase s)
         | _ => Exc.Throw (ExportToPDF.typeError
                             "paymentStatus.toUpperCase is not a function")
         end
       else Exc.Ok "UNPAID"%string)
      (fun text =>
         Exc.Ok {| text := text; className := "bg-red-100 text-red-800" |}).

(** [getStatusColor] of [exportToPDF.js]: green for paid, red for unpaid. *)
Definition getStatusColor (paymentStatus : JS.value) : Z * Z * Z :=
  if JS.strict_eq_str paymentStatus "approved" then (0, 128, 0) else (255, 0, 0).

(** [generateYearOptions]: the loop runs while [year >= 2022]. *)
Fixpoint yearLoop (fuel : nat) (year : Z) (options : list Z) : list Z :=
  match fuel with
  | O => options
  | S fuel' =>
      if 2022 <=? year then yearLoop fuel' (year - 1) (options ++ [year])
      else options
  end.

Definition generateYearOptions (currentYear : Z) : list Z :=
  yearLoop (Z.to_nat (currentYear - 2021)) currentYear [].

(** The line feed. *)
Definition newline : string := String (ascii_of_nat 10) EmptyString.

Definition csvHeaders : list string :=
  ["User"; "Total Deposits"; "Total Loans"; "Paid Loans"; "Unpaid Loans"]%string.

(** An element of the row as [join] writes it: nothing for [undefined]. *)
Definition joined (field : option string) : string := default EmptyString field.

(** The row of a report: [user.user.name] throws when [user.user] is
    missing. *)
Definition csvRow (user : ExportToPDF.UserReport) : Exc.result (list string) :=
  Exc.bind (ExportToPDF.userField "name" ExportToPDF.name user) (fun n =>
    Exc.Ok [ joined n;
             pretty (totalDeposits (ExportToPDF.totals user));
             pretty (totalLoans (ExportToPDF.totals user));
             pretty (paidLoansCount (ExportToPDF.totals user));
             pretty (unpaidLoansCount (ExportToPDF.totals user)) ]).

(** The file handed to the browser: the [download] attribute of the link,
    the type and the content of the [Blob]. *)
Record Download : Type := mkDownload {
  download : string;
  type : string;
  content : string
}.

(** [exportToCSV]: the rows are made first, then the content, then the link
    is clicked. *)
Definition exportToCSV (data : list ExportToPDF.UserReport) (filename : string)
  : Exc.result Download :=
  Exc.bind (ExportToPDF.mapE csvRow data) (fun rows =>
    let csvContent :=
      fold_left (fun csvContent row =>
                   (csvContent ++ String.concat "," row ++ newline)%string)
                rows (String.concat "," csvHeaders ++ newline)%string in
    Exc.Ok {| download := filename;
              type := "text/csv;charset=utf-8;";
              content := csvContent |}).

(** How often the character [c] occurs in [s]. *)
Fixpoint occurrences (c : ascii) (s : string) : nat :=
  match s with
  | EmptyString => O
  | String c' rest => ((if Ascii.eqb c c' then 1 else 0) + occurrences c rest)%nat
  end.

(** The name a row shows. *)
Definition shownName (user : ExportToPDF.UserReport) : string :=
  joined (optionalField ExportToPDF.name user).

End ReportPage.

(** ** The report page: fetching and building the reports *)

Module ReportFetch.

(** A document of the users collection: [{ id: doc.id, ...doc.data() }]. *)
Record UserDoc : Type := mkUserDoc {
  id : string;
  info : ExportToPDF.UserInfo
}.

(** [selectedMonth]: ['all'], or the number of a month that [parseInt]
    reads. *)
Inductive MonthChoice : Type :=
| AllMonths
| OneMonth (month : Z).

(** The [startDate] and [endDate] of [fetchUserReports]. *)
Definition dateRange (selectedYear : Z) (selectedMonth : MonthChoice) : Z * Z :=
  match selectedMonth with
  | AllMonths =>
      (MonthGrouping.getStartOfYear selectedYear,
       MonthGrouping.getEndOfYear selectedYear)
  | OneMonth month =>
      (MonthGrouping.getStartOfMonth selectedYear month,
       MonthGrouping.getEndOfMonth selectedYear month)
  end.

(** [for (let i = 0; i < userIds.length; i += 10)
       userIdChunks.push(userIds.slice(i, i + 10))] *)
Fixpoint chunkLoop (fuel : nat) (userIds : list string) (i : Z)
         (userIdChunks : list (list string)) : list (list string) :=
  match fuel with
  | O => userIdChunks
  | S fuel' =>
      if i <? Z.of_nat (length userIds) then
        chunkLoop fuel' userIds (i + 10)
                  (userIdChunks ++ [Pagination.slice userIds i (i + 10)])
      else userIdChunks
  end.

(** The loop ends after at most one round per user id. *)
Definition userIdChunks (userIds : list string) : list (list string) :=
  chunkLoop (length userIds) userIds 0 [].

(** [comparisonData.currentYear] and [.previousYear]. *)
Record YearFigures : Type := mkYearFigures {
  yearDeposits : Z;
  yearLoans : Z;
  monthlyData : list MonthGrouping.MonthBucket
}.

(** The state of the page that [fetchUserReports] sets, but for the list of
    users and the notice about the index. *)
Record PageState : Type := mkPageState {
  loading : bool;
  error : option string;
  userReports : gmap string ExportToPDF.UserReport;
  chartData : list MonthGrouping.MonthBucket;
  currentYear : YearFigures;
  previousYear : YearFigures
}.

Section Page.

(** [Object.keys] of a result: its keys, in the order of the engine. *)
Variable keys : forall R : Type, gmap string (list R) -> list string.

(** [await getDocs(query(collection(db, 'users')))] *)
Variable getUsers : Fetcher.QueryResult UserDoc.
Variable getDeposits : Fetcher.Query -> Fetcher.QueryResult Deposit.
Variable getLoans : Fetcher.Query -> Fetcher.QueryResult Loan.

(** [fetchUsers]: the users and what it sets as the error. *)
Definition fetchUsers : list UserDoc * option string :=
  match getUsers with
  | Fetcher.Snapshot docs => (docs, None)
  | Fetcher.Rejected _ => ([], Some "Failed to fetch users data"%string)
  end.

(** [allData[userId] = result[userId];
     all = [...all, ...result[userId]]] *)
Definition mergeUser {R : Type} (result : gmap string (list R))
           (acc : gmap string (list R) * list R) (userId : string)
  : gmap string (list R) * list R :=
  let records := default [] (result !! userId) in
  (<[userId := records]> (fst acc), snd acc ++ records).

(** [Object.keys(result).forEach(userId => ...)] *)
Definition mergeResult {R : Type} (acc : gmap string (list R) * list R)
           (result : gmap string (list R)) : gmap string (list R) * list R :=
  fold_left (mergeUser result) (keys R result) acc.

(** [results.forEach(result => ...)], from [{}] and [[]]. *)
Definition combine {R : Type} (results : list (gmap string (list R)))
  : gmap string (list R) * list R :=
  fold_left mergeResult results (∅, []).

(** The body of [usersData.forEach(user => ...)], for a user whose id names
    no member of [Object.prototype]: [allDepositsData[user.id] || []] is
    then the array filed under the id, or [[]]. *)
Definition addReport (allDepositsData : gmap string (list Deposit))
           (allLoansData : gmap string (list Loan))
           (reports : gmap string ExportToPDF.UserReport) (user : UserDoc)
  : gmap string ExportToPDF.UserReport :=
  let userDeposits := default [] (allDepositsData !! id user) in
  let userLoans := default [] (allLoansData !! id user) in
  let totals := AnnualReports.calculateUserTotals userDeposits userLoans in
  <[id user := {| ExportToPDF.user := Some (info user);
                  ExportToPDF.deposits := userDeposits;
                  ExportToPDF.loans := userLoans;
                  ExportToPDF.totals := totals |}]> reports.

Definition buildReports (usersData : list UserDoc)
           (allDepositsData : gmap string (list Deposit))
           (allLoansData : gmap string (list Loan))
  : gmap string ExportToPDF.UserReport :=
  fold_left (addReport allDepositsData allLoansData) usersData ∅.

(** [usersData.forEach(user => ...)] on the objects themselves: the arrays
    of a user are read with [PlainObject.arrayAt], and [calculateUserTotals]
    throws at the first that is none, before a report is made. *)
Fixpoint usersForEach (usersData : list UserDoc)
         (allDepositsData : gmap string (list Deposit))
         (allLoansData : gmap string (list Loan))
         (reports : gmap string ExportToPDF.UserReport)
  : Exc.result (gmap string ExportToPDF.UserReport) :=
  match usersData with
  | [] => Exc.Ok reports
  | user :: rest =>
      Exc.bind (PlainObject.arrayAt "deposits.reduce" allDepositsData (id user))
        (fun userDeposits =>
      Exc.bind (PlainObject.arrayAt "loans.reduce" allLoansData (id user))
        (fun userLoans =>
      let totals := AnnualReports.calculateUserTotals userDeposits userLoans in
      usersForEach rest allDepositsData allLoansData
        (<[id user := {| ExportToPDF.user := Some (info user);
                         ExportToPDF.deposits := userDeposits;
                         ExportToPDF.loans := userLoans;
                         ExportToPDF.totals := totals |}]> reports)))
  end.

(** The records of the chunks, per user and all together. *)
Definition fetchAll {R : Type} `{Doc R}
           (getDocs : Fetcher.Query -> Fetcher.QueryResult R) (coll : string)
           (chunks : list (list string)) (startDate endDate : Z)
  : gmap string (list R) * list R :=
  combine (map (fun chunk =>
                  Fetcher.fetchForUsers getDocs coll chunk startDate endDate)
               chunks).

(** [fetchUserReports]: the state when it is done.  The records of the model
    have their amount and timestamp and the ids are keys on which an object
    and a finite map agree ([PlainObject.ordinary]), so that nothing in the
    body throws and the [catch] is not reached. *)
Definition fetchUserReports (selectedYear : Z) (selectedMonth : MonthChoice)
  : PageState :=
  let (usersData, usersError) := fetchUsers in
  let (startDate, endDate) := dateRange selectedYear selectedMonth in
  let userIds := map id usersData in
  let chunks := userIdChunks userIds in
  let (allDepositsData, allDeposits) :=
    fetchAll getDeposits "deposits" chunks startDate endDate in
  let (allLoansData, allLoans) :=
    fetchAll getLoans "loans" chunks startDate endDate in
  let reports := buildReports usersData allDepositsData allLoansData in
  let monthly := MonthGrouping.groupDataByMonth allDeposits allLoans selectedYear in
  let prevYearStartDate := MonthGrouping.getStartOfYear (selectedYear - 1) in
  let prevYearEndDate := MonthGrouping.getEndOfYear (selectedYear - 1) in
  let prevYearDeposits :=
    snd (fetchAll getDeposits "deposits" chunks prevYearStartDate prevYearEndDate) in
  let prevYearLoans :=
    snd (fetchAll getLoans "loans" chunks prevYearStartDate prevYearEndDate) in
  let prevYearMonthlyData :=
    MonthGrouping.groupDataByMonth prevYearDeposits prevYearLoans
                                   (selectedYear - 1) in
  {| loading := false;
     error := usersError;
     userReports := reports;
     chartData := monthly;
     currentYear :=
       {| yearDeposits := JS.reduce_sum amount allDeposits;
          yearLoans := JS.reduce_sum amount allLoans;
          monthlyData := monthly |};
     previousYear :=
       {| yearDeposits := JS.reduce_sum amount prevYearDeposits;
          yearLoans := JS.reduce_sum amount prevYearLoans;
          monthlyData := prevYearMonthlyData |} |}.

End Page.

(** A store answers a query with the records it asks for; the query with the
    range and the order may be refused for the lack of the index. *)
Definition asked {R} `{Doc R} (q : Fetcher.Query) (r : R) : bool :=
  bool_decide (userId r ∈ Fetcher.userId_in q)
  && match Fetcher.timestamp_between q with
     | Some (startDate, endDate) => within startDate endDate r
     | None => true
     end.

Definition answers {R} `{Doc R} (store : list R)
           (getDocs : Fetcher.Query -> Fetcher.QueryResult R) : Prop :=
  forall q : Fetcher.Query,
    match getDocs q with
    | Fetcher.Snapshot docs => docs ≡ₚ List.filter (asked q) store
    | Fetcher.Rejected message =>
        Fetcher.orderBy_timestamp_desc q = true
        /\ JS.includes message "requires an index" = true
    end.

(** The records of [store] of the user [k] within the dates. *)
Definition recordsOf {R} `{Doc R} (store : list R) (k : string)
           (startDate endDate : Z) : list R :=
  List.filter (fun r => bool_decide (userId r = k) && within startDate endDate r)
              store.

(** The records of [store] of the users [userIds] within the dates. *)
Definition periodRecords {R} `{Doc R} (store : list R) (userIds : list string)
           (startDate endDate : Z) : list R :=
  List.filter (fun r => bool_decide (userId r ∈ userIds)
                        && within startDate endDate r)
              store.

(** What is filed under the user [k] once the chunks [seen] are merged: the
    records of the user, or nothing when the user has none. *)
Definition filedFrom {R} `{Doc R} (store : list R) (startDate endDate : Z)
           (data : gmap string (list R)) (seen : list string) (k : string)
  : Prop :=
  match data !! k with
  | Some l => k ∈ seen /\ l ≡ₚ recordsOf store k startDate endDate
  | None => k ∈ seen -> recordsOf store k startDate endDate = []
  end.

(** The report of a user, from what is filed under the user's id. *)
Definition reportOf (allDepositsData : gmap string (list Deposit))
           (allLoansData : gmap string (list Loan)) (user : UserDoc)
  : ExportToPDF.UserReport :=
  {| ExportToPDF.user := Some (info user);
     ExportToPDF.deposits := default [] (allDepositsData !! id user);
     ExportToPDF.loans := default [] (allLoansData !! id user);
     ExportToPDF.totals :=
       AnnualReports.calculateUserTotals
         (default [] (allDepositsData !! id user))
         (default [] (allLoansData !! id user)) |}.

(** What the row of a user shows, 0 where there is no row. *)
Definition rowFigure (reports : gmap string ExportToPDF.UserReport)
           (figure : UserTotals -> Z) (user : UserDoc) : Z :=
  match reports !! id user with
  | Some report => figure (ExportToPDF.totals report)
  | None => 0
  end.

(** A store that answers every query, in the order of the store. *)
Definition storeBackend {R} `{Doc R} (store : list R) (q : Fetcher.Query)
  : Fetcher.QueryResult R :=
  Fetcher.Snapshot (List.filter (asked q) store).

(** A backend that refuses every query, as without permission. *)
Definition refusing {R : Type} (q : Fetcher.Query) : Fetcher.QueryResult R :=
  Fetcher.Rejected "Missing or insufficient permissions.".

(** The keys of an object in the order of the map. *)
Definition mapKeys (R : Type) (m : gmap string (list R)) : list string :=
  (map_to_list m).*1.

(** Two users; the first has the records of the example. *)
Definition exampleUsers : list UserDoc :=
  [ mkUserDoc "u1" (ExportToPDF.mkUserInfo (Some "John Doe") None None);
    mkUserDoc "u2" (ExportToPDF.mkUserInfo (Some "Jane Roe") None None) ]%string.

End ReportFetch.

(** ** The caption and the buttons of a paginated table *)

Module Caption.

Section Table.

Context {A : Type}.
Variable itemsPerPage : Z.

(** [Showing {startIndex + 1} to {Math.min(endIndex, data.length)} of
    {data.length} results] *)
Definition showingFrom (currentPage : Z) : Z :=
  Pagination.startIndex itemsPerPage currentPage + 1.

Definition showingTo (data : list A) (currentPage : Z) : Z :=
  Z.min (Pagination.endIndex itemsPerPage currentPage) (Z.of_nat (length data)).

(** [disabled={currentPage === 1}] and [disabled={currentPage === totalPages}] *)
Definition previousDisabled (currentPage : Z) : bool := currentPage =? 1.

Definition nextDisabled (data : list A) (currentPage : Z) : bool :=
  currentPage =? Pagination.totalPages itemsPerPage data.

End Table.

End Caption.

(** ** A session on the interest-rate page *)

Module InterestSession.

Import InterestSettings.

(** What the administrator does once the page is loaded: type into the
    input, or press Save; [now] and [newDocId] are the time and the fresh
    identifier the handler would take. *)
Inductive Event : Type :=
| Change (value : string)
| Save (now : Z) (newDocId : string).

Definition callId (c : Call) : string :=
  match c with
  | UpdateDoc id _ => id
  | SetDoc id _ => id
  end.

Definition isSetDoc (c : Call) : bool :=
  match c with
  | SetDoc _ _ => true
  | UpdateDoc _ _ => false
  end.

Section Session.

Variable t : string -> string.
Variable round : Q -> JSNumber.number.
Variable toFixed2 : JSNumber.number -> string.

Definition step (w : World) (e : Event) : World :=
  match e with
  | Change value => onChange value w
  | Save now newDocId => afterSave t round now newDocId w
  end.

Definition run (events : list Event) (w : World) : World :=
  fold_left step events w.

(** The page over the collection [docs] once [fetchInterest] is done with
    the snapshot [snap]; [answers] are the answers of Firestore to the
    requests of the session. *)
Definition loaded (docs : gmap string InterestDoc)
           (snap : Exc.result (list (string * InterestDoc)))
           (answers : list (option Exc.Error)) : World :=
  snd (fetchInterest t toFixed2 snap
         {| state := initialState; store := docs; issued := [];
            pending := answers |}).

End Session.

End InterestSession.

(** ** Signing out a blocked user *)

Module BlockedUser.

(** The signed-in user of [auth] and the route on display. *)
Record Session : Type := mkSession {
  currentUser : option UserBlocking.User;
  route : string
}.

(** [await signOut(auth)]: it signs the user out, or throws and leaves the
    user signed in. *)
Definition signOut (failure : option Exc.Error) (s : Session) : Exc.result Session :=
  match failure with
  | None => Exc.Ok {| currentUser := None; route := route s |}
  | Some e => Exc.Throw e
  end.

(** [handleBlockedUser(navigate)]; [navigate] may be missing. *)
Definition handleBlockedUser (failure : option Exc.Error) (navigate : bool)
           (s : Session) : Exc.result Session :=
  Exc.try_catch
    (Exc.bind (signOut failure s) (fun s' =>
       if navigate then
         Exc.Ok {| currentUser := currentUser s'; route := "/blocked" |}
       else Exc.Ok s'))
    (fun error => Exc.Ok s).

(** [checkAndHandleUserBlockStatus(navigate)]: what it returns and the
    session it leaves. *)
Definition checkAndHandleUserBlockStatus
           (getDoc : string -> Exc.result UserBlocking.DocumentSnapshot)
           (failure : option Exc.Error) (navigate : bool) (s : Session)
  : Exc.result (bool * Session) :=
  Exc.bind (UserBlocking.checkUserBlockStatus (currentUser s) getDoc)
    (fun isBlocked =>
       if isBlocked then
         Exc.bind (handleBlockedUser failure navigate s) (fun s' =>
           Exc.Ok (isBlocked, s'))
       else Exc.Ok (isBlocked, s)).

(** [checkUserStatus] of [BlockedUserChecker], run on mount and every
    minute: [contextUser] is the [currentUser] of the auth context. *)
Definition checkUserStatus
           (getDoc : string -> Exc.result UserBlocking.DocumentSnapshot)
           (failure : option Exc.Error)
           (contextUser : option UserBlocking.User) (s : Session) : Session :=
  match contextUser with
  | Some _ =>
      match checkAndHandleUserBlockStatus getDoc failure true s with
      | Exc.Ok (_, s') => s'
      | Exc.Throw _ => s
      end
  | None => s
  end.

(** The user document says the user is blocked. *)
Definition blockedIn (getDoc : string -> Exc.result UserBlocking.DocumentSnapshot)
           (user : UserBlocking.User) : Prop :=
  exists userData,
    getDoc (UserBlocking.uid user)
    = Exc.Ok {| UserBlocking.data := Some userData |}
    /\ UserBlocking.isBlocked userData = JS.Bool true.

End BlockedUser.

(** ** Blocking a user from the user management page *)

Module AdminUsers.

(** [user.isBlocked ? 'Blocked' : 'Active'] *)
Definition shownBlocked (user : UserBlocking.UserData) : bool :=
  JS.truthy (UserBlocking.isBlocked user).

(** The page: the users collection it writes to, as far as read here, and
    its [error]. *)
Record Page : Type := mkPage {
  users : gmap string UserBlocking.UserData;
  error : option string
}.

(** [toggleUserBlockStatus(userId, currentStatus)]: [updateDoc] sets
    [isBlocked] to [!currentStatus]; it throws when [failure] says so or
    when there is no such document, and the [catch] sets the error. *)
Definition toggleUserBlockStatus (failure : option Exc.Error) (userId : string)
           (currentStatus : JS.value) (page : Page) : Page :=
  match failure, users page !! userId with
  | None, Some _ =>
      {| users := <[userId := {| UserBlocking.isBlocked :=
                                   JS.Bool (negb (JS.truthy currentStatus)) |}]>
                    (users page);
         error := error page |}
  | _, _ => {| users := users page; error := Some "Failed to update user status"%string |}
  end.

(** The click on the button of a row:
    [toggleUserBlockStatus(user.id, user.isBlocked)].  The rows are the
    documents of the collection, which the page follows with [onSnapshot];
    a row is taken here as the document it shows. *)
Definition onClick (failure : option Exc.Error) (userId : string) (page : Page)
  : Page :=
  match users page !! userId with
  | Some user =>
      toggleUserBlockStatus failure userId (UserBlocking.isBlocked user) page
  | None => page
  end.

(** [await getDoc(doc(db, 'users', uid))] on the store. *)
Definition getDocFrom (store : gmap string UserBlocking.UserData) (uid : string)
  : Exc.result UserBlocking.DocumentSnapshot :=
  Exc.Ok {| UserBlocking.data := store !! uid |}.

End AdminUsers.

(** ** What the PDF export needs of the reports *)

Module ExportCheck.

(** [getStatusText] returns on this status. *)
Definition printable (paymentStatus : JS.value) : bool :=
  match ExportToPDF.getStatusText paymentStatus with
  | Exc.Ok _ => true
  | Exc.Throw _ => false
  end.

Definition lacksUser (report : ExportToPDF.UserReport) : bool :=
  match ExportToPDF.user report with
  | Some _ => false
  | None => true
  end.

Definition hasUnprintableLoan (report : ExportToPDF.UserReport) : bool :=
  existsb (fun loan => negb (printable (paymentStatus loan)))
          (ExportToPDF.loans report).

(** The step returns on every document. *)
Definition succeeds {A : Type} (m : ExportToPDF.P A) : Prop :=
  forall d, exists a d', m d = Exc.Ok (a, d').

(** The step throws [e] on every document. *)
Definition throwsAlways {A : Type} (e : Exc.Error) (m : ExportToPDF.P A) : Prop :=
  forall d, m d = Exc.Throw e.

(** The calls of [addHeader] and of [addFooter], in order. *)
Definition headerCalls (year : Z) : list ExportToPDF.Call :=
  [ ExportToPDF.SetFillColor 41 98 255;
    ExportToPDF.Rect 0 0 ExportToPDF.pageWidth 30;
    ExportToPDF.SetTextColor 255 255 255;
    ExportToPDF.SetFontSize 20;
    ExportToPDF.SetFont "bold";
    ExportToPDF.Text "Annual User Reports" (ExportToPDF.pageWidth / 2) 20;
    ExportToPDF.SetFontSize 14;
    ExportToPDF.SetFont "normal";
    ExportToPDF.Text (pretty year) (ExportToPDF.pageWidth / 2) 26;
    ExportToPDF.SetTextColor 0 0 0 ].

Definition footerCalls (pageNumber : nat) : list ExportToPDF.Call :=
  [ ExportToPDF.SetFontSize 8;
    ExportToPDF.SetTextColor 100 100 100;
    ExportToPDF.Text ("Page " ++ pretty pageNumber) (ExportToPDF.pageWidth / 2)
                     (ExportToPDF.pageHeight - 10) ].

(** The document with more calls made on it. *)
Definition drawn (d : ExportToPDF.Document) (more : list ExportToPDF.Call)
  : ExportToPDF.Document :=
  ExportToPDF.mkDocument (ExportToPDF.numberOfPages d)
                         (ExportToPDF.currentYPosition d)
                         (ExportToPDF.lastFinalY d)
                         (ExportToPDF.calls d ++ more).

(** The step only adds calls to those made before. *)
Definition grows {A : Type} (m : ExportToPDF.P A) : Prop :=
  forall d a d',
    m d = Exc.Ok (a, d') ->
    exists more, ExportToPDF.calls d' = ExportToPDF.calls d ++ more.

(** The space [addUserDetails] asks for. *)
Definition estimatedSpace (userReport : ExportToPDF.UserReport) : Z :=
  60 + Z.of_nat (length (ExportToPDF.deposits userReport)) * 10
     + Z.of_nat (length (ExportToPDF.loans userReport)) * 10.

(** A user with eighteen deposits. *)
Definition busyUser : ExportToPDF.UserReport :=
  {| ExportToPDF.user :=
       Some (ExportToPDF.mkUserInfo (Some "Jane Roe"%string) None None);
     ExportToPDF.deposits :=
       repeat (mkDeposit "d" "u2" 10 (RawDate 0)) 18;
     ExportToPDF.loans := [];
     ExportToPDF.totals := mkUserTotals 180 0 0 0 |}.

End ExportCheck.

(** ** The page numbers of the PDF *)

Module ExportPages.

(** The step only adds calls to those made before, and takes no page away. *)
Definition advances {A : Type} (m : ExportToPDF.P A) : Prop :=
  forall d a d',
    m d = Exc.Ok (a, d') ->
    (ExportToPDF.numberOfPages d <= ExportToPDF.numberOfPages d')%nat
    /\ exists more, ExportToPDF.calls d' = ExportToPDF.calls d ++ more.

(** The calls of the loop that numbers the pages. *)
Definition pageNumbers (pageCount : nat) : list ExportToPDF.Call :=
  flat_map (fun i => ExportToPDF.SetPage i :: ExportCheck.footerCalls i)
           (seq 1 pageCount).

End ExportPages.

(** ** The export buttons of the report page *)

Module ExportButtons.

Section Buttons.

(** [Object.values(userReports)]: the reports, in the order of the engine. *)
Variable values :
  gmap string ExportToPDF.UserReport -> list ExportToPDF.UserReport.

(** [handleExportCSV]: what [exportToCSV] hands over, or throws. *)
Definition handleExportCSV (userReports : gmap string ExportToPDF.UserReport)
           (selectedYear : Z) : Exc.result ReportPage.Download :=
  let data := values userReports in
  ReportPage.exportToCSV data
    ("annual-reports-" ++ pretty selectedYear ++ ".csv").


End Buttons.


End ExportButtons.

(** * Properties *)

(** ** Properties of the aggregator *)

Section Aggregator.

Lemma reduce_sum_from {A} (f : A -> Z) (arr : list A) (acc : Z) :
  fold_left (fun sum x => sum + f x) arr acc = acc + JS.total (map f arr).
Proof.
  revert acc; induction arr as [|x arr IH]; intros acc; simpl.
  - lia.
  - rewrite IH. lia.
Qed.

Lemma reduce_sum_total {A} (f : A -> Z) (arr : list A) :
  JS.reduce_sum f arr = JS.total (map f arr).
Proof. unfold JS.reduce_sum. rewrite reduce_sum_from. lia. Qed.

Lemma filter_negb_partition {A} (p : A -> bool) (l : list A) :
  (length (List.filter p l) + length (List.filter (fun x => negb (p x)) l))%nat
  = length l.
Proof.
  induction l as [|x l IH]; simpl; [reflexivity|].
  destruct (p x); simpl; lia.
Qed.

Lemma strict_eq_str_spec (v : JS.value) (s : string) :
  JS.strict_eq_str v s = true <-> v = JS.Str s.
Proof.
  destruct v; simpl; try (split; [discriminate | intros E; discriminate E]).
  rewrite String.eqb_eq. split; [intros ->; reflexivity | intros E; congruence].
Qed.

Lemma length_filter_bool_decide {A} (p : A -> bool) (P : A -> Prop)
      `{forall x, Decision (P x)} (l : list A) :
  (forall x, p x = true <-> P x) ->
  length (List.filter p l) = length (filter P l).
Proof.
  intros Hp. induction l as [|x l IH]; [reflexivity|].
  simpl. rewrite filter_cons.
  destruct (p x) eqn:E.
  - rewrite decide_True by (apply Hp; exact E). simpl. now rewrite IH.
  - rewrite decide_False; [exact IH|].
    intros HP. apply Hp in HP. congruence.
Qed.

End Aggregator.

(** ** Properties of the sums of Numbers *)

Section Binary64Facts.

Import JSNumber Binary64.

Lemma roundHalfEven_whole (n : Z) : roundHalfEven n 1 = n.
Proof.
  unfold roundHalfEven. rewrite Z.mod_1_r, Z.div_1_r. reflexivity.
Qed.

Lemma Qred_whole (n k : Z) :
  0 < k -> Qred (n * k # Z.to_pos k) = inject_Z n.
Proof.
  intros Hk.
  transitivity (Qred (inject_Z n)).
  - apply Qred_complete. unfold Qeq, inject_Z. cbn [Qnum Qden].
    rewrite Z2Pos.id by exact Hk. lia.
  - apply Qcanon.Qred_identity. cbn [Qnum Qden inject_Z]. apply Z.gcd_1_r.
Qed.

Lemma exponent_whole (n : Z) : 0 < n -> exponent n 1 = Z.log2 n.
Proof.
  intros Hn. unfold exponent, scale2.
  change (Z.log2 1) with 0. rewrite Z.sub_0_r.
  pose proof (Z.log2_nonneg n) as Hlog.
  destruct (Z.leb_spec 0 (Z.log2 n)) as [_|]; [|lia].
  pose proof (Z.log2_spec n Hn) as [Hlow _].
  destruct (Z.leb_spec (1 * 2 ^ Z.log2 n) n) as [_|]; [reflexivity|lia].
Qed.

(** A whole number up to 2^53 has 53 bits at most: it is the binary64 value
    nearest to itself. *)
Lemma nearest_whole (n : Z) :
  0 < n <= 2 ^ 53 -> nearest n 1 = inject_Z n.
Proof.
  intros [Hpos Hmax]. unfold nearest. rewrite (exponent_whole n Hpos).
  pose proof (Z.log2_nonneg n) as Hlog.
  pose proof (Z.log2_spec n Hpos) as [Hlow Hhigh].
  assert (Hle : Z.log2 n <= 53).
  { destruct (Z_le_gt_dec (Z.log2 n) 53) as [|Hgt]; [assumption|].
    pose proof (Z.pow_le_mono_r 2 54 (Z.log2 n) ltac:(lia) ltac:(lia)). lia. }
  rewrite Z.max_l by lia. unfold scale2.
  destruct (Z.leb_spec 0 (Z.log2 n - 52)) as [Hp|Hp].
  - assert (Hcases : Z.log2 n = 52 \/ Z.log2 n = 53) by lia.
    destruct Hcases as [He|He]; rewrite He in *.
    + change (52 - 52) with 0. change (1 * 2 ^ 0) with 1.
      rewrite roundHalfEven_whole. f_equal. lia.
    + change (53 - 52) with 1. change (1 * 2 ^ 1) with 2. change (2 ^ 1) with 2.
      assert (Hn : n = 2 ^ 53) by lia. subst n. reflexivity.
  - rewrite roundHalfEven_whole. apply Qred_whole.
    apply Z.pow_pos_nonneg; lia.
Qed.

(** A whole number up to 2^53 is its own Number value. *)
Lemma round_whole (x : Q) :
  Qden x = 1%positive -> Z.abs (Qnum x) <= 2 ^ 53 ->
  round x = ofZ (Qnum x).
Proof.
  destruct x as [z d]. cbn [Qnum Qden]. intros -> Hz.
  unfold round, ofZ. cbn [Qnum Qden].
  destruct z as [|z|z]; [reflexivity| |].
  - change (Z.abs (Z.pos z)) with (Z.pos z) in *.
    rewrite nearest_whole by lia.
    change (Z.pos z <? 0) with false. cbv iota.
    destruct (Qle_bool (inject_Z (2 ^ 1024)) (inject_Z (Z.pos z))) eqn:Hbig;
      [|reflexivity].
    apply Qle_bool_iff in Hbig. rewrite <- Zle_Qle in Hbig.
    pose proof (Z.pow_lt_mono_r 2 53 1024 ltac:(lia) ltac:(lia) ltac:(lia)). lia.
  - change (Z.abs (Z.neg z)) with (Z.pos z) in *.
    rewrite nearest_whole by lia.
    change (Z.neg z <? 0) with true. cbv iota.
    destruct (Qle_bool (inject_Z (2 ^ 1024)) (inject_Z (Z.pos z))) eqn:Hbig;
      [|reflexivity].
    apply Qle_bool_iff in Hbig. rewrite <- Zle_Qle in Hbig.
    pose proof (Z.pow_lt_mono_r 2 53 1024 ltac:(lia) ltac:(lia) ltac:(lia)). lia.
Qed.

(** The sum of two whole numbers is exact when it is within 2^53. *)
Lemma add_whole (a b : Z) :
  Z.abs (a + b) <= 2 ^ 53 -> add (ofZ a) (ofZ b) = ofZ (a + b).
Proof.
  intros Hsum. unfold add, ofZ.
  rewrite round_whole.
  - unfold ofZ. f_equal. unfold inject_Z. cbn [Qplus Qnum Qden].
    f_equal. lia.
  - reflexivity.
  - cbn [Qplus Qnum Qden inject_Z]. rewrite !Z.mul_1_r. exact Hsum.
Qed.

Lemma magnitude_bounds (l : list Z) : Z.abs (JS.total l) <= magnitude l.
Proof.
  unfold magnitude. induction l as [|x l IH]; cbn [JS.total map]; lia.
Qed.

Lemma fold_add_whole (amounts : list Z) (acc : Z) :
  Z.abs acc + magnitude amounts <= 2 ^ 53 ->
  fold_left (fun sum n => add sum (ofZ n)) amounts (ofZ acc)
  = ofZ (acc + JS.total amounts).
Proof.
  revert acc. induction amounts as [|n amounts IH]; intros acc Hbound.
  - cbn [fold_left JS.total]. f_equal. lia.
  - unfold magnitude in *. cbn [fold_left JS.total map] in *.
    pose proof (magnitude_bounds amounts) as Hrest. unfold magnitude in Hrest.
    assert (Hnonneg : 0 <= JS.total (map Z.abs amounts)).
    { clear. induction amounts as [|x l IH]; cbn [JS.total map]; lia. }
    rewrite add_whole by lia.
    rewrite IH by lia. f_equal. lia.
Qed.

(** Within 2^53 the sum of the engine is the sum of the whole numbers. *)
Lemma reduce_sum_exact {A : Type} (f : A -> Z) (arr : list A) :
  magnitude (map f arr) <= 2 ^ 53 ->
  reduce_sum (fun x => ofZ (f x)) arr = ofZ (JS.reduce_sum f arr).
Proof.
  intros Hbound. unfold reduce_sum.
  change (Finite 0) with (ofZ 0).
  transitivity (fold_left (fun sum n => add sum (ofZ n)) (map f arr) (ofZ 0)).
  - generalize (ofZ 0). induction arr as [|x arr IH]; intros acc; [reflexivity|].
    cbn [fold_left map]. apply IH.
    unfold magnitude in *. cbn [map JS.total] in Hbound. lia.
  - rewrite fold_add_whole by (cbn; lia).
    f_equal. rewrite reduce_sum_total. lia.
Qed.

End Binary64Facts.

(** C2, as the code has it.  Both [calculateUserTotals] functions add the
    amounts from left to right, from 0, with the [+] of Numbers.  For whole
    amounts whose absolute values add up to 2^53 at most, [totalDeposits] is
    the sum of the [amount] fields of the deposits and [totalLoans] the sum
    of the [amount] fields of the loans, empty lists included. *)
Theorem calculateUserTotals_sums
        (deposits : list Binary64.Deposit) (loans : list Binary64.Loan) :
  let page := Binary64.AnnualReports.calculateUserTotals deposits loans in
  let utils := Binary64.ReportUtils.calculateUserTotals deposits loans in
  (Binary64.totalDeposits page
   = fold_left Binary64.add (map Binary64.deposit_amount deposits)
               (JSNumber.Finite 0)
   /\ Binary64.totalLoans page
      = fold_left Binary64.add (map Binary64.loan_amount loans)
                  (JSNumber.Finite 0)
   /\ Binary64.totalDeposits utils = Binary64.totalDeposits page
   /\ Binary64.totalLoans utils = Binary64.totalLoans page)
  /\ (forall amounts,
        map Binary64.deposit_amount deposits = map Binary64.ofZ amounts ->
        Binary64.magnitude amounts <= 2 ^ 53 ->
        Binary64.totalDeposits page = Binary64.ofZ (JS.total amounts))
  /\ (forall amounts,
        map Binary64.loan_amount loans = map Binary64.ofZ amounts ->
        Binary64.magnitude amounts <= 2 ^ 53 ->
        Binary64.totalLoans page = Binary64.ofZ (JS.total amounts)).
Proof.
  intros page utils. subst page utils.
  assert (Hfold : forall (A : Type) (f : A -> JSNumber.number) (arr : list A),
             Binary64.reduce_sum f arr
             = fold_left Binary64.add (map f arr) (JSNumber.Finite 0)).
  { intros A f arr. unfold Binary64.reduce_sum. generalize (JSNumber.Finite 0).
    induction arr as [|x arr IH]; intros acc; [reflexivity|].
    cbn [fold_left map]. apply IH. }
  assert (Hwhole : forall numbers amounts,
             numbers = map Binary64.ofZ amounts ->
             Binary64.magnitude amounts <= 2 ^ 53 ->
             fold_left Binary64.add numbers (JSNumber.Finite 0)
             = Binary64.ofZ (JS.total amounts)).
  { intros numbers amounts -> Hbound.
    rewrite <- (Hfold Z Binary64.ofZ amounts).
    pose proof (reduce_sum_exact (fun n : Z => n) amounts) as Hexact.
    rewrite reduce_sum_total, map_id in Hexact. exact (Hexact Hbound). }
  cbn [Binary64.AnnualReports.calculateUserTotals
       Binary64.ReportUtils.calculateUserTotals
       Binary64.totalDeposits Binary64.totalLoans].
  split; [repeat split; apply Hfold|].
  split; intros amounts Hamounts Hbound; rewrite Hfold; now apply Hwhole.
Qed.

(** The example of the specification: 3000 + 2000 and 1000 + 1000. *)
Lemma calculateUserTotals_sums_witness :
  Binary64.totalDeposits
    (Binary64.AnnualReports.calculateUserTotals
       (Binary64.wholeDeposits [3000; 2000]) (Binary64.wholeLoans [1000; 1000]))
  = Binary64.ofZ 5000
  /\ Binary64.totalLoans
       (Binary64.AnnualReports.calculateUserTotals
          (Binary64.wholeDeposits [3000; 2000]) (Binary64.wholeLoans [1000; 1000]))
     = Binary64.ofZ 2000.
Proof.
  pose proof (calculateUserTotals_sums
                (Binary64.wholeDeposits [3000; 2000])
                (Binary64.wholeLoans [1000; 1000])) as (_ & Hdeposits & Hloans).
  split.
  - apply (Hdeposits [3000; 2000]); [reflexivity|vm_compute; discriminate].
  - apply (Hloans [1000; 1000]); [reflexivity|vm_compute; discriminate].
Defined.

(** C2, as stated, fails: a total is rounded at every step.  The deposits
    2^53, 1 and 1 total 2^53, and in the order 1, 1 and 2^53 they total
    2^53 + 2, which is their sum.  The deposits 0.1, 0.2 and 0.3 total
    0.6000000000000001, and in the reverse order 0.6. *)
Lemma calculateUserTotals_rounds :
  Binary64.totalDeposits
    (Binary64.AnnualReports.calculateUserTotals
       (Binary64.wholeDeposits [2 ^ 53; 1; 1]) [])
  = Binary64.ofZ (2 ^ 53)
  /\ Binary64.totalDeposits
       (Binary64.AnnualReports.calculateUserTotals
          (Binary64.wholeDeposits [1; 1; 2 ^ 53]) [])
     = Binary64.ofZ (2 ^ 53 + 2)
  /\ Binary64.totalDeposits
       (Binary64.AnnualReports.calculateUserTotals
          (Binary64.decimalDeposits [1 # 10; 2 # 10; 3 # 10]) [])
     = JSNumber.Finite (1351079888211149 # 2251799813685248)
  /\ Binary64.totalDeposits
       (Binary64.AnnualReports.calculateUserTotals
          (Binary64.decimalDeposits [3 # 10; 2 # 10; 1 # 10]) [])
     = JSNumber.Finite (5404319552844595 # 9007199254740992)
  /\ Binary64.round (6 # 10)
     = JSNumber.Finite (5404319552844595 # 9007199254740992).
Proof.
  repeat split; vm_compute; reflexivity.
Qed.

(** C3, as the code has it.  The [calculateUserTotals] of the page counts
    as paid exactly the loans whose [paymentStatus] is the string "approved"
    and as unpaid all others, a loan without the field included; on the
    example of the specification it returns 5000, 2000, 1 and 1.  The
    [calculateUserTotals] of [reportUtils.js] does not read [paymentStatus]:
    it counts as paid exactly the loans whose [paid] field is truthy, as
    the modal of [UserReportModal.jsx] shows them. *)
Theorem calculateUserTotals_paid_by_status (deposits : list Deposit) (loans : list Loan) :
  paidLoansCount (AnnualReports.calculateUserTotals deposits loans)
    = length (filter (fun loan => paymentStatus loan = JS.Str "approved") loans)
  /\ unpaidLoansCount (AnnualReports.calculateUserTotals deposits loans)
    = length (filter (fun loan => paymentStatus loan <> JS.Str "approved") loans)
  /\ (forall id uid amt ts pd,
        let loan := mkLoan id uid amt ts JS.Undefined pd in
        unpaidLoansCount (AnnualReports.calculateUserTotals deposits [loan]) = 1%nat
        /\ paidLoansCount (AnnualReports.calculateUserTotals deposits [loan]) = 0%nat)
  /\ AnnualReports.calculateUserTotals example_deposits example_loans
    = {| totalDeposits := 5000; totalLoans := 2000;
         paidLoansCount := 1; unpaidLoansCount := 1 |}
  /\ paidLoansCount (ReportUtils.calculateUserTotals deposits loans)
    = length (filter (fun loan => JS.truthy (paid loan) = true) loans)
  /\ unpaidLoansCount (ReportUtils.calculateUserTotals deposits loans)
    = length (filter (fun loan => JS.truthy (paid loan) <> true) loans)
  /\ (forall id uid amt ts status,
        let loan := mkLoan id uid amt ts status JS.Undefined in
        unpaidLoansCount (ReportUtils.calculateUserTotals deposits [loan]) = 1%nat
        /\ paidLoansCount (ReportUtils.calculateUserTotals deposits [loan]) = 0%nat).
Proof.
  split; [|split; [|split; [|split; [|split; [|split]]]]].
  - simpl. apply length_filter_bool_decide.
    intros loan. apply strict_eq_str_spec.
  - simpl. apply length_filter_bool_decide.
    intros loan. rewrite negb_true_iff, <- not_true_iff_false.
    now rewrite strict_eq_str_spec.
  - intros id uid amt ts pd. simpl. split; reflexivity.
  - reflexivity.
  - simpl. apply length_filter_bool_decide. intros loan. reflexivity.
  - simpl. apply length_filter_bool_decide.
    intros loan. now rewrite negb_true_iff, <- not_true_iff_false.
  - intros id uid amt ts status. simpl. split; reflexivity.
Qed.

(** C3, as stated, fails on the [calculateUserTotals] of [reportUtils.js]:
    on the example of the specification, where the first loan has the
    status "approved", it finds no paid loan and two unpaid ones. *)
Example reportUtils_example :
  ReportUtils.calculateUserTotals example_deposits example_loans
  = {| totalDeposits := 5000; totalLoans := 2000;
       paidLoansCount := 0; unpaidLoansCount := 2 |}.
Proof. reflexivity. Qed.

(** C4. The paid and unpaid counts of [calculateUserTotals] add up to the
    number of loans, for the page's function and for the [reportUtils.js]
    one. *)
Theorem calculateUserTotals_partition (deposits : list Deposit) (loans : list Loan) :
  (paidLoansCount (AnnualReports.calculateUserTotals deposits loans)
   + unpaidLoansCount (AnnualReports.calculateUserTotals deposits loans))%nat
    = length loans
  /\ (paidLoansCount (ReportUtils.calculateUserTotals deposits loans)
      + unpaidLoansCount (ReportUtils.calculateUserTotals deposits loans))%nat
    = length loans.
Proof.
  split; simpl; apply filter_negb_partition.
Qed.

(** ** Properties of the pagination *)

Section PaginationFacts.

Import Pagination.
Context {A : Type}.

Lemma Math_ceil_div_bounds (n d : Z) :
  0 < d -> n <= Math_ceil_div n d * d < n + d.
Proof.
  intros Hd. unfold Math_ceil_div.
  pose proof (Z.mul_div_le (- n) d Hd) as Hlo.
  pose proof (Z.mul_succ_div_gt (- n) d Hd) as Hhi.
  nia.
Qed.

Lemma Math_ceil_div_least (n d k : Z) :
  0 < d -> n <= k * d -> Math_ceil_div n d <= k.
Proof.
  intros Hd Hk. pose proof (Math_ceil_div_bounds n d Hd). nia.
Qed.

Lemma slice_nonneg (arr : list A) (a b : Z) :
  0 <= a -> a <= b ->
  slice arr a b = take (Z.to_nat (b - a)) (drop (Z.to_nat a) arr).
Proof.
  intros Ha Hab. unfold slice.
  destruct (Z.ltb_spec a 0); [lia|]. destruct (Z.ltb_spec b 0); [lia|].
  set (len := Z.of_nat (length arr)).
  destruct (Z_le_gt_dec len a) as [Hge|Hlt].
  - rewrite Z.min_r by lia.
    rewrite !drop_ge by (unfold len in *; lia).
    now rewrite !take_nil.
  - rewrite (Z.min_l a len) by lia.
    destruct (Z_le_gt_dec b len) as [Hb|Hb].
    + now rewrite Z.min_l by lia.
    + rewrite Z.min_r by lia.
      rewrite !take_ge; [reflexivity| |]; rewrite length_drop; unfold len in *; lia.
Qed.

Lemma take_plus_drop (arr : list A) (a b : nat) :
  take (a + b) arr = take a arr ++ take b (drop a arr).
Proof.
  revert arr; induction a as [|a IH]; intros [|x arr]; simpl;
    rewrite ?take_nil; try reflexivity.
  now rewrite IH.
Qed.

Lemma concat_chunks (arr : list A) (size pages : nat) :
  concat (map (fun i => take size (drop (i * size) arr)) (seq 0 pages))
  = take (pages * size) arr.
Proof.
  induction pages as [|pages IH]; [reflexivity|].
  rewrite seq_S, map_app, concat_app, IH. simpl.
  rewrite app_nil_r, (Nat.add_comm size), take_plus_drop. reflexivity.
Qed.

Lemma currentData_chunk (itemsPerPage : Z) (data : list A) (i : nat) :
  0 < itemsPerPage ->
  currentData itemsPerPage data (Z.of_nat i + 1)
  = take (Z.to_nat itemsPerPage) (drop (i * Z.to_nat itemsPerPage) data).
Proof.
  intros Hpos. unfold currentData, endIndex, startIndex.
  rewrite slice_nonneg by nia.
  f_equal; [f_equal; lia|]. f_equal. nia.
Qed.

Lemma pages_reconstruct (itemsPerPage : Z) (data : list A) :
  0 < itemsPerPage ->
  concat (map (currentData itemsPerPage data) (pageButtons itemsPerPage data)) = data.
Proof.
  intros Hpos. unfold pageButtons. rewrite map_map.
  rewrite (map_ext _ (fun i => take (Z.to_nat itemsPerPage)
                                  (drop (i * Z.to_nat itemsPerPage) data)))
    by (intros i; now apply currentData_chunk).
  rewrite concat_chunks. apply take_ge.
  pose proof (Math_ceil_div_bounds (Z.of_nat (length data)) itemsPerPage Hpos).
  unfold totalPages. nia.
Qed.

Lemma currentData_past_end (itemsPerPage : Z) (data : list A) (page : Z) :
  0 < itemsPerPage -> totalPages itemsPerPage data < page ->
  currentData itemsPerPage data page = [].
Proof.
  intros Hpos Hpage. unfold currentData, endIndex, startIndex.
  pose proof (Math_ceil_div_bounds (Z.of_nat (length data)) itemsPerPage Hpos) as Hb.
  unfold totalPages in Hpage.
  assert (0 <= Math_ceil_div (Z.of_nat (length data)) itemsPerPage).
  { destruct (Z_lt_le_dec (Math_ceil_div (Z.of_nat (length data)) itemsPerPage) 0);
      [nia|assumption]. }
  rewrite slice_nonneg by nia.
  rewrite drop_ge by nia. apply take_nil.
Qed.

Lemma pageButtons_range (itemsPerPage : Z) (data : list A) (page : Z) :
  In page (pageButtons itemsPerPage data) ->
  1 <= page <= totalPages itemsPerPage data.
Proof.
  unfold pageButtons. rewrite in_map_iff. intros (i & <- & Hi).
  apply in_seq in Hi. lia.
Qed.

End PaginationFacts.

(** The pages of a table.  For a positive page size: [totalPages] is the
    ceiling of n / pageSize; Previous never goes below 1, Next never goes
    above [totalPages], and both stay within the pages from a page within
    them; there are page buttons for the pages 1 to [totalPages] only; the
    slices of pages 1 to [totalPages], in order, concatenate to the sequence
    itself; and a page past the last one displays no row: the slice is taken
    at the page index as it is. *)
Lemma pagination_pages {A : Type} (itemsPerPage : Z) (data : list A) :
  0 < itemsPerPage ->
  let n := Z.of_nat (length data) in
  let pages := Pagination.totalPages itemsPerPage data in
  (n <= pages * itemsPerPage < n + itemsPerPage)
  /\ (forall prev, 1 <= Pagination.onPrevious prev
                   /\ Pagination.onNext itemsPerPage data prev <= pages)
  /\ (forall prev, 1 <= prev <= pages ->
        1 <= Pagination.onPrevious prev <= pages
        /\ 1 <= Pagination.onNext itemsPerPage data prev <= pages)
  /\ (forall page, In page (Pagination.pageButtons itemsPerPage data) ->
        1 <= page <= pages)
  /\ concat (map (Pagination.currentData itemsPerPage data)
                 (Pagination.pageButtons itemsPerPage data)) = data
  /\ (forall page, pages < page ->
        Pagination.currentData itemsPerPage data page = []).
Proof.
  intros Hpos n pages.
  split; [apply Math_ceil_div_bounds; exact Hpos|].
  split; [intros prev; unfold Pagination.onPrevious, Pagination.onNext; fold pages; lia|].
  split; [intros prev Hprev; unfold Pagination.onPrevious, Pagination.onNext;
          fold pages; lia|].
  split; [intros page; apply pageButtons_range|].
  split; [apply pages_reconstruct; exact Hpos|].
  intros page Hpage. now apply currentData_past_end.
Qed.

(** C6, on the code.  Nothing clamps the page index of a [PaginatedTable]:
    the table shows twelve rows by five, the third page is chosen, and the
    data shrinks to three rows.  One page is left, the page index is still
    3, and the table displays no row where the page it would be clamped to
    has three. *)
Lemma paginatedTable_not_clamped :
  Pagination.reaches (Pagination.table_step 5)
                     (Pagination.initial twelve_rows) shrunk_table
  /\ Pagination.totalPages 5 (Pagination.rows shrunk_table) = 1
  /\ Pagination.currentPage shrunk_table = 3
  /\ Pagination.currentData 5 (Pagination.rows shrunk_table)
                            (Pagination.currentPage shrunk_table) = []
  /\ Pagination.currentData 5 (Pagination.rows shrunk_table) 1 = [1; 2; 3]
  /\ ~ Pagination.page_in_range 5 shrunk_table.
Proof.
  split.
  { apply (Pagination.reaches_step _ _
             {| Pagination.rows := twelve_rows; Pagination.currentPage := 3 |}).
    - apply (Pagination.reaches_step _ _ (Pagination.initial twelve_rows)).
      + apply Pagination.reaches_here.
      + apply (Pagination.table_goto 5 (Pagination.initial twelve_rows) 3).
        * reflexivity.
        * simpl. tauto.
    - apply (Pagination.table_data 5
               {| Pagination.rows := twelve_rows; Pagination.currentPage := 3 |}
               [1; 2; 3]). }
  repeat split; try reflexivity.
  unfold Pagination.page_in_range; simpl.
  change (Pagination.totalPages 5 [1; 2; 3]) with 1. lia.
Qed.

(** ** Properties of the grouping by month *)

(** C5, on the code.  [groupDataByMonth] always returns twelve buckets, but
    [getEndOfMonth] is the midnight that begins the last day of the month: a
    deposit of 100 made at 10:00 on 31 January 2023 lies within the year
    2023 and in no bucket, so the buckets of 2023 sum to 0 and the year's
    deposits to 100. *)
Theorem groupDataByMonth_drops_last_day :
  (forall deposits loans year,
      length (MonthGrouping.groupDataByMonth deposits loans year) = 12%nat)
  /\ MonthGrouping.getEndOfMonth 2023 1 = JSDate.Date_new 2023 0 31
  /\ map MonthGrouping.month
         (MonthGrouping.groupDataByMonth [MonthGrouping.last_day_deposit] [] 2023)
     = ["Jan"; "Feb"; "Mar"; "Apr"; "May"; "Jun";
        "Jul"; "Aug"; "Sep"; "Oct"; "Nov"; "Dec"]%string
  /\ JS.total (map MonthGrouping.deposits
                 (MonthGrouping.groupDataByMonth
                    [MonthGrouping.last_day_deposit] [] 2023)) = 0
  /\ MonthGrouping.yearTotal [MonthGrouping.last_day_deposit] 2023 = 100.
Proof.
  split; [intros deposits loans year; reflexivity|].
  repeat split; vm_compute; reflexivity.
Qed.

(** ** Properties of the data fetcher *)

Section FetcherFacts.

Import Fetcher.
Context {R : Type} `{Doc R}.

Lemma insert_Permutation (cmp : R -> R -> Z) (x : R) (arr : list R) :
  JS.insert cmp x arr ≡ₚ x :: arr.
Proof.
  induction arr as [|y arr IH]; simpl; [reflexivity|].
  destruct (cmp x y <=? 0); [reflexivity|].
  rewrite IH. apply Permutation_swap.
Qed.

Lemma sort_Permutation (cmp : R -> R -> Z) (arr : list R) :
  JS.sort cmp arr ≡ₚ arr.
Proof.
  induction arr as [|x arr IH]; simpl; [reflexivity|].
  rewrite insert_Permutation. now rewrite IH.
Qed.





Lemma push_fold_lookup (docs : list R) (acc : gmap string (list R)) (u : string) :
  fold_left push docs acc !! u
  = match acc !! u, filter (fun r => userId r = u) docs with
    | None, [] => None
    | o, l => Some (default [] o ++ l)
    end.
Proof.
  revert acc; induction docs as [|r docs IH]; intros acc.
  - simpl. destruct (acc !! u); simpl; [now rewrite app_nil_r|reflexivity].
  - simpl fold_left. rewrite IH, filter_cons. unfold push at 1.
    destruct (decide (userId r = u)) as [->|Hne].
    + rewrite lookup_insert_eq. simpl.
      destruct (acc !! u); simpl; rewrite <- ?app_assoc; reflexivity.
    + rewrite lookup_insert_ne by exact Hne. reflexivity.
Qed.

Lemma collect_lookup (docs : list R) (u : string) :
  collect docs !! u
  = match filter (fun r => userId r = u) docs with
    | [] => None
    | l => Some l
    end.
Proof.
  unfold collect. rewrite push_fold_lookup, lookup_empty. reflexivity.
Qed.

Lemma collectWithin_fold (startDate endDate : Z) (docs : list R)
      (acc : gmap string (list R)) :
  fold_left (fun data r => if within startDate endDate r then push data r else data)
            docs acc
  = fold_left push (List.filter (within startDate endDate) docs) acc.
Proof.
  revert acc; induction docs as [|r docs IH]; intros acc; [reflexivity|].
  simpl. destruct (within startDate endDate r); simpl; apply IH.
Qed.

Lemma collectWithin_collect (startDate endDate : Z) (docs : list R) :
  collectWithin startDate endDate docs
  = collect (List.filter (within startDate endDate) docs).
Proof. apply collectWithin_fold. Qed.

(** The fallback path and the indexed path, user by user. *)
Lemma fallback_lookup (startDate endDate : Z) (plain : list R) (u : string) :
  sortEach (collectWithin startDate endDate plain) !! u
  = match filter (fun r => userId r = u)
                 (List.filter (within startDate endDate) plain) with
    | [] => None
    | l => Some (JS.sort byDateDesc l)
    end.
Proof.
  unfold sortEach. rewrite lookup_fmap, collectWithin_collect, collect_lookup.
  destruct (filter _ _); reflexivity.
Qed.

End FetcherFacts.





(** ** Properties of the block-status check *)

(** C10.  [checkUserBlockStatus] never throws: it returns a boolean, which is
    [true] exactly when a user is signed in, the user's document exists and
    its [isBlocked] field is the boolean [true]; without a user, without a
    document, with another or no [isBlocked], and on an error of the lookup
    it returns [false]. *)
Theorem checkUserBlockStatus_fail_open
        (currentUser : option UserBlocking.User)
        (getDoc : string -> Exc.result UserBlocking.DocumentSnapshot) :
  exists blocked : bool,
    UserBlocking.checkUserBlockStatus currentUser getDoc = Exc.Ok blocked
    /\ (blocked = true <->
        exists user userData,
          currentUser = Some user
          /\ getDoc (UserBlocking.uid user)
             = Exc.Ok (UserBlocking.mkSnapshot (Some userData))
          /\ UserBlocking.isBlocked userData = JS.Bool true)
    /\ (currentUser = None -> blocked = false)
    /\ (forall user e, currentUser = Some user ->
          getDoc (UserBlocking.uid user) = Exc.Throw e -> blocked = false)
    /\ (forall user, currentUser = Some user ->
          getDoc (UserBlocking.uid user) = Exc.Ok (UserBlocking.mkSnapshot None) ->
          blocked = false).
Proof.
  unfold UserBlocking.checkUserBlockStatus.
  destruct currentUser as [user|]; simpl.
  - destruct (getDoc (UserBlocking.uid user)) as [[[userData|]]|e] eqn:Eget; simpl.
    + exists (UserBlocking.strict_eq_true (UserBlocking.isBlocked userData)).
      split; [reflexivity|]. split; [|split; [|split]].
      * split.
        -- intros Hb. exists user, userData. repeat split; try assumption.
           destruct (UserBlocking.isBlocked userData) as [| |[|]| | |];
             simpl in Hb; congruence.
        -- intros (user' & userData' & Hu & Hg & Hb).
           injection Hu as <-. rewrite Eget in Hg. injection Hg as <-.
           now rewrite Hb.
      * discriminate.
      * intros user' e Hu Hg. injection Hu as <-. congruence.
      * intros user' Hu Hg. injection Hu as <-. congruence.
    + exists false. split; [reflexivity|]. split; [|auto].
      split; [discriminate|].
      intros (user' & userData' & Hu & Hg & _).
      injection Hu as <-. congruence.
    + exists false. split; [reflexivity|]. split; [|auto].
      split; [discriminate|].
      intros (user' & userData' & Hu & Hg & _).
      injection Hu as <-. congruence.
  - exists false. split; [reflexivity|]. split; [|auto].
    split; [discriminate|].
    intros (user' & userData' & Hu & _). discriminate Hu.
Qed.

(** ** Properties of the reading of numbers *)

Section NumberInputFacts.

Import NumberInput.

Lemma isDigit_cases (d : Z) :
  isDigit d -> d = 0 \/ d = 1 \/ d = 2 \/ d = 3 \/ d = 4 \/ d = 5 \/ d = 6 \/ d = 7 \/ d = 8 \/ d = 9.
Proof. unfold isDigit. lia. Qed.

Ltac digit_cases d H :=
  apply isDigit_cases in H;
  repeat (destruct H as [H|H]; [subst d|]); [..|subst d].

Lemma digitValue_digitChar (d : Z) :
  isDigit d -> JSNumber.digitValue (digitChar d) = Some d.
Proof. intros H. digit_cases d H; reflexivity. Qed.

Lemma scanDigits_stops (s : string) :
  stops s -> JSNumber.scanDigits 10 s = ([], s).
Proof.
  destruct s as [|c s]; [reflexivity|]. simpl.
  destruct (JSNumber.digitValue c) as [d|]; [|reflexivity].
  intros Hd. destruct (Z.ltb_spec d 10); [lia|reflexivity].
Qed.

Lemma scanDigits_digitsText (ds : list Z) (rest : string) :
  Forall isDigit ds -> stops rest ->
  JSNumber.scanDigits 10 (digitsText ds ++ rest)%string = (ds, rest).
Proof.
  intros Hds Hrest. induction Hds as [|d ds Hd Hds IH]; simpl.
  - now apply scanDigits_stops.
  - rewrite (digitValue_digitChar d Hd).
    destruct (Z.ltb_spec d 10) as [_|Hge]; [|unfold isDigit in Hd; lia].
    now rewrite IH.
Qed.

Lemma digit_head_plain (c : ascii) (d : Z) :
  JSNumber.digitValue c = Some d -> d <= 9 ->
  c <> "+"%char /\ c <> "-"%char /\ c <> "I"%char /\ c <> "."%char.
Proof.
  intros Hc Hd. repeat split; intros ->; vm_compute in Hc;
    try discriminate Hc; injection Hc as <-; lia.
Qed.

Lemma scanSign_other (c : ascii) (r : string) :
  c <> "+"%char -> c <> "-"%char ->
  JSNumber.scanSign (String c r) = (false, String c r).
Proof.
  intros Hplus Hminus.
  destruct c as [[] [] [] [] [] [] [] []]; try reflexivity; congruence.
Qed.

Lemma prefix_Infinity_other (c : ascii) (r : string) :
  c <> "I"%char -> String.prefix "Infinity" (String c r) = false.
Proof.
  intros HI.
  destruct c as [[] [] [] [] [] [] [] []]; try reflexivity; congruence.
Qed.

Lemma scanFraction_other (s : string) :
  match s with String c _ => c <> "."%char | EmptyString => True end ->
  JSNumber.scanFraction s = (false, [], s).
Proof.
  destruct s as [|c r]; [reflexivity|]. intros Hdot.
  destruct c as [[] [] [] [] [] [] [] []]; try reflexivity; congruence.
Qed.

Lemma stops_exponentText e : stops (exponentText e).
Proof. destruct e as [[[[] sign] ds]|]; vm_compute; trivial; discriminate. Qed.

Lemma stops_fraction fp e : stops (fractionText fp ++ exponentText e)%string.
Proof.
  destruct fp; [apply stops_exponentText|]. vm_compute. trivial.
Qed.

Lemma scanFraction_text (fp : list Z) e :
  Forall isDigit fp ->
  JSNumber.scanFraction (fractionText fp ++ exponentText e)%string
  = (JSNumber.nonEmpty fp, fp, exponentText e).
Proof.
  intros Hfp. destruct fp as [|d fp'].
  - simpl. apply scanFraction_other.
    destruct e as [[[[] sign] ds]|]; simpl; trivial; discriminate.
  - change (fractionText (d :: fp') ++ exponentText e)%string
      with (String "." (digitsText (d :: fp') ++ exponentText e)%string).
    unfold JSNumber.scanFraction.
    rewrite scanDigits_digitsText by (assumption || apply stops_exponentText).
    reflexivity.
Qed.

Lemma digitsText_head_plain (d : Z) (ds : list Z) (rest : string) :
  isDigit d ->
  exists c r, (digitsText (d :: ds) ++ rest)%string = String c r
              /\ c <> "+"%char /\ c <> "-"%char /\ c <> "I"%char.
Proof.
  intros Hd. exists (digitChar d), (digitsText ds ++ rest)%string.
  split; [reflexivity|].
  destruct (digit_head_plain (digitChar d) d (digitValue_digitChar d Hd))
    as (? & ? & ? & ?); [unfold isDigit in Hd; lia|auto].
Qed.

Lemma scanExponent_text e :
  match e with
  | None => True
  | Some (_, _, ds) => Forall isDigit ds /\ ds <> []
  end ->
  JSNumber.scanExponent (exponentText e)
  = match e with
    | None => None
    | Some _ => Some (exponentValue e, EmptyString)
    end.
Proof.
  destruct e as [[[capital sign] ds]|]; [|reflexivity].
  intros [Hds Hne].
  assert (Hscan : JSNumber.scanDigits 10 (digitsText ds) = (ds, EmptyString)).
  { replace (digitsText ds) with (digitsText ds ++ EmptyString)%string.
    - now apply scanDigits_digitsText.
    - clear. induction ds as [|d ds IH]; [reflexivity|].
      change (String (digitChar d) (digitsText ds ++ EmptyString)%string
              = String (digitChar d) (digitsText ds)).
      f_equal. exact IH. }
  assert (Hnonempty : JSNumber.nonEmpty ds = true) by (destruct ds; [congruence|reflexivity]).
  assert (Hsign : JSNumber.scanSign
                    ((match sign with
                      | None => EmptyString
                      | Some true => "-"
                      | Some false => "+"
                      end) ++ digitsText ds)%string
                  = (match sign with Some true => true | _ => false end,
                     digitsText ds)).
  { destruct sign as [[]|]; [reflexivity|reflexivity|].
    destruct ds as [|d ds']; [congruence|].
    inversion Hds as [|? ? Hd _]; subst.
    destruct (digitsText_head_plain d ds' EmptyString Hd) as (c & r & Heq & Hp & Hm & _).
    simpl. simpl in Heq. injection Heq as <- _.
    now apply scanSign_other. }
  unfold exponentText, JSNumber.scanExponent.
  replace (Ascii.eqb (if capital then "E"%char else "e"%char) "e"
           || Ascii.eqb (if capital then "E"%char else "e"%char) "E") with true
    by (destruct capital; reflexivity).
  rewrite Hsign, Hscan, Hnonempty.
  destruct sign as [[]|]; reflexivity.
Qed.

Section ReadingText.

Variable round : Q -> JSNumber.number.

Lemma scan_text (ft : FloatText) :
  wellFormed ft ->
  JSNumber.scanStrDecimalLiteral round (text ft)
  = Some (round (value ft), EmptyString).
Proof.
  destruct ft as [neg ip fp e]. intros (Hip & Hfp & Hsome & He). simpl in *.
  set (body := (digitsText ip ++ fractionText fp ++ exponentText e)%string).
  assert (Hhead : exists c r, body = String c r
                              /\ c <> "+"%char /\ c <> "-"%char /\ c <> "I"%char).
  { destruct ip as [|d ip'].
    - destruct fp as [|d fp']; [destruct Hsome; congruence|].
      exists "."%char, (digitsText (d :: fp') ++ exponentText e)%string.
      repeat split; discriminate.
    - inversion Hip; subst. now apply digitsText_head_plain. }
  destruct Hhead as (c & r & Hbody & Hplus & Hminus & HI).
  assert (Hsign : JSNumber.scanSign (text (mkFloatText neg ip fp e)) = (neg, body)).
  { unfold text; simpl. fold body. destruct neg; [reflexivity|].
    simpl. rewrite Hbody. now apply scanSign_other. }
  unfold JSNumber.scanStrDecimalLiteral. rewrite Hsign.
  rewrite Hbody at 1. rewrite prefix_Infinity_other by exact HI.
  unfold body. rewrite scanDigits_digitsText by (assumption || apply stops_fraction).
  rewrite scanFraction_text by assumption.
  replace (JSNumber.nonEmpty ip || JSNumber.nonEmpty fp && JSNumber.nonEmpty fp)
    with true
    by (destruct ip, fp; try reflexivity; destruct Hsome; congruence).
  rewrite scanExponent_text by exact He.
  unfold value; simpl.
  destruct e as [[[capital sign] ds]|]; reflexivity.
Qed.

End ReadingText.

Lemma allChars_app (p : ascii -> bool) (s1 s2 : string) :
  allChars p (s1 ++ s2)%string = allChars p s1 && allChars p s2.
Proof.
  induction s1 as [|c s1 IH]; [reflexivity|].
  change (p c && allChars p (s1 ++ s2)%string = p c && allChars p s1 && allChars p s2).
  rewrite IH. apply andb_assoc.
Qed.

Lemma allChars_digitsText (ds : list Z) :
  Forall isDigit ds -> allChars floatChar (digitsText ds) = true.
Proof.
  induction 1 as [|d ds Hd _ IH]; [reflexivity|].
  simpl. rewrite IH, andb_true_r. digit_cases d Hd; reflexivity.
Qed.

Lemma allChars_text (ft : FloatText) :
  wellFormed ft -> allChars floatChar (text ft) = true.
Proof.
  destruct ft as [neg ip fp e]. intros (Hip & Hfp & _ & He). simpl in *.
  unfold text; simpl. rewrite !allChars_app, (allChars_digitsText ip Hip).
  assert (allChars floatChar (fractionText fp) = true) as ->.
  { destruct fp as [|d fp']; [reflexivity|].
    exact (allChars_digitsText (d :: fp') Hfp). }
  assert (allChars floatChar (exponentText e) = true) as ->.
  { destruct e as [[[capital sign] ds]|]; [|reflexivity]. destruct He as [Hds _].
    simpl. rewrite allChars_app, (allChars_digitsText ds Hds).
    destruct capital, sign as [[]|]; reflexivity. }
  destruct neg; reflexivity.
Qed.

Lemma floatChar_facts (c : ascii) :
  floatChar c = true ->
  JSNumber.isWhiteSpace c = false /\ JSNumber.radixOf c = None.
Proof.
  destruct c as [[] [] [] [] [] [] [] []]; vm_compute; intros Hc;
    (discriminate Hc || (split; reflexivity)).
Qed.

Lemma trimStart_plain (s : string) :
  allChars floatChar s = true -> JSNumber.trimStart s = s.
Proof.
  destruct s as [|c s]; [reflexivity|]. simpl.
  intros [Hc _]%andb_true_iff. now rewrite (proj1 (floatChar_facts c Hc)).
Qed.

Lemma trimEnd_plain (s : string) :
  allChars floatChar s = true -> JSNumber.trimEnd s = s.
Proof.
  induction s as [|c s IH]; [reflexivity|]. simpl.
  intros [Hc Hs]%andb_true_iff.
  now rewrite (proj1 (floatChar_facts c Hc)), IH.
Qed.

Section ReadingWhole.

Variable round : Q -> JSNumber.number.

Lemma nonDecimalLiteral_plain (s : string) :
  allChars floatChar s = true -> JSNumber.nonDecimalLiteral round s = None.
Proof.
  destruct s as [|c0 [|c1 r]]; [reflexivity| |].
  - intros _. destruct c0 as [[] [] [] [] [] [] [] []]; reflexivity.
  - simpl. intros [_ [Hc1 _]%andb_true_iff]%andb_true_iff.
    destruct c0 as [[] [] [] [] [] [] [] []]; try reflexivity.
    simpl. now rewrite (proj2 (floatChar_facts c1 Hc1)).
Qed.

Lemma parseFloat_text (ft : FloatText) :
  wellFormed ft -> JSNumber.parseFloat round (text ft) = round (value ft).
Proof.
  intros Hwf. unfold JSNumber.parseFloat.
  rewrite trimStart_plain by now apply allChars_text.
  now rewrite scan_text.
Qed.

Lemma Number_text (ft : FloatText) :
  wellFormed ft -> JSNumber.Number round (text ft) = round (value ft).
Proof.
  intros Hwf. pose proof (allChars_text ft Hwf) as Hplain.
  pose proof (scan_text round ft Hwf) as Hscan.
  unfold JSNumber.Number, JSNumber.trim.
  rewrite trimStart_plain, trimEnd_plain by exact Hplain.
  rewrite nonDecimalLiteral_plain by exact Hplain.
  rewrite Hscan.
  destruct (String.eqb_spec (text ft) "") as [Hempty|_]; [|reflexivity].
  rewrite Hempty in Hscan. discriminate Hscan.
Qed.

End ReadingWhole.

End NumberInputFacts.

(** ** Properties of the interest-rate settings page *)

Section InterestFacts.

Import InterestSettings.
#[local] Arguments JSNumber.lt : simpl never.
#[local] Arguments JSNumber.gt : simpl never.
#[local] Arguments JSNumber.parseFloat : simpl never.
#[local] Arguments JSNumber.Number : simpl never.
#[local] Arguments JSNumber.isNaN : simpl never.
Variable t : string -> string.
Variable round : Q -> JSNumber.number.

Lemma afterSave_invalid (now : Z) (newDocId : string) (w : World) :
  String.eqb (interest (state w)) ""
  || JSNumber.isNaN (JSNumber.Number round (interest (state w))) = true ->
  store (afterSave t round now newDocId w) = store w
  /\ issued (afterSave t round now newDocId w) = issued w.
Proof.
  intros Hbad. unfold afterSave, handleSave. rewrite Hbad. split; reflexivity.
Qed.

Lemma afterSave_out_of_range (now : Z) (newDocId : string) (w : World) :
  JSNumber.lt (JSNumber.parseFloat round (interest (state w))) (JSNumber.Finite 0)
  || JSNumber.gt (JSNumber.parseFloat round (interest (state w)))
                 (JSNumber.Finite 100) = true ->
  store (afterSave t round now newDocId w) = store w
  /\ issued (afterSave t round now newDocId w) = issued w.
Proof.
  intros Hrange. unfold afterSave, handleSave.
  destruct (String.eqb _ _ || JSNumber.isNaN _); [split; reflexivity|].
  unfold bind, setSaving, modify, try_catch_finally, saveBody. simpl.
  rewrite Hrange. split; reflexivity.
Qed.

(** What a save of a valid rate leaves: the call it issues, and what
    becomes of the collection, of the identifier and of the message with
    the answers of Firestore to the write and to the refresh. *)
Lemma afterSave_valid (now : Z) (newDocId : string) (w : World) :
  String.eqb (interest (state w)) ""
  || JSNumber.isNaN (JSNumber.Number round (interest (state w))) = false ->
  JSNumber.lt (JSNumber.parseFloat round (interest (state w))) (JSNumber.Finite 0)
  || JSNumber.gt (JSNumber.parseFloat round (interest (state w)))
                 (JSNumber.Finite 100) = false ->
  let interestData :=
    {| doc_interest := JSNumber.parseFloat round (interest (state w));
       doc_timestamp := now |} in
  let w' := afterSave t round now newDocId w in
  fst (handleSave t round now newDocId w) = Exc.Ok tt
  /\ interest (state w') = interest (state w)
  /\ saving (state w') = false
  /\ issued w'
     = issued w ++ [match interestDocId (state w) with
                    | Some id => UpdateDoc id interestData
                    | None => SetDoc newDocId interestData
                    end]
  /\ match answerAt 0 w with
     | Some error => notSaved t error w w'
     | None =>
         match interestDocId (state w) with
         | None =>
             store w' = <[newDocId := interestData]> (store w)
             /\ interestDocId (state w') = Some newDocId
             /\ saved t w w'
         | Some id =>
             match store w !! id with
             | Some _ =>
                 store w' = <[id := interestData]> (store w)
                 /\ interestDocId (state w') = Some id
                 /\ saved t w w'
             | None =>
                 notSaved t (Exc.mkError "FirebaseError" "No document to update")
                          w w'
             end
         end
     end.
Proof.
  destruct w as [[input docId sv msg mt] docs calls answers].
  cbn [state interest interestDocId store issued].
  intros Hok Hrange. unfold saved, notSaved, answerAt, afterSave, handleSave.
  cbn [state interest pending]. rewrite Hok.
  unfold bind, setSaving, modify, try_catch_finally, saveBody.
  cbn [state interest interestDocId store issued pending fst snd]. rewrite Hrange.
  destruct docId as [id|].
  - unfold updateDoc, refreshHistory, bind, issue, answer, write, setMessage,
      setMessageType, setInterestDocId, modify.
    cbn [state interest interestDocId store issued pending fst snd].
    destruct answers as [|[error|] answers];
      cbn [state interest interestDocId store issued pending fst snd nth tail].
    + destruct (docs !! id) as [old|];
        cbn -[lookup insert String.append]; repeat split; reflexivity.
    + cbn -[lookup insert String.append]. repeat split; reflexivity.
    + destruct (docs !! id) as [old|]; [|cbn -[lookup insert String.append];
                                           repeat split; reflexivity].
      destruct answers as [|[error|] answers];
        cbn -[lookup insert String.append]; repeat split; reflexivity.
  - unfold setDoc, refreshHistory, bind, issue, answer, write, setMessage,
      setMessageType, setInterestDocId, modify.
    cbn [state interest interestDocId store issued pending fst snd].
    destruct answers as [|[error|] answers];
      cbn [state interest interestDocId store issued pending fst snd nth tail].
    + cbn -[lookup insert String.append]. repeat split; reflexivity.
    + cbn -[lookup insert String.append]. repeat split; reflexivity.
    + destruct answers as [|[error|] answers];
        cbn -[lookup insert String.append]; repeat split; reflexivity.
Qed.

End InterestFacts.

Lemma text_not_empty (round : Q -> JSNumber.number) (ft : NumberInput.FloatText) :
  NumberInput.wellFormed ft -> String.eqb (NumberInput.text ft) "" = false.
Proof.
  intros Hwf. pose proof (scan_text round ft Hwf) as Hscan.
  destruct (String.eqb_spec (NumberInput.text ft) "") as [Hempty|_]; [|reflexivity].
  rewrite Hempty in Hscan. discriminate Hscan.
Qed.

(** C7, as the code has it.  When the input is empty, or [Number] of it is
    [NaN], or [parseFloat] of it is below 0 or above 100, [handleSave] issues
    no [updateDoc] and no [setDoc] and leaves the collection as it is.  On
    the texts a number input delivers, [Number] and [parseFloat] read the
    same value: [handleSave] then writes nothing when the value is not a
    number or lies outside [0, 100], and otherwise issues one write, of that
    value. *)
Theorem handleSave_rejects_without_write
        (t : string -> string) (round : Q -> JSNumber.number)
        (now : Z) (newDocId : string) (w : InterestSettings.World) :
  let input := InterestSettings.interest (InterestSettings.state w) in
  let w' := InterestSettings.afterSave t round now newDocId w in
  (input = ""%string
   \/ JSNumber.isNaN (JSNumber.Number round input) = true
   \/ JSNumber.lt (JSNumber.parseFloat round input) (JSNumber.Finite 0) = true
   \/ JSNumber.gt (JSNumber.parseFloat round input) (JSNumber.Finite 100) = true ->
   InterestSettings.issued w' = InterestSettings.issued w
   /\ InterestSettings.store w' = InterestSettings.store w)
  /\ (forall ft, NumberInput.wellFormed ft -> input = NumberInput.text ft ->
      let v := round (NumberInput.value ft) in
      JSNumber.Number round input = v
      /\ JSNumber.parseFloat round input = v
      /\ if JSNumber.isNaN v
            || JSNumber.lt v (JSNumber.Finite 0)
            || JSNumber.gt v (JSNumber.Finite 100)
         then InterestSettings.issued w' = InterestSettings.issued w
              /\ InterestSettings.store w' = InterestSettings.store w
         else exists c,
             InterestSettings.issued w' = InterestSettings.issued w ++ [c]
             /\ InterestSettings.callData c
                = {| InterestSettings.doc_interest := v;
                     InterestSettings.doc_timestamp := now |}).
Proof.
  intros input w'.
  assert (Hreject :
            input = ""%string
            \/ JSNumber.isNaN (JSNumber.Number round input) = true
            \/ JSNumber.lt (JSNumber.parseFloat round input) (JSNumber.Finite 0) = true
            \/ JSNumber.gt (JSNumber.parseFloat round input) (JSNumber.Finite 100) = true ->
            InterestSettings.issued w' = InterestSettings.issued w
            /\ InterestSettings.store w' = InterestSettings.store w).
  { intros Hbad.
    cut (InterestSettings.store w' = InterestSettings.store w
         /\ InterestSettings.issued w' = InterestSettings.issued w); [tauto|].
    destruct Hbad as [Hempty|[Hnan|[Hlow|Hhigh]]].
    - apply afterSave_invalid. fold input. rewrite Hempty. reflexivity.
    - apply afterSave_invalid. fold input. rewrite Hnan. apply orb_true_r.
    - apply afterSave_out_of_range. fold input. rewrite Hlow. reflexivity.
    - apply afterSave_out_of_range. fold input. rewrite Hhigh. apply orb_true_r. }
  split; [exact Hreject|].
  intros ft Hwf Htext v.
  assert (HN : JSNumber.Number round input = v)
    by (rewrite Htext; now apply Number_text).
  assert (HP : JSNumber.parseFloat round input = v)
    by (rewrite Htext; now apply parseFloat_text).
  split; [exact HN|]. split; [exact HP|].
  destruct (JSNumber.isNaN v) eqn:Hnan; cbn [orb].
  { apply Hreject. right; left. now rewrite HN. }
  destruct (JSNumber.lt v (JSNumber.Finite 0)) eqn:Hlow; cbn [orb].
  { apply Hreject. right; right; left. now rewrite HP. }
  destruct (JSNumber.gt v (JSNumber.Finite 100)) eqn:Hhigh.
  { apply Hreject. right; right; right. now rewrite HP. }
  assert (Hok : String.eqb input ""
                || JSNumber.isNaN (JSNumber.Number round input) = false).
  { rewrite HN, Hnan, Htext, (text_not_empty round ft Hwf). reflexivity. }
  assert (Hrange : JSNumber.lt (JSNumber.parseFloat round input) (JSNumber.Finite 0)
                   || JSNumber.gt (JSNumber.parseFloat round input)
                                  (JSNumber.Finite 100) = false)
    by (now rewrite HP, Hlow, Hhigh).
  pose proof (afterSave_valid t round now newDocId w Hok Hrange)
    as (_ & _ & _ & Hissued & _).
  fold input w' in Hissued. rewrite HP in Hissued.
  eexists. split; [exact Hissued|].
  destruct (InterestSettings.interestDocId (InterestSettings.state w)); reflexivity.
Qed.

(** A rate of 150 is turned down and nothing is written; a rate of 12.5 is
    written. *)
Lemma handleSave_rejects_without_write_witness :
  (JSNumber.gt (JSNumber.parseFloat JSNumber.exact "150") (JSNumber.Finite 100) = true
   /\ InterestSettings.issued
        (InterestSettings.afterSave InterestExamples.keys JSNumber.exact 1000 "r1"
           (InterestExamples.typed "150" None ∅)) = []
   /\ InterestSettings.store
        (InterestSettings.afterSave InterestExamples.keys JSNumber.exact 1000 "r1"
           (InterestExamples.typed "150" None ∅)) = ∅)
  /\ (NumberInput.wellFormed InterestExamples.twelveAndHalf
      /\ NumberInput.text InterestExamples.twelveAndHalf = "12.5"%string
      /\ exists c,
          InterestSettings.issued
            (InterestSettings.afterSave InterestExamples.keys JSNumber.exact 1000 "r1"
               (InterestExamples.typed "12.5" None ∅)) = [] ++ [c]
          /\ InterestSettings.callData c
             = {| InterestSettings.doc_interest :=
                    JSNumber.exact (NumberInput.value InterestExamples.twelveAndHalf);
                  InterestSettings.doc_timestamp := 1000 |}).
Proof.
  assert (Hwf : NumberInput.wellFormed InterestExamples.twelveAndHalf).
  { unfold NumberInput.wellFormed; simpl.
    split; [repeat (constructor; [unfold NumberInput.isDigit; lia|]); constructor|].
    split; [repeat (constructor; [unfold NumberInput.isDigit; lia|]); constructor|].
    split; [left; discriminate|exact I]. }
  split.
  - split; [reflexivity|].
    apply (proj1 (handleSave_rejects_without_write InterestExamples.keys JSNumber.exact
                    1000 "r1" (InterestExamples.typed "150" None ∅))).
    right; right; right. reflexivity.
  - split; [exact Hwf|]. split; [reflexivity|].
    exact (proj2 (proj2 (proj2 (handleSave_rejects_without_write
                                  InterestExamples.keys JSNumber.exact
                                  1000 "r1" (InterestExamples.typed "12.5" None ∅))
                               InterestExamples.twelveAndHalf Hwf eq_refl))).
Defined.

(** C7, as stated, fails on a string of white space: [Number] reads it as 0,
    so the check lets it pass, [parseFloat] reads it as [NaN], which is
    neither below 0 nor above 100, and [NaN] is written.  Likewise "0x100"
    is 256 for the check and 0 for [parseFloat], and 0 is written. *)
Lemma handleSave_writes_blank_input :
  JSNumber.Number JSNumber.exact " " = JSNumber.Finite 0
  /\ JSNumber.parseFloat JSNumber.exact " " = JSNumber.NaN
  /\ InterestSettings.issued
       (InterestSettings.afterSave InterestExamples.keys JSNumber.exact 1000 "r1"
          (InterestExamples.typed " " None ∅))
     = [InterestSettings.SetDoc "r1"
          {| InterestSettings.doc_interest := JSNumber.NaN;
             InterestSettings.doc_timestamp := 1000 |}]
  /\ InterestSettings.store
       (InterestSettings.afterSave InterestExamples.keys JSNumber.exact 1000 "r1"
          (InterestExamples.typed " " None ∅)) !! "r1"%string
     = Some {| InterestSettings.doc_interest := JSNumber.NaN;
               InterestSettings.doc_timestamp := 1000 |}
  /\ JSNumber.Number JSNumber.exact "0x100" = JSNumber.Finite 256
  /\ InterestSettings.issued
       (InterestSettings.afterSave InterestExamples.keys JSNumber.exact 1000 "r1"
          (InterestExamples.typed "0x100" None ∅))
     = [InterestSettings.SetDoc "r1"
          {| InterestSettings.doc_interest := JSNumber.Finite 0;
             InterestSettings.doc_timestamp := 1000 |}].
Proof.
  repeat split; vm_compute; reflexivity.
Qed.




(** ** Properties of the PDF export *)

Section ExportFacts.

Import ExportToPDF.

Lemma bind_Ok {A B : Type} (m : P A) (k : A -> P B) (d : Document)
      (out : B * Document) :
  bind m k d = Exc.Ok out ->
  exists a d', m d = Exc.Ok (a, d') /\ k a d' = Exc.Ok out.
Proof.
  unfold bind. destruct (m d) as [[a d']|e]; [|discriminate].
  intros Hk. exists a, d'. split; [reflexivity|exact Hk].
Qed.

(** When the body of the [try] returns, it returns the success object with
    the file name of the year. *)
Lemma generate_returns (lib : Library) (today : string)
      (userReports : list UserReport) (year : Z) (out : ExportResult * Document) :
  generate lib today userReports year newDocument = Exc.Ok out ->
  fst out = Success (pdfFilename year)
  /\ exists before, calls (snd out) = before ++ [Save (pdfFilename year)].
Proof.
  unfold generate. intros Hgen.
  repeat (apply bind_Ok in Hgen; destruct Hgen as (? & ? & ? & Hgen)).
  injection Hgen as <-. simpl. split; [reflexivity|].
  match goal with
  | Hsave : call _ (Save _) _ = Exc.Ok _ |- _ =>
      unfold call in Hsave; destruct (rejects lib _); [discriminate|];
      injection Hsave as _ <-; simpl; eauto
  end.
Qed.

End ExportFacts.

(** C9.  For every library behaviour, list of reports and year,
    [exportToPDF] returns and does not throw: when the generation runs to its
    end the result is the success object with the file name
    [annual-reports-<year>.pdf], and when the generation throws, the result
    is the failure object with the message of the exception. *)
Theorem exportToPDF_returns_result
        (lib : ExportToPDF.Library) (today : string)
        (userReports : list ExportToPDF.UserReport) (year : Z) :
  exists r : ExportToPDF.ExportResult,
    ExportToPDF.exportToPDF lib today userReports year = Exc.Ok r
    /\ match ExportToPDF.generate lib today userReports year
                                  ExportToPDF.newDocument with
       | Exc.Ok _ =>
           r = ExportToPDF.Success ("annual-reports-" ++ pretty year ++ ".pdf")
       | Exc.Throw e => r = ExportToPDF.Failure (Exc.message e)
       end.
Proof.
  unfold ExportToPDF.exportToPDF.
  destruct (ExportToPDF.generate lib today userReports year ExportToPDF.newDocument)
    as [out|e] eqn:Hgen; simpl.
  - exists (fst out). split; [reflexivity|].
    apply generate_returns in Hgen. exact (proj1 Hgen).
  - exists (ExportToPDF.Failure (Exc.message e)). split; reflexivity.
Qed.

(** Both outcomes occur: the report of the test data is exported; a report
    without its user, a loan whose status is [true], and a library that
    cannot save give the failure object. *)
Example exportToPDF_outcomes :
  ExportToPDF.exportToPDF ExportToPDF.permissive "November 2, 2026"
                          [ExportToPDF.johnDoe] 2023
  = Exc.Ok (ExportToPDF.Success "annual-reports-2023.pdf")
  /\ ExportToPDF.exportToPDF ExportToPDF.permissive "November 2, 2026"
                             [ExportToPDF.johnDoe; ExportToPDF.orphan] 2023
     = Exc.Ok (ExportToPDF.Failure
                 "Cannot read properties of undefined (reading 'name')")
  /\ ExportToPDF.exportToPDF ExportToPDF.permissive "November 2, 2026"
       [ExportToPDF.mkUserReport
          (Some (ExportToPDF.mkUserInfo None None None)) []
          [mkLoan "l1" "u1" 1000 (RawDate 0) (JS.Bool true) JS.Undefined]
          (mkUserTotals 0 1000 0 1)] 2023
     = Exc.Ok (ExportToPDF.Failure "paymentStatus.toUpperCase is not a function")
  /\ ExportToPDF.exportToPDF ExportToPDF.cannotSave "November 2, 2026" [] 2023
     = Exc.Ok (ExportToPDF.Failure "save failed").
Proof.
  repeat split; vm_compute; reflexivity.
Qed.

(** ** Properties of the month windows *)

Section DateFacts.

Lemma yoe_recover (yoe doy : Z) :
  0 <= yoe < 400 -> 0 <= doy <= 337 ->
  (yoe * 365 + yoe / 4 - yoe / 100 + doy
   - (yoe * 365 + yoe / 4 - yoe / 100 + doy) / 1460
   + (yoe * 365 + yoe / 4 - yoe / 100 + doy) / 36524
   - (yoe * 365 + yoe / 4 - yoe / 100 + doy) / 146096) / 365 = yoe.
Proof. intros Hy Hd. Z.div_mod_to_equations; lia. Qed.

Lemma mp_recover (mp : Z) :
  0 <= mp <= 11 -> (5 * ((153 * mp + 2) / 5) + 2) / 153 = mp.
Proof. intros H. Z.div_mod_to_equations; lia. Qed.

(** The first day of a month, as a day number, gives the month back. *)
Lemma civil_from_days_first (y m : Z) :
  1 <= m <= 12 ->
  JSDate.civil_from_days (JSDate.days_from_civil y m 1) = (y, m - 1, 1).
Proof.
  intros Hm. unfold JSDate.civil_from_days, JSDate.days_from_civil.
  set (y' := if m <=? 2 then y - 1 else y).
  set (mp := if m >? 2 then m - 3 else m + 9).
  assert (Hmp : 0 <= mp <= 11)
    by (unfold mp; destruct (Z.gtb_spec m 2); lia).
  set (era := y' / 400). set (yoe := y' - era * 400).
  assert (Hyoe : 0 <= yoe < 400) by (unfold yoe, era; Z.div_mod_to_equations; lia).
  set (doy := (153 * mp + 2) / 5 + 1 - 1).
  assert (Hdoy : 0 <= doy <= 337) by (unfold doy; Z.div_mod_to_equations; lia).
  set (doe := yoe * 365 + yoe / 4 - yoe / 100 + doy).
  assert (Hdoe : 0 <= doe < 146097) by (unfold doe; Z.div_mod_to_equations; lia).
  cbv zeta.
  replace (era * 146097 + doe - 719468 + 719468) with (doe + era * 146097) by lia.
  rewrite Z.div_add by lia. rewrite (Z.div_small doe 146097) by lia.
  replace (doe + era * 146097 - (0 + era) * 146097) with doe by lia.
  assert (Hyr : (doe - doe / 1460 + doe / 36524 - doe / 146096) / 365 = yoe)
    by (unfold doe; apply yoe_recover; assumption).
  rewrite !Hyr.
  replace (doe - (365 * yoe + yoe / 4 - yoe / 100)) with ((153 * mp + 2) / 5)
    by (unfold doe, doy; lia).
  rewrite !(mp_recover mp Hmp).
  assert (Hmonth : (if mp <? 10 then mp + 3 else mp - 9) = m)
    by (destruct (Z.ltb_spec mp 10); unfold mp in *; destruct (Z.gtb_spec m 2); lia).
  rewrite Hmonth.
  f_equal; [f_equal|].
  - unfold yoe, y'. destruct (Z.leb_spec m 2); lia.
  - lia.
Qed.

Lemma month_days (y m : Z) :
  1 <= m <= 11 ->
  28 <= JSDate.days_from_civil y (m + 1) 1 - JSDate.days_from_civil y m 1 <= 31.
Proof.
  intros Hm.
  assert (Hcases : m = 1 \/ m = 2 \/ 3 <= m <= 11) by lia.
  destruct Hcases as [->|[->|Hcases]].
  - unfold JSDate.days_from_civil.
    change (1 + 1) with 2. change (2 <=? 2) with true. change (1 <=? 2) with true.
    change (2 >? 2) with false. change (1 >? 2) with false. cbv iota.
    change ((153 * (2 + 9) + 2) / 5) with 337. change ((153 * (1 + 9) + 2) / 5) with 306.
    lia.
  - unfold JSDate.days_from_civil.
    change (2 + 1) with 3.
    change (2 <=? 2) with true. change (3 <=? 2) with false.
    change (2 >? 2) with false. change (3 >? 2) with true. cbv iota.
    change ((153 * (3 - 3) + 2) / 5) with 0. change ((153 * (2 + 9) + 2) / 5) with 337.
    Z.div_mod_to_equations; lia.
  - unfold JSDate.days_from_civil.
    destruct (Z.leb_spec m 2), (Z.leb_spec (m + 1) 2),
             (Z.gtb_spec m 2), (Z.gtb_spec (m + 1) 2); try lia.
    replace (m + 1 - 3) with (m - 3 + 1) by lia.
    generalize (y / 400). intros era.
    generalize ((y - era * 400) * 365 + (y - era * 400) / 4 - (y - era * 400) / 100).
    intros base.
    assert (30 <= (153 * (m - 3 + 1) + 2) / 5 - (153 * (m - 3) + 2) / 5 <= 31)
      by (Z.div_mod_to_equations; lia).
    lia.
Qed.

Lemma december_days (y : Z) :
  JSDate.days_from_civil (y + 1) 1 1 - JSDate.days_from_civil y 12 1 = 31.
Proof.
  unfold JSDate.days_from_civil.
  change (1 <=? 2) with true. change (12 <=? 2) with false.
  change (1 >? 2) with false. change (12 >? 2) with true. cbv iota.
  replace (y + 1 - 1) with y by lia.
  change ((153 * (1 + 9) + 2) / 5) with 306. change ((153 * (12 - 3) + 2) / 5) with 275.
  lia.
Qed.

Lemma getStartOfMonth_days (year m : Z) :
  1 <= m <= 12 ->
  MonthGrouping.getStartOfMonth year m
  = JSDate.days_from_civil (MonthWindows.fullYear year) m 1 * JSDate.msPerDay.
Proof.
  intros Hm. unfold MonthGrouping.getStartOfMonth, JSDate.Date_new, JSDate.MakeDay.
  fold (MonthWindows.fullYear year). cbv zeta.
  assert ((m - 1) / 12 = 0) as -> by (Z.div_mod_to_equations; lia).
  assert ((m - 1) mod 12 = m - 1) as -> by (Z.div_mod_to_equations; lia).
  f_equal. replace (m - 1 + 1) with m by lia.
  replace (MonthWindows.fullYear year + 0) with (MonthWindows.fullYear year) by lia. lia.
Qed.

Lemma getStartOfMonth_13 (year : Z) :
  MonthGrouping.getStartOfMonth year 13
  = JSDate.days_from_civil (MonthWindows.fullYear year + 1) 1 1 * JSDate.msPerDay.
Proof.
  unfold MonthGrouping.getStartOfMonth, JSDate.Date_new, JSDate.MakeDay.
  fold (MonthWindows.fullYear year). cbv zeta.
  change ((13 - 1) / 12) with 1. change ((13 - 1) mod 12 + 1) with 1.
  f_equal. lia.
Qed.

Lemma getEndOfMonth_next (year m : Z) :
  MonthGrouping.getEndOfMonth year m + JSDate.msPerDay
  = MonthGrouping.getStartOfMonth year (m + 1).
Proof.
  unfold MonthGrouping.getEndOfMonth, MonthGrouping.getStartOfMonth, JSDate.Date_new,
    JSDate.MakeDay.
  replace (m + 1 - 1) with m by lia. cbv zeta. lia.
Qed.

Lemma getStartOfMonth_step (year m : Z) :
  1 <= m <= 12 ->
  MonthGrouping.getStartOfMonth year m + 28 * JSDate.msPerDay
  <= MonthGrouping.getStartOfMonth year (m + 1).
Proof.
  intros Hm. rewrite (getStartOfMonth_days year m Hm).
  assert (Hcases : m <= 11 \/ m = 12) by lia.
  destruct Hcases as [Hlt| ->].
  - rewrite getStartOfMonth_days by lia.
    pose proof (month_days (MonthWindows.fullYear year) m ltac:(lia)). unfold JSDate.msPerDay. lia.
  - change (12 + 1) with 13. rewrite getStartOfMonth_13.
    pose proof (december_days (MonthWindows.fullYear year)). unfold JSDate.msPerDay. lia.
Qed.

Lemma getFullYear_first (year : Z) :
  JSDate.getFullYear (JSDate.Date_new year 0 1) = MonthWindows.fullYear year.
Proof.
  change (JSDate.Date_new year 0 1) with (MonthGrouping.getStartOfMonth year 1).
  rewrite getStartOfMonth_days by lia.
  unfold JSDate.getFullYear, JSDate.msPerDay. rewrite Z.div_mul by lia.
  now rewrite civil_from_days_first by lia.
Qed.

Lemma getStartOfYear_month (year : Z) :
  MonthGrouping.getStartOfYear year = MonthGrouping.getStartOfMonth year 1.
Proof.
  unfold MonthGrouping.getStartOfYear, JSDate.startOfYear.
  rewrite getFullYear_first. rewrite getStartOfMonth_days by lia.
  unfold JSDate.MakeDay. change (0 / 12) with 0. change (0 mod 12 + 1) with 1.
  f_equal. replace (MonthWindows.fullYear year + 0) with (MonthWindows.fullYear year) by lia. lia.
Qed.

Lemma getEndOfYear_month (year : Z) :
  MonthGrouping.getEndOfYear year + 1 = MonthGrouping.getStartOfMonth year 13.
Proof.
  unfold MonthGrouping.getEndOfYear, JSDate.endOfYear.
  rewrite getFullYear_first, getStartOfMonth_13.
  unfold JSDate.MakeDay. change (0 / 12) with 0. change (0 mod 12 + 1) with 1.
  replace (MonthWindows.fullYear year + 1 + 0) with (MonthWindows.fullYear year + 1) by lia. lia.
Qed.

Lemma getMonth_start (year m : Z) :
  1 <= m <= 12 ->
  JSDate.getMonth (MonthGrouping.getStartOfMonth year m) = m - 1.
Proof.
  intros Hm. rewrite getStartOfMonth_days by exact Hm.
  unfold JSDate.getMonth, JSDate.msPerDay. rewrite Z.div_mul by lia.
  now rewrite civil_from_days_first by exact Hm.
Qed.

End DateFacts.

Section MonthWindowFacts.

Context {R : Type} `{Doc R}.
Variable f : R -> Z.

Lemma windowTotal_split (s m e : Z) (records : list R) :
  s <= m -> m <= e ->
  MonthWindows.windowTotal f s e records
  = MonthWindows.windowTotal f s m records + MonthWindows.windowTotal f m e records.
Proof.
  intros Hsm Hme. unfold MonthWindows.windowTotal.
  induction records as [|r records IH]; [reflexivity|].
  simpl.
  destruct (Z.leb_spec s (date r)), (Z.ltb_spec (date r) e),
    (Z.ltb_spec (date r) m), (Z.leb_spec m (date r)); simpl; lia.
Qed.

Lemma windowTotal_month (records : list R) (year month : Z) :
  1 <= month <= 12 ->
  MonthWindows.windowTotal f (MonthGrouping.getStartOfMonth year month)
              (MonthGrouping.getStartOfMonth year (month + 1)) records
  = JS.total (map f (List.filter (MonthWindows.inMonth year month) records))
    + JS.total (map f (List.filter (MonthWindows.afterMonthEnd year month) records)).
Proof.
  intros Hm.
  unfold MonthWindows.windowTotal, MonthWindows.inMonth,
    MonthWindows.afterMonthEnd, within.
  pose proof (getStartOfMonth_step year month Hm) as Hstep.
  pose proof (getEndOfMonth_next year month) as Hend.
  unfold JSDate.msPerDay in *.
  induction records as [|r records IH]; [reflexivity|].
  simpl.
  destruct (Z.leb_spec (MonthGrouping.getStartOfMonth year month) (date r)),
    (Z.ltb_spec (date r) (MonthGrouping.getStartOfMonth year (month + 1))),
    (Z.leb_spec (date r) (MonthGrouping.getEndOfMonth year month)),
    (Z.ltb_spec (MonthGrouping.getEndOfMonth year month) (date r)); simpl; lia.
Qed.

Lemma windowTotal_year (records : list R) (year : Z) :
  JS.total (map f (List.filter (within (MonthGrouping.getStartOfYear year)
                                       (MonthGrouping.getEndOfYear year))
                               records))
  = MonthWindows.windowTotal f (MonthGrouping.getStartOfMonth year 1)
                (MonthGrouping.getStartOfMonth year 13) records.
Proof.
  unfold MonthWindows.windowTotal, within.
  rewrite getStartOfYear_month. pose proof (getEndOfYear_month year) as Hend.
  induction records as [|r records IH]; [reflexivity|].
  simpl.
  destruct (Z.leb_spec (MonthGrouping.getStartOfMonth year 1) (date r)),
    (Z.leb_spec (date r) (MonthGrouping.getEndOfYear year)),
    (Z.ltb_spec (date r) (MonthGrouping.getStartOfMonth year 13)); simpl; lia.
Qed.

(** The records of the year are those of the twelve buckets and those made
    on the last day of a month, after midnight. *)
Lemma year_months_split (records : list R) (year : Z) :
  JS.total (map f (List.filter (within (MonthGrouping.getStartOfYear year)
                                       (MonthGrouping.getEndOfYear year))
                               records))
  = JS.total
      (map (fun month =>
              JS.total (map f (List.filter (MonthWindows.inMonth year month)
                                           records)))
           MonthWindows.months)
    + JS.total
        (map (fun month =>
                JS.total (map f (List.filter (MonthWindows.afterMonthEnd year month)
                                             records)))
             MonthWindows.months).
Proof.
  rewrite windowTotal_year.
  assert (Hstep : forall m m', 1 <= m <= 12 -> m' = m + 1 ->
            MonthGrouping.getStartOfMonth year m
            <= MonthGrouping.getStartOfMonth year m').
  { intros m m' Hm ->. pose proof (getStartOfMonth_step year m Hm).
    unfold JSDate.msPerDay in *. lia. }
  pose proof (Hstep 1 2 ltac:(lia) eq_refl). pose proof (Hstep 2 3 ltac:(lia) eq_refl).
  pose proof (Hstep 3 4 ltac:(lia) eq_refl). pose proof (Hstep 4 5 ltac:(lia) eq_refl).
  pose proof (Hstep 5 6 ltac:(lia) eq_refl). pose proof (Hstep 6 7 ltac:(lia) eq_refl).
  pose proof (Hstep 7 8 ltac:(lia) eq_refl). pose proof (Hstep 8 9 ltac:(lia) eq_refl).
  pose proof (Hstep 9 10 ltac:(lia) eq_refl). pose proof (Hstep 10 11 ltac:(lia) eq_refl).
  pose proof (Hstep 11 12 ltac:(lia) eq_refl). pose proof (Hstep 12 13 ltac:(lia) eq_refl).
  clear Hstep.
  rewrite (windowTotal_split _ (MonthGrouping.getStartOfMonth year 2)) by lia.
  rewrite (windowTotal_split (MonthGrouping.getStartOfMonth year 2)
             (MonthGrouping.getStartOfMonth year 3)) by lia.
  rewrite (windowTotal_split (MonthGrouping.getStartOfMonth year 3)
             (MonthGrouping.getStartOfMonth year 4)) by lia.
  rewrite (windowTotal_split (MonthGrouping.getStartOfMonth year 4)
             (MonthGrouping.getStartOfMonth year 5)) by lia.
  rewrite (windowTotal_split (MonthGrouping.getStartOfMonth year 5)
             (MonthGrouping.getStartOfMonth year 6)) by lia.
  rewrite (windowTotal_split (MonthGrouping.getStartOfMonth year 6)
             (MonthGrouping.getStartOfMonth year 7)) by lia.
  rewrite (windowTotal_split (MonthGrouping.getStartOfMonth year 7)
             (MonthGrouping.getStartOfMonth year 8)) by lia.
  rewrite (windowTotal_split (MonthGrouping.getStartOfMonth year 8)
             (MonthGrouping.getStartOfMonth year 9)) by lia.
  rewrite (windowTotal_split (MonthGrouping.getStartOfMonth year 9)
             (MonthGrouping.getStartOfMonth year 10)) by lia.
  rewrite (windowTotal_split (MonthGrouping.getStartOfMonth year 10)
             (MonthGrouping.getStartOfMonth year 11)) by lia.
  rewrite (windowTotal_split (MonthGrouping.getStartOfMonth year 11)
             (MonthGrouping.getStartOfMonth year 12)) by lia.
  assert (Hw : forall m m', 1 <= m <= 12 -> m' = m + 1 ->
            MonthWindows.windowTotal f (MonthGrouping.getStartOfMonth year m)
                        (MonthGrouping.getStartOfMonth year m') records
            = JS.total (map f (List.filter (MonthWindows.inMonth year m) records))
              + JS.total (map f (List.filter (MonthWindows.afterMonthEnd year m)
                                             records)))
    by (intros m m' Hm ->; apply windowTotal_month; exact Hm).
  rewrite (Hw 1 2), (Hw 2 3), (Hw 3 4), (Hw 4 5), (Hw 5 6), (Hw 6 7), (Hw 7 8),
    (Hw 8 9), (Hw 9 10), (Hw 10 11), (Hw 11 12), (Hw 12 13) by (lia || reflexivity).
  unfold MonthWindows.months. cbn [map JS.total]. lia.
Qed.

End MonthWindowFacts.

Lemma yearTotal_months {R : Type} `{Doc R} (records : list R) (year : Z) :
  MonthGrouping.yearTotal records year
  = JS.total
      (map (fun month =>
              JS.reduce_sum amount
                (List.filter (MonthWindows.inMonth year month) records))
           MonthWindows.months)
    + JS.total (map (MonthWindows.lastDayTotal records year) MonthWindows.months).
Proof.
  unfold MonthGrouping.yearTotal. rewrite (year_months_split amount).
  f_equal. f_equal. apply map_ext. intros month. now rewrite reduce_sum_total.
Qed.

(** The chart of every year is labelled Jan to Dec: whatever the year, the
    twelve buckets of [groupDataByMonth] carry the twelve month names in
    order (the label is read off [getStartOfMonth] with [format]). *)
Theorem groupDataByMonth_labels (deposits : list Deposit) (loans : list Loan)
        (year : Z) :
  map MonthGrouping.month (MonthGrouping.groupDataByMonth deposits loans year)
  = JSDate.monthNames.
Proof.
  assert (Hlabel : forall m, 1 <= m <= 12 ->
            JSDate.format_MMM (MonthGrouping.getStartOfMonth year m)
            = nth (Z.to_nat (m - 1)) JSDate.monthNames EmptyString)
    by (intros m Hm; unfold JSDate.format_MMM; now rewrite getMonth_start).
  unfold MonthGrouping.groupDataByMonth, MonthGrouping.monthBucket.
  cbn [seq map MonthGrouping.month].
  rewrite !Hlabel by lia. reflexivity.
Qed.

Lemma magnitude_nonneg (l : list Z) : 0 <= Binary64.magnitude l.
Proof.
  unfold Binary64.magnitude. induction l as [|x l IH]; cbn [map JS.total]; lia.
Qed.

Lemma magnitude_filter {A} (f : A -> Z) (keep : A -> bool) (l : list A) :
  Binary64.magnitude (map f (List.filter keep l)) <= Binary64.magnitude (map f l).
Proof.
  unfold Binary64.magnitude. induction l as [|x l IH]; [reflexivity|].
  cbn [List.filter]. destruct (keep x); cbn [map JS.total]; lia.
Qed.

(** Within 2^53 the engine adds the amounts of every selection of the
    records as integers are added. *)
Lemma reduce_sum_exact_filter {A} (f : A -> Z) (keep : A -> bool) (l : list A) :
  Binary64.magnitude (map f l) <= 2 ^ 53 ->
  Binary64.reduce_sum (fun x => Binary64.ofZ (f x)) (List.filter keep l)
  = Binary64.ofZ (JS.reduce_sum f (List.filter keep l)).
Proof.
  intros Hbound. apply reduce_sum_exact.
  pose proof (magnitude_filter f keep l). lia.
Qed.

(** What the chart leaves out, for every year and all records of whole
    amounts whose absolute values add up to 2^53 at most (the sums of the
    engine, over the records of the year or of a month, are then the sums
    of integers): the total of the year (from [getStartOfYear] to
    [getEndOfYear], the range of [fetchUserReports]) is the sum of the
    twelve buckets of [groupDataByMonth] plus, month by month, the amounts of
    the records made on the last day of the month after midnight, which
    [getEndOfMonth] cuts off.  The same for deposits and for loans. *)
Theorem groupDataByMonth_misses_last_days (deposits : list Deposit)
        (loans : list Loan) (year : Z) :
  Binary64.magnitude (map amount deposits) <= 2 ^ 53 ->
  Binary64.magnitude (map amount loans) <= 2 ^ 53 ->
  (MonthGrouping.yearTotal deposits year
   = JS.total (map MonthGrouping.deposits
                 (MonthGrouping.groupDataByMonth deposits loans year))
     + JS.total (map (MonthWindows.lastDayTotal deposits year) MonthWindows.months)
   /\ MonthGrouping.yearTotal loans year
      = JS.total (map MonthGrouping.loans
                    (MonthGrouping.groupDataByMonth deposits loans year))
        + JS.total (map (MonthWindows.lastDayTotal loans year) MonthWindows.months))
  /\ (forall keep : Deposit -> bool,
        Binary64.reduce_sum (fun d => Binary64.ofZ (amount d))
                            (List.filter keep deposits)
        = Binary64.ofZ (JS.reduce_sum amount (List.filter keep deposits)))
  /\ (forall keep : Loan -> bool,
        Binary64.reduce_sum (fun l => Binary64.ofZ (amount l))
                            (List.filter keep loans)
        = Binary64.ofZ (JS.reduce_sum amount (List.filter keep loans))).
Proof.
  intros Hdeposits Hloans.
  split; [split; rewrite yearTotal_months; reflexivity|].
  split; intros keep; now apply reduce_sum_exact_filter.
Qed.

(** A deposit of 100 on the last day of January is in the total of the year
    and in no bucket. *)
Lemma groupDataByMonth_misses_last_days_witness :
  MonthGrouping.yearTotal [MonthGrouping.last_day_deposit] 2023
  = JS.total (map MonthGrouping.deposits
                (MonthGrouping.groupDataByMonth
                   [MonthGrouping.last_day_deposit] [] 2023))
    + JS.total (map (MonthWindows.lastDayTotal
                       [MonthGrouping.last_day_deposit] 2023)
                    MonthWindows.months).
Proof.
  apply (groupDataByMonth_misses_last_days [MonthGrouping.last_day_deposit] [] 2023);
    vm_compute; discriminate.
Defined.

Lemma total_single {A} (f : A -> Z) (p : A -> bool) (x : A) :
  JS.total (map f (List.filter p [x])) = if p x then f x else 0.
Proof. cbn [List.filter]. destruct (p x); cbn [map JS.total]; lia. Qed.

Lemma count_total {A} (p : A -> bool) (l : list A) :
  JS.total (map (fun x => if p x then 1 else 0) l)
  = Z.of_nat (length (List.filter p l)).
Proof.
  induction l as [|x l IH]; [reflexivity|].
  cbn [map JS.total List.filter]. rewrite IH. destruct (p x); cbn [length]; lia.
Qed.

(** No record is counted twice: a record of the year lies in exactly one of
    the twelve buckets or in exactly one of the twelve last-day windows that
    the buckets leave out, and a record outside the year lies in none. *)
Theorem month_buckets_disjoint {R : Type} `{Doc R} (year : Z) (r : R) :
  (length (List.filter (fun month => MonthWindows.inMonth year month r)
                       MonthWindows.months)
   + length (List.filter (fun month => MonthWindows.afterMonthEnd year month r)
                         MonthWindows.months))%nat
  = if within (MonthGrouping.getStartOfYear year)
              (MonthGrouping.getEndOfYear year) r
    then 1%nat else 0%nat.
Proof.
  pose proof (year_months_split (fun _ : R => 1) [r] year) as Hsum.
  rewrite total_single in Hsum.
  rewrite (map_ext
             (fun month =>
                JS.total (map (fun _ : R => 1)
                              (List.filter (MonthWindows.inMonth year month) [r])))
             (fun month => if MonthWindows.inMonth year month r then 1 else 0))
    in Hsum
    by (intros month;
        exact (total_single (fun _ => 1) (MonthWindows.inMonth year month) r)).
  rewrite (map_ext
             (fun month =>
                JS.total (map (fun _ : R => 1)
                              (List.filter (MonthWindows.afterMonthEnd year month)
                                           [r])))
             (fun month => if MonthWindows.afterMonthEnd year month r then 1 else 0))
    in Hsum
    by (intros month;
        exact (total_single (fun _ => 1) (MonthWindows.afterMonthEnd year month) r)).
  rewrite (count_total (fun month => MonthWindows.inMonth year month r)),
    (count_total (fun month => MonthWindows.afterMonthEnd year month r)) in Hsum.
  revert Hsum.
  generalize
    (length (List.filter (fun month => MonthWindows.inMonth year month r)
                         MonthWindows.months)).
  generalize
    (length (List.filter (fun month => MonthWindows.afterMonthEnd year month r)
                         MonthWindows.months)).
  intros a b.
  generalize (within (MonthGrouping.getStartOfYear year)
                (MonthGrouping.getEndOfYear year) r).
  intros [|]; lia.
Qed.

Lemma getStartOfMonth_mono (year m m' : Z) :
  1 <= m -> m <= m' -> m' <= 13 ->
  MonthGrouping.getStartOfMonth year m <= MonthGrouping.getStartOfMonth year m'.
Proof.
  intros Hm Hle Hm'.
  remember (Z.to_nat (m' - m)) as n eqn:Hn.
  revert m' Hle Hm' Hn. induction n as [|n IH]; intros m' Hle Hm' Hn.
  - replace m' with m by lia. lia.
  - apply Z.le_trans with (MonthGrouping.getStartOfMonth year (m' - 1)).
    + apply IH; lia.
    + pose proof (getStartOfMonth_step year (m' - 1) ltac:(lia)) as Hstep.
      replace (m' - 1 + 1) with m' in Hstep by lia.
      unfold JSDate.msPerDay in Hstep. lia.
Qed.

Lemma inMonth_other {R} `{Doc R} (year m m' : Z) (r : R) :
  1 <= m <= 12 -> 1 <= m' <= 12 -> m <> m' ->
  MonthWindows.inMonth year m r = true ->
  MonthWindows.inMonth year m' r = false.
Proof.
  intros Hm Hm' Hne. unfold MonthWindows.inMonth, within.
  rewrite andb_true_iff, andb_false_iff, !Z.leb_le, !Z.leb_gt.
  intros [Hstart Hend].
  pose proof (getEndOfMonth_next year m) as Hnext.
  pose proof (getEndOfMonth_next year m') as Hnext'.
  unfold JSDate.msPerDay in *.
  destruct (Z_lt_le_dec m m') as [Hlt|Hge].
  - left. pose proof (getStartOfMonth_mono year (m + 1) m' ltac:(lia) ltac:(lia)
                                           ltac:(lia)). lia.
  - right. pose proof (getStartOfMonth_mono year (m' + 1) m ltac:(lia) ltac:(lia)
                                            ltac:(lia)). lia.
Qed.

Lemma one_month_bucket {R} `{Doc R} (records : list R) (year month m : Z) :
  1 <= month <= 12 -> 1 <= m <= 12 ->
  Forall (fun r => MonthWindows.inMonth year month r = true) records ->
  JS.reduce_sum amount
    (List.filter (within (MonthGrouping.getStartOfMonth year m)
                         (MonthGrouping.getEndOfMonth year m)) records)
  = if m =? month then JS.reduce_sum amount records else 0.
Proof.
  intros Hmonth Hm Hall.
  destruct (Z.eqb_spec m month) as [->|Hne].
  - f_equal. induction Hall as [|r records Hr _ IH]; [reflexivity|].
    cbn [List.filter]. unfold MonthWindows.inMonth in Hr. rewrite Hr. now rewrite IH.
  - replace (List.filter _ records) with (@nil R); [reflexivity|].
    induction Hall as [|r records Hr _ IH]; [reflexivity|].
    cbn [List.filter].
    pose proof (inMonth_other year month m r Hmonth Hm ltac:(congruence) Hr) as Hout.
    unfold MonthWindows.inMonth in Hout. rewrite Hout. exact IH.
Qed.

(** With a month selected, the records that [fetchUserReports] hands to
    [groupDataByMonth] all lie between [getStartOfMonth] and [getEndOfMonth]
    of that month.  The chart then has all of them in the bar of the month
    and nothing in the eleven others. *)
Theorem groupDataByMonth_one_month (deposits : list Deposit) (loans : list Loan)
        (year month : Z) :
  1 <= month <= 12 ->
  Forall (fun d => MonthWindows.inMonth year month d = true) deposits ->
  Forall (fun l => MonthWindows.inMonth year month l = true) loans ->
  map MonthGrouping.deposits (MonthGrouping.groupDataByMonth deposits loans year)
  = map (fun m => if m =? month then JS.reduce_sum amount deposits else 0)
        MonthWindows.months
  /\ map MonthGrouping.loans (MonthGrouping.groupDataByMonth deposits loans year)
     = map (fun m => if m =? month then JS.reduce_sum amount loans else 0)
           MonthWindows.months.
Proof.
  intros Hmonth Hdeposits Hloans.
  unfold MonthGrouping.groupDataByMonth, MonthGrouping.monthBucket,
    MonthWindows.months.
  cbn [seq map MonthGrouping.deposits MonthGrouping.loans].
  rewrite !(one_month_bucket deposits year month) by (assumption || lia).
  rewrite !(one_month_bucket loans year month) by (assumption || lia).
  split; reflexivity.
Qed.

Lemma groupDataByMonth_one_month_witness :
  map MonthGrouping.deposits
      (MonthGrouping.groupDataByMonth
         [mkDeposit "d1" "u1" 100 (FirestoreTimestamp (JSDate.Date_new 2023 0 15))]
         [] 2023)
  = [100; 0; 0; 0; 0; 0; 0; 0; 0; 0; 0; 0].
Proof.
  exact (proj1 (groupDataByMonth_one_month
                  [mkDeposit "d1" "u1" 100
                             (FirestoreTimestamp (JSDate.Date_new 2023 0 15))]
                  [] 2023 1 ltac:(lia)
                  ltac:(constructor; [vm_compute; reflexivity|constructor])
                  ltac:(constructor))).
Defined.

(** ** Properties of the search, the filters and the CSV export *)

Section SearchFacts.

Import ReportPage.

Lemma prefix_split (needle hay : string) :
  String.prefix needle hay = true <-> exists rest, hay = (needle ++ rest)%string.
Proof.
  revert hay; induction needle as [|a needle IH]; intros hay.
  - split; [intros _; now exists hay|now destruct hay].
  - destruct hay as [|b hay]; simpl.
    + split; [discriminate|intros [rest Hrest]; discriminate Hrest].
    + destruct (ascii_dec a b) as [->|Hab].
      * rewrite IH. split; intros [rest Hrest]; exists rest.
        -- now rewrite Hrest.
        -- now injection Hrest.
      * split; [discriminate|].
        intros [rest Hrest]. injection Hrest as Hb _. congruence.
Qed.

Lemma includes_split (hay needle : string) :
  JS.includes hay needle = true
  <-> exists before after, hay = (before ++ needle ++ after)%string.
Proof.
  induction hay as [|b hay IH].
  - cbn [JS.includes]. rewrite orb_false_r, prefix_split. split.
    + intros [rest Hrest]. now exists EmptyString, rest.
    + intros (before & after & Hhay).
      destruct before; [now exists after|discriminate Hhay].
  - cbn [JS.includes]. rewrite orb_true_iff, prefix_split, IH. split.
    + intros [[rest Hrest]|(before & after & Hhay)].
      * now exists EmptyString, rest.
      * exists (String b before), after. now rewrite Hhay.
    + intros (before & after & Hhay). destruct before as [|c before].
      * left. now exists after.
      * right. exists before, after. now injection Hhay.
Qed.

Lemma append_assoc (a b c : string) :
  ((a ++ b) ++ c = a ++ b ++ c)%string.
Proof.
  induction a as [|x a IH]; [reflexivity|].
  change ((String x a ++ b) ++ c)%string with (String x ((a ++ b) ++ c)%string).
  now rewrite IH.
Qed.

(** A text that contains a text contains what that text contains. *)
Lemma includes_trans (hay middle needle : string) :
  JS.includes hay middle = true -> JS.includes middle needle = true ->
  JS.includes hay needle = true.
Proof.
  rewrite !includes_split.
  intros (before & after & ->) (before' & after' & ->).
  exists (before ++ before')%string, (after' ++ after)%string.
  now rewrite !append_assoc.
Qed.

Lemma trimStart_blank (s : string) :
  JSNumber.trimStart s = EmptyString <-> blank s = true.
Proof.
  induction s as [|c s IH]; simpl; [tauto|].
  destruct (JSNumber.isWhiteSpace c); simpl; [exact IH|].
  split; discriminate.
Qed.

Lemma trimStart_head (s : string) :
  match JSNumber.trimStart s with
  | EmptyString => True
  | String c _ => JSNumber.isWhiteSpace c = false
  end.
Proof.
  induction s as [|c s IH]; simpl; [exact I|].
  destruct (JSNumber.isWhiteSpace c) eqn:Hc; [exact IH|exact Hc].
Qed.

Lemma trim_blank (s : string) :
  String.eqb (JSNumber.trim s) "" = blank s.
Proof.
  unfold JSNumber.trim. pose proof (trimStart_head s) as Hh.
  pose proof (trimStart_blank s) as Hb.
  destruct (JSNumber.trimStart s) as [|c t].
  - simpl. symmetry. now apply Hb.
  - cbn [JSNumber.trimEnd]. rewrite Hh. cbn [andb].
    destruct (blank s); [|reflexivity].
    destruct Hb as [_ Hb]. now specialize (Hb eq_refl).
Qed.

Lemma blank_app (q s : string) :
  blank (q ++ s) = blank q && blank s.
Proof.
  induction q as [|a q IH]; [reflexivity|].
  change (String a q ++ s)%string with (String a (q ++ s)%string).
  cbn [blank]. rewrite IH. now rewrite andb_assoc.
Qed.

Lemma includes_blank (hay needle : string) :
  JS.includes hay needle = true -> blank hay = true -> blank needle = true.
Proof.
  rewrite includes_split. intros (before & after & ->).
  rewrite !blank_app, !andb_true_iff. tauto.
Qed.

Lemma fieldIncludes_trans (field : option string) (query needle : string) :
  JS.includes query needle = true ->
  fieldIncludes field query = true -> fieldIncludes field needle = true.
Proof.
  intros Hneedle. destruct field; simpl; [|discriminate].
  intros Hquery. now apply (includes_trans _ query).
Qed.

Lemma matchesQuery_trans (query needle : string) (user : ExportToPDF.UserReport) :
  JS.includes query needle = true ->
  matchesQuery query user = true -> matchesQuery needle user = true.
Proof.
  intros Hneedle. unfold matchesQuery. rewrite !orb_true_iff.
  intros [[Hn|He]|Hp]; eauto using fieldIncludes_trans.
Qed.

Lemma filter_sublist_impl {A} (p q : A -> bool) (l : list A) :
  (forall x, p x = true -> q x = true) ->
  sublist (List.filter p l) (List.filter q l).
Proof.
  intros Hpq. induction l as [|x l IH]; simpl; [constructor|].
  destruct (p x) eqn:Hp.
  - rewrite (Hpq x Hp). now constructor.
  - destruct (q x); [now constructor|exact IH].
Qed.

Lemma filter_sublist_bool {A} (p : A -> bool) (l : list A) :
  sublist (List.filter p l) l.
Proof.
  induction l as [|x l IH]; simpl; [constructor|].
  destruct (p x); now constructor.
Qed.

End SearchFacts.

Lemma search_sublist (users : list ExportToPDF.UserReport)
      (searchQuery : string) :
  sublist (ReportPage.filterUsersBySearch users searchQuery) users.
Proof.
  unfold ReportPage.filterUsersBySearch.
  destruct (String.eqb _ _); [reflexivity|apply filter_sublist_bool].
Qed.

Lemma isWhiteSpace_lowerChar (c : ascii) :
  JSNumber.isWhiteSpace (ReportPage.lowerChar c) = JSNumber.isWhiteSpace c.
Proof. destruct c as [[] [] [] [] [] [] [] []]; reflexivity. Qed.

Lemma blank_toLowerCase (s : string) :
  ReportPage.blank (ReportPage.toLowerCase s) = ReportPage.blank s.
Proof.
  induction s as [|c s IH]; [reflexivity|].
  cbn [ReportPage.toLowerCase ReportPage.blank].
  now rewrite isWhiteSpace_lowerChar, IH.
Qed.

(** A search text that contains another narrows its search: when the new
    text, in lower case, contains the old text in lower case (as when
    letters without case rules of their own are typed at either end), the
    users found for the new text are among those found for the old text, in
    the same order.  The users found for a text are always among all
    users. *)
Theorem filterUsersBySearch_narrows (users : list ExportToPDF.UserReport)
        (searchQuery newQuery : string) :
  JS.includes (ReportPage.toLowerCase newQuery)
              (ReportPage.toLowerCase searchQuery) = true ->
  sublist (ReportPage.filterUsersBySearch users newQuery)
          (ReportPage.filterUsersBySearch users searchQuery)
  /\ sublist (ReportPage.filterUsersBySearch users searchQuery) users.
Proof.
  intros Hcontains. split; [|apply search_sublist].
  unfold ReportPage.filterUsersBySearch. rewrite !trim_blank.
  destruct (ReportPage.blank searchQuery) eqn:Hold.
  - destruct (ReportPage.blank newQuery); [reflexivity|apply filter_sublist_bool].
  - destruct (ReportPage.blank newQuery) eqn:Hnew.
    + apply includes_blank in Hcontains; [|now rewrite blank_toLowerCase].
      rewrite blank_toLowerCase in Hcontains. congruence.
    + apply filter_sublist_impl. intros user. now apply matchesQuery_trans.
Qed.

(** The search for "John" finds users among those the search for "jo"
    finds. *)
Lemma filterUsersBySearch_narrows_witness :
  sublist (ReportPage.filterUsersBySearch [ExportToPDF.johnDoe] "John")
          (ReportPage.filterUsersBySearch [ExportToPDF.johnDoe] "jo").
Proof.
  exact (proj1 (filterUsersBySearch_narrows [ExportToPDF.johnDoe] "jo" "John"
                                            eq_refl)).
Defined.

(** The search ignores the case of the search text: two texts that differ in
    the case of their letters only find the same users. *)
Theorem filterUsersBySearch_ignores_case (users : list ExportToPDF.UserReport)
        (searchQuery searchQuery' : string) :
  ReportPage.toLowerCase searchQuery = ReportPage.toLowerCase searchQuery' ->
  ReportPage.filterUsersBySearch users searchQuery
  = ReportPage.filterUsersBySearch users searchQuery'.
Proof.
  intros Hcase. unfold ReportPage.filterUsersBySearch.
  rewrite !trim_blank.
  rewrite <- (blank_toLowerCase searchQuery), <- (blank_toLowerCase searchQuery').
  now rewrite Hcase.
Qed.

Lemma filterUsersBySearch_ignores_case_witness :
  ReportPage.filterUsersBySearch [ExportToPDF.johnDoe; ExportToPDF.orphan] "JOHN"
  = ReportPage.filterUsersBySearch [ExportToPDF.johnDoe; ExportToPDF.orphan] "john".
Proof.
  apply (filterUsersBySearch_ignores_case
           [ExportToPDF.johnDoe; ExportToPDF.orphan] "JOHN" "john").
  reflexivity.
Defined.

Lemma unpaid_exists (deposits : list Deposit) (loans : list Loan) :
  (0 <? Z.of_nat (unpaidLoansCount (AnnualReports.calculateUserTotals deposits loans)))
  = existsb (fun loan => negb (JS.strict_eq_str (paymentStatus loan) "approved")) loans.
Proof.
  unfold AnnualReports.calculateUserTotals. cbn [unpaidLoansCount].
  induction loans as [|loan loans IH]; [reflexivity|].
  cbn [List.filter existsb].
  destruct (negb (JS.strict_eq_str (paymentStatus loan) "approved")); cbn [orb].
  - cbn [length]. apply Z.ltb_lt. lia.
  - exact IH.
Qed.

(** The unpaid-only switch, on reports whose counts come from
    [calculateUserTotals] as [fetchUserReports] builds them: it keeps, of the
    users the search finds, exactly those with a loan whose status is not
    "approved". *)
Theorem filteredUsers_unpaid (userReports : list ExportToPDF.UserReport)
        (debouncedSearchQuery : string) :
  Forall (fun report =>
            ExportToPDF.totals report
            = AnnualReports.calculateUserTotals (ExportToPDF.deposits report)
                                                (ExportToPDF.loans report))
         userReports ->
  ReportPage.filteredUsers userReports debouncedSearchQuery true
  = List.filter
      (fun report =>
         existsb (fun loan => negb (JS.strict_eq_str (paymentStatus loan) "approved"))
                 (ExportToPDF.loans report))
      (ReportPage.filteredUsers userReports debouncedSearchQuery false).
Proof.
  intros Htotals. unfold ReportPage.filteredUsers.
  destruct userReports as [|report userReports]; [reflexivity|].
  set (all := report :: userReports) in *.
  assert (Hfound : Forall (fun report =>
            ExportToPDF.totals report
            = AnnualReports.calculateUserTotals (ExportToPDF.deposits report)
                                                (ExportToPDF.loans report))
            (if String.eqb debouncedSearchQuery ""
             then all
             else ReportPage.filterUsersBySearch all debouncedSearchQuery)).
  { destruct (String.eqb debouncedSearchQuery ""); [exact Htotals|].
    rewrite Forall_forall in *. intros r Hr. apply Htotals.
    eapply elem_of_sublist; [exact Hr|].
    apply (search_sublist all debouncedSearchQuery). }
  induction Hfound as [|r found Hr Hfound IH]; [reflexivity|].
  cbn [List.filter]. rewrite Hr, unpaid_exists.
  destruct (existsb _ (ExportToPDF.loans r)); [f_equal|]; exact IH.
Qed.

Lemma filteredUsers_unpaid_witness :
  ReportPage.filteredUsers [ExportToPDF.johnDoe] "john" true
  = List.filter
      (fun report =>
         existsb (fun loan => negb (JS.strict_eq_str (paymentStatus loan) "approved"))
                 (ExportToPDF.loans report))
      (ReportPage.filteredUsers [ExportToPDF.johnDoe] "john" false).
Proof.
  apply (filteredUsers_unpaid [ExportToPDF.johnDoe] "john").
  constructor; [reflexivity|constructor].
Defined.

Lemma list_sum_cons (x : nat) (l : list nat) :
  list_sum (x :: l) = (x + list_sum l)%nat.
Proof. reflexivity. Qed.

Section CsvFacts.

Import ReportPage.

Lemma occurrences_app (c : ascii) (s t : string) :
  occurrences c (s ++ t) = (occurrences c s + occurrences c t)%nat.
Proof.
  induction s as [|a s IH]; [reflexivity|].
  change (String a s ++ t)%string with (String a (s ++ t)%string).
  cbn [occurrences]. rewrite IH. lia.
Qed.

(** A character that is no digit and no minus sign. *)
Variable c : ascii.
Hypothesis c_no_digit : forall k, Ascii.eqb c (pretty_N_char k) = false.
Hypothesis c_no_minus : Ascii.eqb c "-" = false.

Lemma occurrences_pretty_N_go (x : N) (s : string) :
  occurrences c (pretty_N_go x s) = occurrences c s.
Proof.
  revert s. induction (N.lt_wf_0 x) as [x _ IH]; intros s.
  destruct (decide (x = 0%N)) as [->|Hx]; [now rewrite pretty_N_go_0|].
  rewrite pretty_N_go_step by lia.
  rewrite IH by (apply N.div_lt; lia).
  cbn [occurrences]. now rewrite c_no_digit.
Qed.

Lemma occurrences_pretty_N (x : N) : occurrences c (pretty x) = O.
Proof.
  unfold pretty, pretty_N. destruct (decide (x = 0%N)).
  - cbn [occurrences]. change "0"%char with (pretty_N_char 0).
    now rewrite c_no_digit.
  - apply occurrences_pretty_N_go.
Qed.

Lemma occurrences_pretty_nat (x : nat) : occurrences c (pretty x) = O.
Proof. apply occurrences_pretty_N. Qed.

Lemma occurrences_pretty_Z (x : Z) : occurrences c (pretty x) = O.
Proof.
  destruct x as [|p|p].
  - apply (occurrences_pretty_N 0%N).
  - apply (occurrences_pretty_N (Npos p)).
  - change (pretty (Z.neg p)) with (String "-" (pretty (Npos p))).
    cbn [occurrences]. rewrite c_no_minus. apply (occurrences_pretty_N (Npos p)).
Qed.

Lemma occurrences_row (user : ExportToPDF.UserReport) (row : list string) (sep : ascii) :
  csvRow user = Exc.Ok row ->
  occurrences c (String.concat (String sep EmptyString) row)
  = (4 * (if Ascii.eqb c sep then 1 else 0) + occurrences c (shownName user))%nat.
Proof.
  unfold csvRow, ExportToPDF.userField, shownName, optionalField.
  destruct (ExportToPDF.user user) as [u|]; [|discriminate].
  cbn [Exc.bind]. intros [= <-]. cbn [String.concat].
  rewrite !occurrences_app. cbn [occurrences].
  rewrite !occurrences_pretty_Z, !occurrences_pretty_nat.
  destruct (Ascii.eqb c sep); lia.
Qed.

Lemma occurrences_content (rows : list (list string)) (acc : string) :
  occurrences c
    (fold_left (fun csvContent row =>
                  (csvContent ++ String.concat "," row ++ newline)%string)
               rows acc)
  = (occurrences c acc
     + list_sum (map (fun row => (occurrences c (String.concat "," row)
                                  + occurrences c newline)%nat)
                     rows))%nat.
Proof.
  revert acc; induction rows as [|row rows IH]; intros acc.
  - simpl. lia.
  - cbn [fold_left map]. rewrite list_sum_cons, IH, !occurrences_app. lia.
Qed.

Lemma occurrences_rows (data : list ExportToPDF.UserReport) (rows : list (list string)) :
  ExportToPDF.mapE csvRow data = Exc.Ok rows ->
  list_sum (map (fun row => (occurrences c (String.concat "," row)
                             + occurrences c newline)%nat)
                rows)
  = (length data * (4 * (if Ascii.eqb c "," then 1 else 0) + occurrences c newline)
     + list_sum (map (fun user => occurrences c (shownName user)) data))%nat.
Proof.
  revert rows; induction data as [|user data IH]; intros rows.
  - intros [= <-]. reflexivity.
  - cbn [ExportToPDF.mapE].
    destruct (csvRow user) as [row|e] eqn:Hrow; [|discriminate].
    cbn [Exc.bind].
    destruct (ExportToPDF.mapE csvRow data) as [rows'|e]; [|discriminate].
    cbn [Exc.bind]. intros [= <-].
    cbn [map length]. rewrite !list_sum_cons, (IH rows' eq_refl).
    rewrite (occurrences_row user row "," Hrow). lia.
Qed.

End CsvFacts.

Lemma mapE_throws {A B} (f : A -> Exc.result B) (l : list A) (e : Exc.Error) :
  ExportToPDF.mapE f l = Exc.Throw e -> exists x, x ∈ l /\ f x = Exc.Throw e.
Proof.
  induction l as [|x l IH]; [discriminate|].
  cbn [ExportToPDF.mapE]. destruct (f x) as [y|e'] eqn:Hx; cbn [Exc.bind].
  - destruct (ExportToPDF.mapE f l) as [ys|e'']; cbn [Exc.bind]; [discriminate|].
    intros [= ->]. destruct (IH eq_refl) as (x' & Hin & Hx').
    exists x'. split; [now right|exact Hx'].
  - intros [= ->]. exists x. split; [now left|exact Hx].
Qed.

Lemma mapE_ok {A B} (f : A -> Exc.result B) (l : list A) (ys : list B) :
  ExportToPDF.mapE f l = Exc.Ok ys -> forall x, x ∈ l -> exists y, f x = Exc.Ok y.
Proof.
  revert ys; induction l as [|x l IH]; intros ys; [intros _ x Hx; inversion Hx|].
  cbn [ExportToPDF.mapE]. destruct (f x) as [y|e'] eqn:Hx; cbn [Exc.bind]; [|discriminate].
  destruct (ExportToPDF.mapE f l) as [ys'|e'']; cbn [Exc.bind]; [|discriminate].
  intros _ x' Hin. apply elem_of_cons in Hin as [->|Hin]; [eauto|].
  eapply IH; [reflexivity|exact Hin].
Qed.

(** [exportToCSV] throws, and hands no file to the browser, exactly when a
    report has no user: the [TypeError] of reading [user.user.name].
    [handleExportCSV] does not catch it: the press of the button throws the
    same error.  ([exportToPDF] returns its failure object on the same
    data.) *)
Theorem exportToCSV_throws (data : list ExportToPDF.UserReport) (filename : string)
        (values : gmap string ExportToPDF.UserReport -> list ExportToPDF.UserReport)
        (userReports : gmap string ExportToPDF.UserReport) (selectedYear : Z) :
  ((exists report, report ∈ data /\ ExportToPDF.user report = None)
   <-> ReportPage.exportToCSV data filename
       = Exc.Throw (ExportToPDF.typeError
                      "Cannot read properties of undefined (reading 'name')"))
  /\ (forall file, ReportPage.exportToCSV data filename = Exc.Ok file ->
        forall report, report ∈ data -> is_Some (ExportToPDF.user report))
  /\ ((exists report, report ∈ values userReports
                      /\ ExportToPDF.user report = None)
      <-> ExportButtons.handleExportCSV values userReports selectedYear
          = Exc.Throw (ExportToPDF.typeError
                         "Cannot read properties of undefined (reading 'name')")).
Proof.
  assert (Hrow : forall report e,
             ReportPage.csvRow report = Exc.Throw e ->
             ExportToPDF.user report = None
             /\ e = ExportToPDF.typeError
                      "Cannot read properties of undefined (reading 'name')").
  { intros report e. unfold ReportPage.csvRow, ExportToPDF.userField.
    destruct (ExportToPDF.user report); cbn [Exc.bind]; [discriminate|].
    intros [= <-]. split; reflexivity. }
  assert (Hthrows : forall reports name,
             (exists report, report ∈ reports /\ ExportToPDF.user report = None)
             <-> ReportPage.exportToCSV reports name
                 = Exc.Throw (ExportToPDF.typeError
                                "Cannot read properties of undefined (reading 'name')")).
  { intros reports name. unfold ReportPage.exportToCSV.
    destruct (ExportToPDF.mapE ReportPage.csvRow reports) as [rows|e] eqn:Hrows;
      cbn [Exc.bind].
    - split; [|discriminate].
      intros (report & Hin & Huser).
      destruct (mapE_ok _ _ _ Hrows report Hin) as [row Hok].
      unfold ReportPage.csvRow, ExportToPDF.userField in Hok.
      rewrite Huser in Hok. discriminate.
    - destruct (mapE_throws _ _ _ Hrows) as (report & Hin & Hthrow).
      destruct (Hrow report e Hthrow) as [Huser ->].
      split; [reflexivity|]. intros _. exists report. split; assumption. }
  split; [apply Hthrows|]. split; [|apply Hthrows].
  intros file Hfile report Hin.
  destruct (ExportToPDF.user report) as [u|] eqn:Huser; [eauto|].
  assert (Hthrow : ReportPage.exportToCSV data filename
                   = Exc.Throw (ExportToPDF.typeError
                                  "Cannot read properties of undefined (reading 'name')"))
    by (apply Hthrows; eauto).
  rewrite Hthrow in Hfile. discriminate.
Qed.

Lemma comma_no_digit (k : N) : Ascii.eqb "," (pretty_N_char k) = false.
Proof. unfold pretty_N_char. repeat case_match; reflexivity. Qed.

Lemma newline_no_digit (k : N) :
  Ascii.eqb (ascii_of_nat 10) (pretty_N_char k) = false.
Proof. unfold pretty_N_char. repeat case_match; reflexivity. Qed.

(** [exportToCSV] quotes nothing.  The file it hands over has the name asked
    for; its content has four commas for the header and for every report,
    and one more for every comma in a user's name; it has one line feed for
    the header and for every report, and one more for every line feed in a
    name.  So a name with a comma moves the figures of its row one column to
    the right. *)
Theorem exportToCSV_quotes_nothing (data : list ExportToPDF.UserReport)
        (filename : string) (file : ReportPage.Download) :
  ReportPage.exportToCSV data filename = Exc.Ok file ->
  ReportPage.download file = filename
  /\ ReportPage.occurrences "," (ReportPage.content file)
     = (4 * (1 + length data)
        + list_sum (map (fun user =>
                           ReportPage.occurrences "," (ReportPage.shownName user))
                        data))%nat
  /\ ReportPage.occurrences (ascii_of_nat 10) (ReportPage.content file)
     = (1 + length data
        + list_sum (map (fun user =>
                           ReportPage.occurrences (ascii_of_nat 10)
                                                  (ReportPage.shownName user))
                        data))%nat.
Proof.
  unfold ReportPage.exportToCSV.
  destruct (ExportToPDF.mapE ReportPage.csvRow data) as [rows|e] eqn:Hrows;
    cbn [Exc.bind]; [|discriminate].
  intros [= <-]. cbn [ReportPage.download ReportPage.content].
  split; [reflexivity|]. split.
  - rewrite occurrences_content.
    rewrite (occurrences_rows "," comma_no_digit eq_refl data rows Hrows).
    rewrite occurrences_app.
    change (ReportPage.occurrences "," ReportPage.newline) with O.
    change (Ascii.eqb "," ",") with true. cbv iota.
    match goal with |- (?h + _ + _ = _)%nat => change h with 4%nat end. lia.
  - rewrite occurrences_content.
    rewrite (occurrences_rows (ascii_of_nat 10) newline_no_digit eq_refl data rows Hrows).
    rewrite occurrences_app.
    change (ReportPage.occurrences (ascii_of_nat 10) ReportPage.newline) with 1%nat.
    change (Ascii.eqb (ascii_of_nat 10) ",") with false. cbv iota.
    match goal with |- (?h + _ + _ = _)%nat => change h with 0%nat end. lia.
Qed.

Lemma exportToCSV_quotes_nothing_witness :
  exists file,
    ReportPage.exportToCSV [ExportToPDF.johnDoe] "annual-reports-2023.csv"
    = Exc.Ok file
    /\ ReportPage.occurrences "," (ReportPage.content file) = 8%nat.
Proof.
  eexists. split; [reflexivity|].
  exact (proj1 (proj2 (exportToCSV_quotes_nothing
                         [ExportToPDF.johnDoe] "annual-reports-2023.csv" _ eq_refl))).
Defined.

(** ** Properties of the fetching of the reports *)

Section ChunkFacts.

Import ReportFetch.

Lemma chunk_take_drop (userIds : list string) (i : Z) :
  0 <= i ->
  Pagination.slice userIds i (i + 10) = take 10 (drop (Z.to_nat i) userIds).
Proof.
  intros Hi. rewrite slice_nonneg by lia. f_equal. lia.
Qed.

Lemma ceil_step (n : Z) :
  0 < n ->
  Pagination.Math_ceil_div n 10 = 1 + Pagination.Math_ceil_div (n - 10) 10.
Proof.
  intros Hn. unfold Pagination.Math_ceil_div.
  replace (- (n - 10)) with (- n + 1 * 10) by lia.
  rewrite Z.div_add by lia. lia.
Qed.

Lemma ceil_done (n : Z) :
  -10 < n <= 0 -> Pagination.Math_ceil_div n 10 = 0.
Proof.
  intros Hn. unfold Pagination.Math_ceil_div.
  rewrite Z.div_small by lia. reflexivity.
Qed.

Lemma chunkLoop_spec (userIds : list string) (fuel : nat) :
  forall (i : Z) (acc : list (list string)),
    0 <= i -> -10 < Z.of_nat (length userIds) - i <= Z.of_nat fuel ->
    concat (chunkLoop fuel userIds i acc)
    = concat acc ++ drop (Z.to_nat i) userIds
    /\ (Forall (fun chunk => (1 <= length chunk <= 10)%nat) acc ->
        Forall (fun chunk => (1 <= length chunk <= 10)%nat)
               (chunkLoop fuel userIds i acc))
    /\ Z.of_nat (length (chunkLoop fuel userIds i acc))
       = Z.of_nat (length acc)
         + Pagination.Math_ceil_div (Z.of_nat (length userIds) - i) 10.
Proof.
  induction fuel as [|fuel IH]; intros i acc Hi Hfuel.
  - cbn [chunkLoop]. rewrite drop_ge by lia. rewrite app_nil_r.
    rewrite ceil_done by lia. repeat split; [tauto|lia].
  - cbn [chunkLoop].
    destruct (Z.ltb_spec i (Z.of_nat (length userIds))) as [Hlt|Hge].
    + destruct (IH (i + 10) (acc ++ [Pagination.slice userIds i (i + 10)]))
        as (Hconcat & Hall & Hlen); [lia|lia|].
      rewrite chunk_take_drop in * by lia.
      split; [|split].
      * rewrite Hconcat, concat_app. cbn [concat]. rewrite app_nil_r, <- app_assoc.
        f_equal. replace (Z.to_nat (i + 10)) with (Z.to_nat i + 10)%nat by lia.
        rewrite <- drop_drop. apply take_drop.
      * intros Hacc. apply Hall. apply Forall_app. split; [exact Hacc|].
        constructor; [|constructor].
        rewrite length_take, length_drop. lia.
      * rewrite Hlen, length_app. cbn [length].
        rewrite (ceil_step (Z.of_nat (length userIds) - i)) by lia.
        replace (Z.of_nat (length userIds) - (i + 10))
          with (Z.of_nat (length userIds) - i - 10) by lia.
        lia.
    + rewrite drop_ge by lia. rewrite app_nil_r.
      rewrite ceil_done by lia. repeat split; [tauto|lia].
Qed.

Lemma chunkLoop_fuel (userIds : list string) (fuel fuel' : nat) :
  forall (i : Z) (acc : list (list string)),
    0 <= i ->
    Z.of_nat (length userIds) - i <= Z.of_nat fuel ->
    Z.of_nat (length userIds) - i <= Z.of_nat fuel' ->
    chunkLoop fuel userIds i acc = chunkLoop fuel' userIds i acc.
Proof.
  revert fuel'; induction fuel as [|fuel IH]; intros fuel' i acc Hi Hf Hf'.
  - destruct fuel' as [|fuel']; [reflexivity|]. cbn [chunkLoop].
    destruct (Z.ltb_spec i (Z.of_nat (length userIds))); [lia|reflexivity].
  - cbn [chunkLoop].
    destruct (Z.ltb_spec i (Z.of_nat (length userIds))) as [Hlt|Hge].
    + destruct fuel' as [|fuel']; [lia|]. cbn [chunkLoop].
      destruct (Z.ltb_spec i (Z.of_nat (length userIds))); [|lia].
      apply IH; lia.
    + destruct fuel' as [|fuel']; [reflexivity|]. cbn [chunkLoop].
      destruct (Z.ltb_spec i (Z.of_nat (length userIds))); [lia|reflexivity].
Qed.

End ChunkFacts.

Lemma userIdChunks_concat (userIds : list string) :
  concat (ReportFetch.userIdChunks userIds) = userIds
  /\ Forall (fun chunk => (1 <= length chunk <= 10)%nat)
            (ReportFetch.userIdChunks userIds).
Proof.
  unfold ReportFetch.userIdChunks.
  destruct (chunkLoop_spec userIds (length userIds) 0 [])
    as (Hconcat & Hall & Hlen); [lia|lia|].
  split; [exact Hconcat|apply Hall; constructor].
Qed.

(** The chunks of user ids that [fetchUserReports] queries with: in order
    they make up the list of user ids, each holds from 1 to 10 ids (the limit
    of an [in] query, which also refuses an empty list), and there are
    [ceil(n / 10)] of them; the loop is at its end by then, more rounds add
    nothing. *)
Theorem userIdChunks_spec (userIds : list string) :
  concat (ReportFetch.userIdChunks userIds) = userIds
  /\ Forall (fun chunk => (1 <= length chunk <= 10)%nat)
            (ReportFetch.userIdChunks userIds)
  /\ Z.of_nat (length (ReportFetch.userIdChunks userIds))
     = Pagination.Math_ceil_div (Z.of_nat (length userIds)) 10
  /\ forall fuel, (length userIds <= fuel)%nat ->
       ReportFetch.chunkLoop fuel userIds 0 [] = ReportFetch.userIdChunks userIds.
Proof.
  unfold ReportFetch.userIdChunks.
  destruct (chunkLoop_spec userIds (length userIds) 0 [])
    as (Hconcat & Hall & Hlen); [lia|lia|].
  split; [exact Hconcat|]. split; [apply Hall; constructor|].
  split; [rewrite Hlen, Z.sub_0_r; reflexivity|].
  intros fuel Hfuel. apply chunkLoop_fuel; lia.
Qed.

Section FetchFacts.

Import ReportFetch.

Variable keys : forall R : Type, gmap string (list R) -> list string.
Hypothesis keys_NoDup : forall R (m : gmap string (list R)), NoDup (keys R m).
Hypothesis keys_spec :
  forall R (m : gmap string (list R)) (k : string),
    k ∈ keys R m <-> is_Some (m !! k).

Context {R : Type} `{Doc R}.

Lemma filter_bool_Permutation (p : R -> bool) (l l' : list R) :
  l ≡ₚ l' -> List.filter p l ≡ₚ List.filter p l'.
Proof.
  induction 1 as [|x l l' Hl IH|x y l|l l' l'' _ IH _ IH'];
    cbn [List.filter].
  - reflexivity.
  - destruct (p x); [now constructor|exact IH].
  - destruct (p x), (p y); try reflexivity. apply Permutation_swap.
  - now rewrite IH.
Qed.

Lemma filter_user_bool (k : string) (l : list R) :
  filter (fun r => userId r = k) l
  = List.filter (fun r => bool_decide (userId r = k)) l.
Proof.
  induction l as [|r l IH]; [reflexivity|].
  rewrite filter_cons. cbn [List.filter].
  destruct (decide (userId r = k)) as [Heq|Hne].
  - rewrite bool_decide_eq_true_2 by exact Heq. now rewrite IH.
  - rewrite bool_decide_eq_false_2 by exact Hne. exact IH.
Qed.

Lemma filter_filter_bool (p q : R -> bool) (l : list R) :
  List.filter p (List.filter q l) = List.filter (fun r => p r && q r) l.
Proof.
  induction l as [|r l IH]; [reflexivity|].
  cbn [List.filter]. destruct (q r); cbn [List.filter].
  - rewrite andb_true_r. destruct (p r); now rewrite IH.
  - rewrite andb_false_r. exact IH.
Qed.

Lemma filter_bool_ext (p q : R -> bool) (l : list R) :
  (forall r, p r = q r) -> List.filter p l = List.filter q l.
Proof.
  intros Hpq. induction l as [|r l IH]; [reflexivity|].
  cbn [List.filter]. rewrite Hpq, IH. reflexivity.
Qed.

Lemma filter_bool_none (p : R -> bool) (l : list R) :
  (forall r, p r = false) -> List.filter p l = [].
Proof.
  intros Hp. induction l as [|r l IH]; [reflexivity|].
  cbn [List.filter]. now rewrite Hp.
Qed.

(** The records of the user [k] among those a query asks for. *)
Lemma asked_user (store : list R) (coll : string) (chunk : list string)
      (startDate endDate : Z) (k : string) :
  List.filter (fun r => bool_decide (userId r = k))
              (List.filter
                 (asked (Fetcher.rangeOrderQuery coll chunk startDate endDate))
                 store)
  = if bool_decide (k ∈ chunk) then recordsOf store k startDate endDate else [].
Proof.
  rewrite filter_filter_bool. unfold recordsOf, asked.
  cbn [Fetcher.rangeOrderQuery Fetcher.userId_in Fetcher.timestamp_between].
  destruct (bool_decide (k ∈ chunk)) eqn:Hk.
  - apply filter_bool_ext. intros r.
    destruct (bool_decide (userId r = k)) eqn:Hr; [|reflexivity].
    apply bool_decide_eq_true_1 in Hr. subst k. rewrite Hk. reflexivity.
  - apply filter_bool_none. intros r.
    destruct (bool_decide (userId r = k)) eqn:Hr; [|reflexivity].
    apply bool_decide_eq_true_1 in Hr. subst k. rewrite Hk. reflexivity.
Qed.

Lemma asked_user_plain (store : list R) (coll : string) (chunk : list string)
      (startDate endDate : Z) (k : string) :
  List.filter (fun r => bool_decide (userId r = k))
              (List.filter (within startDate endDate)
                 (List.filter (asked (Fetcher.equalityQuery coll chunk)) store))
  = if bool_decide (k ∈ chunk) then recordsOf store k startDate endDate else [].
Proof.
  rewrite !filter_filter_bool. unfold recordsOf, asked.
  cbn [Fetcher.equalityQuery Fetcher.userId_in Fetcher.timestamp_between].
  destruct (bool_decide (k ∈ chunk)) eqn:Hk.
  - apply filter_bool_ext. intros r.
    destruct (bool_decide (userId r = k)) eqn:Hr; [|reflexivity].
    apply bool_decide_eq_true_1 in Hr. subst k. rewrite Hk.
    now rewrite andb_true_r.
  - apply filter_bool_none. intros r.
    destruct (bool_decide (userId r = k)) eqn:Hr; [|reflexivity].
    apply bool_decide_eq_true_1 in Hr. subst k. rewrite Hk.
    cbn [andb]. now rewrite andb_false_r.
Qed.

(** What [fetchForUsers] files under a user, from a store that answers. *)
Lemma fetchForUsers_answers (store : list R)
      (getDocs : Fetcher.Query -> Fetcher.QueryResult R) (coll : string)
      (chunk : list string) (startDate endDate : Z) (k : string) :
  answers store getDocs ->
  match Fetcher.fetchForUsers getDocs coll chunk startDate endDate !! k with
  | Some l => k ∈ chunk /\ l ≡ₚ recordsOf store k startDate endDate
  | None => k ∈ chunk -> recordsOf store k startDate endDate = []
  end.
Proof.
  intros Hans. unfold Fetcher.fetchForUsers.
  pose proof (Hans (Fetcher.rangeOrderQuery coll chunk startDate endDate)) as Hq.
  destruct (getDocs (Fetcher.rangeOrderQuery coll chunk startDate endDate))
    as [docs|message].
  - rewrite collect_lookup, filter_user_bool.
    assert (Hperm : List.filter (fun r => bool_decide (userId r = k)) docs
                    ≡ₚ if bool_decide (k ∈ chunk)
                       then recordsOf store k startDate endDate else [])
      by (rewrite <- (asked_user store coll); apply filter_bool_Permutation;
          exact Hq).
    destruct (List.filter (fun r => bool_decide (userId r = k)) docs) as [|r l].
    + intros Hk. rewrite bool_decide_eq_true_2 in Hperm by exact Hk.
      symmetry in Hperm. now apply Permutation_nil_r in Hperm.
    + destruct (bool_decide (k ∈ chunk)) eqn:Hk.
      * split; [now apply bool_decide_eq_true_1 in Hk|exact Hperm].
      * symmetry in Hperm. now apply Permutation_nil_cons in Hperm.
  - destruct Hq as [_ ->].
    pose proof (Hans (Fetcher.equalityQuery coll chunk)) as Hq.
    destruct (getDocs (Fetcher.equalityQuery coll chunk)) as [docs|message'];
      [|destruct Hq as [Hq _]; discriminate].
    rewrite fallback_lookup, filter_user_bool.
    assert (Hperm : List.filter (fun r => bool_decide (userId r = k))
                                (List.filter (within startDate endDate) docs)
                    ≡ₚ if bool_decide (k ∈ chunk)
                       then recordsOf store k startDate endDate else []).
    { rewrite <- (asked_user_plain store coll).
      now do 2 apply filter_bool_Permutation. }
    destruct (List.filter (fun r => bool_decide (userId r = k))
                          (List.filter (within startDate endDate) docs))
      as [|r l].
    + intros Hk. rewrite bool_decide_eq_true_2 in Hperm by exact Hk.
      symmetry in Hperm. now apply Permutation_nil_r in Hperm.
    + destruct (bool_decide (k ∈ chunk)) eqn:Hk.
      * split; [now apply bool_decide_eq_true_1 in Hk|].
        now rewrite sort_Permutation.
      * symmetry in Hperm. now apply Permutation_nil_cons in Hperm.
Qed.


Lemma mergeUser_fold (result : gmap string (list R)) (ks : list string) :
  forall (acc : gmap string (list R) * list R) (k : string),
    fst (fold_left (mergeUser result) ks acc) !! k
    = (if bool_decide (k ∈ ks) then Some (default [] (result !! k))
       else fst acc !! k)
    /\ snd (fold_left (mergeUser result) ks acc)
       = snd acc ++ concat (map (fun k => default [] (result !! k)) ks).
Proof.
  induction ks as [|k0 ks IH]; intros acc k.
  - cbn [fold_left map concat]. rewrite app_nil_r.
    rewrite bool_decide_eq_false_2 by apply not_elem_of_nil. split; reflexivity.
  - cbn [fold_left map concat]. destruct (IH (mergeUser result acc k0) k) as [Hd Ha].
    rewrite Hd, Ha. unfold mergeUser. cbn [fst snd].
    split; [|now rewrite app_assoc].
    destruct (decide (k ∈ ks)) as [Hin|Hnin].
    + rewrite !bool_decide_eq_true_2; [reflexivity|now right|exact Hin].
    + rewrite (bool_decide_eq_false_2 _ Hnin).
      destruct (decide (k = k0)) as [->|Hne].
      * rewrite lookup_insert_eq. rewrite bool_decide_eq_true_2 by now left.
        reflexivity.
      * rewrite lookup_insert_ne by congruence.
        rewrite bool_decide_eq_false_2; [reflexivity|].
        intros Hk. apply elem_of_cons in Hk as [?|?]; congruence.
Qed.

Lemma mergeResult_lookup (acc : gmap string (list R) * list R)
      (result : gmap string (list R)) (k : string) :
  fst (mergeResult keys acc result) !! k
  = match result !! k with
    | Some l => Some l
    | None => fst acc !! k
    end.
Proof.
  unfold mergeResult. rewrite (proj1 (mergeUser_fold result _ acc k)).
  destruct (result !! k) as [l|] eqn:Hk.
  - rewrite bool_decide_eq_true_2; [reflexivity|].
    apply keys_spec. rewrite Hk. eauto.
  - rewrite bool_decide_eq_false_2; [reflexivity|].
    rewrite keys_spec, Hk. intros [l Hl]. discriminate.
Qed.

Lemma mergeResult_all (acc : gmap string (list R) * list R)
      (result : gmap string (list R)) :
  snd (mergeResult keys acc result)
  = snd acc ++ concat (map (fun k => default [] (result !! k)) (keys R result)).
Proof.
  unfold mergeResult. exact (proj2 (mergeUser_fold result _ acc "")).
Qed.

Lemma combine_all (results : list (gmap string (list R))) :
  forall acc : gmap string (list R) * list R,
    snd (fold_left (mergeResult keys) results acc)
    = snd acc
      ++ concat (map (fun result =>
                        concat (map (fun k => default [] (result !! k))
                                    (keys R result)))
                     results).
Proof.
  induction results as [|result results IH]; intros acc.
  - cbn [fold_left map concat]. now rewrite app_nil_r.
  - cbn [fold_left map concat]. rewrite IH, mergeResult_all.
    now rewrite app_assoc.
Qed.

Lemma concat_map_Permutation {A B} (f g : A -> list B) (l : list A) :
  (forall x, x ∈ l -> f x ≡ₚ g x) -> concat (map f l) ≡ₚ concat (map g l).
Proof.
  induction l as [|x l IH]; intros Hfg; [reflexivity|].
  cbn [map concat]. rewrite (Hfg x) by now left.
  rewrite IH; [reflexivity|]. intros y Hy. apply Hfg. now right.
Qed.

(** Filing by user loses and repeats nothing: the records of the users
    [ks], each once, are the records of [l] when every record is of one of
    them. *)
Lemma by_user_Permutation (p : R -> bool) (l : list R) (ks : list string) :
  NoDup ks ->
  concat (map (fun k => List.filter (fun r => bool_decide (userId r = k) && p r) l)
              ks)
  ≡ₚ List.filter (fun r => bool_decide (userId r ∈ ks) && p r) l.
Proof.
  induction 1 as [|k ks Hk Hks IH]; cbn [map concat].
  - rewrite filter_bool_none; [reflexivity|].
    intros r. rewrite bool_decide_eq_false_2 by apply not_elem_of_nil. reflexivity.
  - rewrite IH. clear IH. induction l as [|r l IHl]; [reflexivity|].
    cbn [List.filter].
    destruct (decide (userId r = k)) as [Heq|Hne].
    + rewrite (bool_decide_eq_true_2 (userId r = k)) by exact Heq.
      rewrite (bool_decide_eq_true_2 (userId r ∈ k :: ks)) by (rewrite Heq; now left).
      rewrite (bool_decide_eq_false_2 (userId r ∈ ks)) by now rewrite Heq.
      cbn [andb]. destruct (p r); [|exact IHl].
      cbn [app]. now constructor.
    + rewrite (bool_decide_eq_false_2 (userId r = k)) by exact Hne.
      cbn [andb].
      destruct (decide (userId r ∈ ks)) as [Hin|Hnin].
      * rewrite (bool_decide_eq_true_2 (userId r ∈ ks)) by exact Hin.
        rewrite (bool_decide_eq_true_2 (userId r ∈ k :: ks)) by now right.
        cbn [andb]. destruct (p r); [|exact IHl].
        rewrite <- Permutation_middle. now constructor.
      * rewrite (bool_decide_eq_false_2 (userId r ∈ ks)) by exact Hnin.
        rewrite (bool_decide_eq_false_2 (userId r ∈ k :: ks)); [exact IHl|].
        intros Hr. apply elem_of_cons in Hr as [?|?]; congruence.
Qed.

(** The records of the chunks are the records of all their users. *)
Lemma by_chunk_Permutation (store : list R) (startDate endDate : Z)
      (chunks : list (list string)) :
  NoDup (concat chunks) ->
  concat (map (fun chunk => periodRecords store chunk startDate endDate) chunks)
  ≡ₚ periodRecords store (concat chunks) startDate endDate.
Proof.
  unfold periodRecords.
  induction chunks as [|chunk chunks IH]; cbn [map concat]; intros Hnd.
  - rewrite filter_bool_none; [reflexivity|].
    intros r. rewrite bool_decide_eq_false_2 by apply not_elem_of_nil. reflexivity.
  - apply NoDup_app in Hnd as (Hc & Hdisj & Hrest).
    rewrite (IH Hrest). clear IH.
    induction store as [|r l IHl]; [reflexivity|].
    cbn [List.filter].
    destruct (decide (userId r ∈ chunk)) as [Hin|Hnin].
    + rewrite (bool_decide_eq_true_2 (userId r ∈ chunk)) by exact Hin.
      rewrite (bool_decide_eq_true_2 (userId r ∈ chunk ++ concat chunks))
        by (apply elem_of_app; now left).
      rewrite (bool_decide_eq_false_2 (userId r ∈ concat chunks))
        by (now apply Hdisj).
      cbn [andb]. destruct (within startDate endDate r); [|exact IHl].
      cbn [app]. now constructor.
    + rewrite (bool_decide_eq_false_2 (userId r ∈ chunk)) by exact Hnin.
      cbn [andb].
      destruct (decide (userId r ∈ concat chunks)) as [Hin'|Hnin'].
      * rewrite (bool_decide_eq_true_2 (userId r ∈ concat chunks)) by exact Hin'.
        rewrite (bool_decide_eq_true_2 (userId r ∈ chunk ++ concat chunks))
          by (apply elem_of_app; now right).
        cbn [andb]. destruct (within startDate endDate r); [|exact IHl].
        rewrite <- Permutation_middle. now constructor.
      * rewrite (bool_decide_eq_false_2 (userId r ∈ concat chunks)) by exact Hnin'.
        rewrite (bool_decide_eq_false_2 (userId r ∈ chunk ++ concat chunks));
          [exact IHl|].
        intros Hr. apply elem_of_app in Hr as [?|?]; contradiction.
Qed.

Section Answers.

Variable store : list R.
Variable getDocs : Fetcher.Query -> Fetcher.QueryResult R.
Hypothesis getDocs_answers : answers store getDocs.
Variable coll : string.
Variables startDate endDate : Z.

Lemma combine_filed (chunks : list (list string)) (k : string) :
  forall (acc : gmap string (list R) * list R) (seen : list string),
    filedFrom store startDate endDate (fst acc) seen k ->
    filedFrom store startDate endDate
          (fst (fold_left (mergeResult keys)
                          (map (fun chunk =>
                                  Fetcher.fetchForUsers getDocs coll chunk
                                                        startDate endDate)
                               chunks)
                          acc))
          (seen ++ concat chunks) k.
Proof.
  induction chunks as [|chunk chunks IH]; intros acc seen Hacc.
  - cbn [map fold_left concat]. now rewrite app_nil_r.
  - cbn [map fold_left concat]. rewrite app_assoc. apply IH.
    unfold filedFrom in *. rewrite mergeResult_lookup.
    pose proof (fetchForUsers_answers store getDocs coll chunk startDate endDate k
                                      getDocs_answers) as Hres.
    destruct (Fetcher.fetchForUsers getDocs coll chunk startDate endDate !! k)
      as [l|].
    + destruct Hres as [Hk Hl]. split; [|exact Hl].
      apply elem_of_app. now right.
    + destruct (fst acc !! k) as [l0|].
      * destruct Hacc as [Hk Hl]. split; [|exact Hl].
        apply elem_of_app. now left.
      * intros Hk. apply elem_of_app in Hk as [Hk|Hk]; auto.
Qed.

(** What [fetchAll] files under a user id. *)
Lemma fetchAll_filed (chunks : list (list string)) (k : string) :
  match fst (fetchAll keys getDocs coll chunks startDate endDate) !! k with
  | Some l => k ∈ concat chunks /\ l ≡ₚ recordsOf store k startDate endDate
  | None => k ∈ concat chunks -> recordsOf store k startDate endDate = []
  end.
Proof.
  unfold fetchAll, combine.
  apply (combine_filed chunks k (∅, []) []).
  unfold filedFrom. cbn [fst]. rewrite lookup_empty. intros Hk. inversion Hk.
Qed.

Lemma fetchAll_user (chunks : list (list string)) (k : string) :
  k ∈ concat chunks ->
  default [] (fst (fetchAll keys getDocs coll chunks startDate endDate) !! k)
  ≡ₚ recordsOf store k startDate endDate.
Proof.
  intros Hk. pose proof (fetchAll_filed chunks k) as Hf.
  destruct (fst (fetchAll keys getDocs coll chunks startDate endDate) !! k) as [l|].
  - exact (proj2 Hf).
  - cbn [default]. now rewrite (Hf Hk).
Qed.


Lemma result_all (chunk : list string) :
  concat (map (fun k =>
                 default [] (Fetcher.fetchForUsers getDocs coll chunk
                                                   startDate endDate !! k))
              (keys R (Fetcher.fetchForUsers getDocs coll chunk startDate endDate)))
  ≡ₚ periodRecords store chunk startDate endDate.
Proof.
  set (result := Fetcher.fetchForUsers getDocs coll chunk startDate endDate).
  assert (Hres : forall k,
             match result !! k with
             | Some l => k ∈ chunk /\ l ≡ₚ recordsOf store k startDate endDate
             | None => k ∈ chunk -> recordsOf store k startDate endDate = []
             end)
    by (intros k; apply fetchForUsers_answers; exact getDocs_answers).
  rewrite (concat_map_Permutation _
             (fun k => recordsOf store k startDate endDate)).
  2:{ intros k Hk. apply keys_spec in Hk as [l Hl].
      specialize (Hres k). rewrite Hl in *. exact (proj2 Hres). }
  unfold recordsOf. rewrite by_user_Permutation by apply keys_NoDup.
  unfold periodRecords. erewrite filter_ext_in; [reflexivity|].
  intros r Hr. cbn beta.
  destruct (within startDate endDate r) eqn:Hw; [|now rewrite !andb_false_r].
  rewrite !andb_true_r. apply bool_decide_ext. rewrite keys_spec.
  specialize (Hres (userId r)). split.
  - intros [l Hl]. rewrite Hl in Hres. exact (proj1 Hres).
  - intros Hin. destruct (result !! userId r) as [l|]; [eauto|].
    specialize (Hres Hin). exfalso.
    assert (Hmem : In r (recordsOf store (userId r) startDate endDate)).
    { unfold recordsOf. apply filter_In. split; [exact Hr|].
      rewrite bool_decide_eq_true_2 by reflexivity. exact Hw. }
    rewrite Hres in Hmem. exact Hmem.
Qed.

(** All the records [fetchAll] gathers: those of the users of the chunks
    within the dates, each once. *)
Lemma fetchAll_all (chunks : list (list string)) :
  NoDup (concat chunks) ->
  snd (fetchAll keys getDocs coll chunks startDate endDate)
  ≡ₚ periodRecords store (concat chunks) startDate endDate.
Proof.
  intros Hnd. unfold fetchAll, combine. rewrite combine_all. cbn [snd app].
  rewrite map_map.
  rewrite (concat_map_Permutation _
             (fun chunk => periodRecords store chunk startDate endDate))
    by (intros chunk _; apply result_all).
  now apply by_chunk_Permutation.
Qed.

End Answers.

End FetchFacts.

Section BuildFacts.

Import ReportFetch.

Variable allDepositsData : gmap string (list Deposit).
Variable allLoansData : gmap string (list Loan).

Lemma addReport_fold (usersData : list UserDoc) :
  forall (reports : gmap string ExportToPDF.UserReport) (k : string),
    k ∉ map id usersData ->
    fold_left (addReport allDepositsData allLoansData) usersData reports !! k
    = reports !! k.
Proof.
  induction usersData as [|user usersData IH]; intros reports k Hk; [reflexivity|].
  cbn [fold_left]. rewrite IH.
  - unfold addReport. apply lookup_insert_ne. intros Heq. apply Hk.
    cbn [map]. rewrite Heq. now left.
  - intros Hin. apply Hk. cbn [map]. now right.
Qed.

Lemma buildReports_lookup (usersData : list UserDoc) (user : UserDoc) :
  NoDup (map id usersData) -> user ∈ usersData ->
  buildReports usersData allDepositsData allLoansData !! id user
  = Some (reportOf allDepositsData allLoansData user).
Proof.
  unfold buildReports. generalize (∅ : gmap string ExportToPDF.UserReport).
  induction usersData as [|u usersData IH]; intros reports Hnd Hin;
    [inversion Hin|].
  cbn [map] in Hnd. apply NoDup_cons in Hnd as [Hu Hnd].
  cbn [fold_left]. apply elem_of_cons in Hin as [->|Hin].
  - rewrite addReport_fold by exact Hu. unfold addReport.
    now rewrite lookup_insert_eq.
  - now apply IH.
Qed.

Lemma buildReports_keys (usersData : list UserDoc) (k : string) :
  is_Some (buildReports usersData allDepositsData allLoansData !! k) ->
  k ∈ map id usersData.
Proof.
  intros Hk. destruct (decide (k ∈ map id usersData)) as [Hin|Hnin]; [exact Hin|].
  unfold buildReports in Hk. rewrite addReport_fold in Hk by exact Hnin.
  rewrite lookup_empty in Hk. destruct Hk as [r Hr]. discriminate.
Qed.

End BuildFacts.

Lemma total_Permutation {R} `{Doc R} (l l' : list R) :
  l ≡ₚ l' -> JS.total (map amount l) = JS.total (map amount l').
Proof.
  induction 1 as [|x l l' _ IH|x y l|l l' l'' _ IH _ IH']; cbn [map JS.total]; lia.
Qed.

Lemma total_app (l l' : list Z) : JS.total (l ++ l') = JS.total l + JS.total l'.
Proof. induction l as [|x l IH]; cbn [app JS.total]; lia. Qed.

Lemma total_concat {A R} `{Doc R} (f : A -> list R) (l : list A) :
  JS.total (map amount (concat (map f l)))
  = JS.total (map (fun x => JS.total (map amount (f x))) l).
Proof.
  induction l as [|x l IH]; [reflexivity|].
  cbn [map concat JS.total]. rewrite map_app, total_app, IH. reflexivity.
Qed.

Section PageFacts.

Import ReportFetch.

Variable keys : forall R : Type, gmap string (list R) -> list string.
Hypothesis keys_NoDup : forall R (m : gmap string (list R)), NoDup (keys R m).
Hypothesis keys_spec :
  forall R (m : gmap string (list R)) (k : string),
    k ∈ keys R m <-> is_Some (m !! k).

Variable docs : list UserDoc.
Hypothesis docs_NoDup : NoDup (map id docs).

Variable depositStore : list Deposit.
Variable loanStore : list Loan.
Variable getDeposits : Fetcher.Query -> Fetcher.QueryResult Deposit.
Variable getLoans : Fetcher.Query -> Fetcher.QueryResult Loan.
Hypothesis deposits_answered : answers depositStore getDeposits.
Hypothesis loans_answered : answers loanStore getLoans.

Variable selectedYear : Z.
Variable selectedMonth : MonthChoice.

Let st : PageState :=
  fetchUserReports keys (Fetcher.Snapshot docs) getDeposits getLoans
                   selectedYear selectedMonth.
Let startDate : Z := fst (dateRange selectedYear selectedMonth).
Let endDate : Z := snd (dateRange selectedYear selectedMonth).
Let chunks : list (list string) := userIdChunks (map id docs).

Lemma chunks_ids : concat chunks = map id docs.
Proof. exact (proj1 (userIdChunks_concat (map id docs))). Qed.

Lemma st_reports :
  userReports st
  = buildReports docs
      (fst (fetchAll keys getDeposits "deposits" chunks startDate endDate))
      (fst (fetchAll keys getLoans "loans" chunks startDate endDate)).
Proof.
  unfold st, fetchUserReports, fetchUsers, startDate, endDate, chunks.
  destruct (dateRange selectedYear selectedMonth) as [s e]. cbn [fst snd].
  destruct (fetchAll keys getDeposits "deposits" _ s e) as [dd ad].
  destruct (fetchAll keys getLoans "loans" _ s e) as [ld al].
  reflexivity.
Qed.

Lemma st_currentYear :
  currentYear st
  = {| yearDeposits :=
         JS.reduce_sum amount
           (snd (fetchAll keys getDeposits "deposits" chunks startDate endDate));
       yearLoans :=
         JS.reduce_sum amount
           (snd (fetchAll keys getLoans "loans" chunks startDate endDate));
       monthlyData :=
         MonthGrouping.groupDataByMonth
           (snd (fetchAll keys getDeposits "deposits" chunks startDate endDate))
           (snd (fetchAll keys getLoans "loans" chunks startDate endDate))
           selectedYear |}.
Proof.
  unfold st, fetchUserReports, fetchUsers, startDate, endDate, chunks.
  destruct (dateRange selectedYear selectedMonth) as [s e]. cbn [fst snd].
  destruct (fetchAll keys getDeposits "deposits" _ s e) as [dd ad].
  destruct (fetchAll keys getLoans "loans" _ s e) as [ld al].
  reflexivity.
Qed.

Lemma st_row (user : UserDoc) :
  user ∈ docs ->
  exists report,
    userReports st !! id user = Some report
    /\ ExportToPDF.user report = Some (info user)
    /\ ExportToPDF.deposits report
       ≡ₚ recordsOf depositStore (id user) startDate endDate
    /\ ExportToPDF.loans report
       ≡ₚ recordsOf loanStore (id user) startDate endDate
    /\ ExportToPDF.totals report
       = AnnualReports.calculateUserTotals (ExportToPDF.deposits report)
                                           (ExportToPDF.loans report).
Proof.
  intros Huser. eexists. split.
  - rewrite st_reports. now apply buildReports_lookup.
  - assert (Hk : id user ∈ concat chunks).
    { rewrite chunks_ids. apply list_elem_of_fmap. eauto. }
    cbn [reportOf ExportToPDF.user ExportToPDF.deposits ExportToPDF.loans
         ExportToPDF.totals].
    split; [reflexivity|]. split; [|split; [|reflexivity]].
    + now apply (fetchAll_user keys keys_spec depositStore getDeposits).
    + now apply (fetchAll_user keys keys_spec loanStore getLoans).
Qed.

Lemma st_error : error st = None /\ loading st = false.
Proof.
  unfold st, fetchUserReports, fetchUsers.
  destruct (dateRange selectedYear selectedMonth) as [s e].
  destruct (fetchAll keys getDeposits "deposits" _ s e) as [dd ad].
  destruct (fetchAll keys getLoans "loans" _ s e) as [ld al].
  repeat split.
Qed.

Lemma st_keys (k : string) :
  is_Some (userReports st !! k) <-> k ∈ map id docs.
Proof.
  split.
  - rewrite st_reports. apply buildReports_keys.
  - intros Hk. apply list_elem_of_fmap in Hk as (user & -> & Huser).
    destruct (st_row user Huser) as (report & Hreport & _). rewrite Hreport. eauto.
Qed.

Lemma rows_total {R} `{Doc R} (store : list R) (records : UserDoc -> list R) :
  (forall user, user ∈ docs ->
                records user ≡ₚ recordsOf store (id user) startDate endDate) ->
  JS.total (map (fun user => JS.total (map amount (records user))) docs)
  = JS.total (map amount (periodRecords store (map id docs) startDate endDate)).
Proof.
  intros Hrecords. unfold periodRecords.
  rewrite <- (total_Permutation _ _
                (by_user_Permutation (within startDate endDate) store
                                     (map id docs) docs_NoDup)).
  rewrite map_map, total_concat. f_equal.
  apply map_ext_in. intros user Huser. apply total_Permutation.
  apply Hrecords. now apply list_elem_of_In.
Qed.

Lemma st_figures :
  yearDeposits (currentYear st)
  = JS.total (map amount
                  (periodRecords depositStore (map id docs) startDate endDate))
  /\ yearLoans (currentYear st)
     = JS.total (map amount
                     (periodRecords loanStore (map id docs) startDate endDate))
  /\ yearDeposits (currentYear st)
     = JS.total (map (rowFigure (userReports st) totalDeposits) docs)
  /\ yearLoans (currentYear st)
     = JS.total (map (rowFigure (userReports st) totalLoans) docs).
Proof.
  assert (Hnd : NoDup (concat chunks)) by (rewrite chunks_ids; exact docs_NoDup).
  assert (Hd : yearDeposits (currentYear st)
               = JS.total (map amount (periodRecords depositStore (map id docs)
                                                     startDate endDate))).
  { rewrite st_currentYear. cbn [yearDeposits]. rewrite reduce_sum_total.
    rewrite <- chunks_ids. apply total_Permutation.
    now apply (fetchAll_all keys keys_NoDup keys_spec depositStore getDeposits). }
  assert (Hl : yearLoans (currentYear st)
               = JS.total (map amount (periodRecords loanStore (map id docs)
                                                     startDate endDate))).
  { rewrite st_currentYear. cbn [yearLoans]. rewrite reduce_sum_total.
    rewrite <- chunks_ids. apply total_Permutation.
    now apply (fetchAll_all keys keys_NoDup keys_spec loanStore getLoans). }
  split; [exact Hd|]. split; [exact Hl|]. split.
  - rewrite Hd.
    rewrite <- (rows_total depositStore
                  (fun user => default [] (fst (fetchAll keys getDeposits "deposits"
                                                   chunks startDate endDate)
                                           !! id user))).
    + apply f_equal. apply map_ext_in. intros user Huser. unfold rowFigure.
      rewrite st_reports, buildReports_lookup
        by (try exact docs_NoDup; now apply list_elem_of_In).
      cbn [reportOf ExportToPDF.totals AnnualReports.calculateUserTotals totalDeposits].
      now rewrite reduce_sum_total.
    + intros user Huser.
      apply (fetchAll_user keys keys_spec depositStore getDeposits);
        [exact deposits_answered|].
      rewrite chunks_ids. apply list_elem_of_fmap. eauto.
  - rewrite Hl.
    rewrite <- (rows_total loanStore
                  (fun user => default [] (fst (fetchAll keys getLoans "loans"
                                                   chunks startDate endDate)
                                           !! id user))).
    + apply f_equal. apply map_ext_in. intros user Huser. unfold rowFigure.
      rewrite st_reports, buildReports_lookup
        by (try exact docs_NoDup; now apply list_elem_of_In).
      cbn [reportOf ExportToPDF.totals AnnualReports.calculateUserTotals totalLoans].
      now rewrite reduce_sum_total.
    + intros user Huser.
      apply (fetchAll_user keys keys_spec loanStore getLoans);
        [exact loans_answered|].
      rewrite chunks_ids. apply list_elem_of_fmap. eauto.
Qed.

End PageFacts.

Lemma mapKeys_NoDup (R : Type) (m : gmap string (list R)) :
  NoDup (ReportFetch.mapKeys R m).
Proof. apply NoDup_fst_map_to_list. Qed.

Lemma mapKeys_spec (R : Type) (m : gmap string (list R)) (k : string) :
  k ∈ ReportFetch.mapKeys R m <-> is_Some (m !! k).
Proof.
  unfold ReportFetch.mapKeys. rewrite list_elem_of_fmap. split.
  - intros ([k' v] & -> & Hin). apply elem_of_map_to_list in Hin. eauto.
  - intros [v Hv]. exists (k, v). split; [reflexivity|].
    now apply elem_of_map_to_list.
Qed.

Lemma storeBackend_answers {R} `{Doc R} (store : list R) :
  ReportFetch.answers store (ReportFetch.storeBackend store).
Proof. intros q. unfold ReportFetch.storeBackend. reflexivity. Qed.

Lemma exampleUsers_NoDup : NoDup (map ReportFetch.id ReportFetch.exampleUsers).
Proof. apply (bool_decide_unpack _). vm_compute. exact I. Qed.

Lemma exampleUsers_ordinary :
  Forall PlainObject.ordinary (map ReportFetch.id ReportFetch.exampleUsers).
Proof. repeat constructor. Qed.

(** *** Objects and finite maps

    On keys that name no member of [Object.prototype] the loops on objects
    throw nothing and do what the loops on finite maps do; a document filed
    under such a name stops the loop. *)

Lemma pushAll_ordinary {R} `{Doc R} (callee : string) (docs : list R)
      (data : gmap string (list R)) :
  Forall (fun r => PlainObject.ordinary (userId r)) docs ->
  PlainObject.pushAll callee docs data
  = Exc.Ok (fold_left Fetcher.push docs data).
Proof.
  revert data. induction docs as [|r docs IH]; intros data Hordinary;
    [reflexivity|].
  apply Forall_cons in Hordinary as [Hr Hordinary].
  cbn [PlainObject.pushAll fold_left].
  unfold PlainObject.pushAt, Fetcher.push at 2.
  destruct (data !! userId r) as [records|]; cbn [Exc.bind default].
  - now apply IH.
  - rewrite Hr. cbn [Exc.bind app]. now apply IH.
Qed.

Lemma pushAll_inherited {R} `{Doc R} (callee : string) (docs : list R)
      (data : gmap string (list R)) :
  (forall k, PlainObject.inherited k = true -> data !! k = None) ->
  Exists (fun r => PlainObject.inherited (userId r) = true) docs ->
  PlainObject.pushAll callee docs data
  = Exc.Throw (PlainObject.notAFunction callee).
Proof.
  revert data. induction docs as [|r docs IH]; intros data Hdata Hdocs;
    [inversion Hdocs|].
  cbn [PlainObject.pushAll]. unfold PlainObject.pushAt.
  destruct (PlainObject.inherited (userId r)) eqn:Hr.
  - now rewrite (Hdata _ Hr).
  - apply Exists_cons in Hdocs as [Hdocs|Hdocs]; [congruence|].
    destruct (data !! userId r) as [records|]; cbn [Exc.bind];
      (apply IH; [|exact Hdocs]); intros k Hk;
      (rewrite lookup_insert_ne by congruence); now apply Hdata.
Qed.

Lemma arrayAt_ordinary {R} (callee : string) (data : gmap string (list R))
      (key : string) :
  PlainObject.ordinary key ->
  PlainObject.arrayAt callee data key = Exc.Ok (default [] (data !! key)).
Proof.
  intros Hkey. unfold PlainObject.arrayAt.
  destruct (data !! key); [reflexivity|]. now rewrite Hkey.
Qed.

Lemma usersForEach_ordinary (usersData : list ReportFetch.UserDoc)
      (allDepositsData : gmap string (list Deposit))
      (allLoansData : gmap string (list Loan))
      (reports : gmap string ExportToPDF.UserReport) :
  Forall PlainObject.ordinary (map ReportFetch.id usersData) ->
  ReportFetch.usersForEach usersData allDepositsData allLoansData reports
  = Exc.Ok (fold_left (ReportFetch.addReport allDepositsData allLoansData)
                      usersData reports).
Proof.
  revert reports.
  induction usersData as [|user usersData IH]; intros reports Hordinary;
    [reflexivity|].
  cbn [map] in Hordinary. apply Forall_cons in Hordinary as [Huser Hordinary].
  cbn [ReportFetch.usersForEach fold_left].
  rewrite !arrayAt_ordinary by exact Huser. cbn [Exc.bind].
  now apply IH.
Qed.

(** A deposit of a user called [constructor] is not filed, and a user called
    [constructor] gets no report: both loops throw. *)
Example constructor_throws :
  PlainObject.collect "depositsData[deposit.userId].push"
    [ mkDeposit "a" "u1" 10 (FirestoreTimestamp 5);
      mkDeposit "b" "constructor" 20 (FirestoreTimestamp 7) ]
  = Exc.Throw (Exc.mkError "TypeError"
       "depositsData[deposit.userId].push is not a function")
  /\ ReportFetch.usersForEach
       (ReportFetch.exampleUsers
          ++ [ReportFetch.mkUserDoc
                "constructor" (ExportToPDF.mkUserInfo (Some "Ann Poe") None None)])
       ∅ ∅ ∅
     = Exc.Throw (Exc.mkError "TypeError" "deposits.reduce is not a function").
Proof. split; vm_compute; reflexivity. Qed.

Lemma magnitude_Permutation {R} `{Doc R} (l l' : list R) :
  l ≡ₚ l' ->
  Binary64.magnitude (map amount l) = Binary64.magnitude (map amount l').
Proof.
  unfold Binary64.magnitude.
  induction 1 as [|x l l' _ IH|x y l|l l' l'' _ IH _ IH']; cbn [map JS.total]; lia.
Qed.

(** With a store that answers, whether through the index or through the
    fallback, and users whose ids differ and name no member of
    [Object.prototype], [fetchUserReports] sets no error; the loop over the
    users throws nothing on the objects of the fetched records and makes the
    reports that are set: one report for every user of the users collection
    and for nobody else; the report of a user carries the user, the deposits
    and the loans of that user within the dates, each once, and the totals
    of these. *)
Theorem fetchUserReports_rows
        (keys : forall R : Type, gmap string (list R) -> list string)
        (docs : list ReportFetch.UserDoc)
        (depositStore : list Deposit) (loanStore : list Loan)
        (getDeposits : Fetcher.Query -> Fetcher.QueryResult Deposit)
        (getLoans : Fetcher.Query -> Fetcher.QueryResult Loan)
        (selectedYear : Z) (selectedMonth : ReportFetch.MonthChoice) :
  (forall R (m : gmap string (list R)) (k : string),
      k ∈ keys R m <-> is_Some (m !! k)) ->
  NoDup (map ReportFetch.id docs) ->
  Forall PlainObject.ordinary (map ReportFetch.id docs) ->
  ReportFetch.answers depositStore getDeposits ->
  ReportFetch.answers loanStore getLoans ->
  let st := ReportFetch.fetchUserReports keys (Fetcher.Snapshot docs)
              getDeposits getLoans selectedYear selectedMonth in
  let chunks := ReportFetch.userIdChunks (map ReportFetch.id docs) in
  let startDate := fst (ReportFetch.dateRange selectedYear selectedMonth) in
  let endDate := snd (ReportFetch.dateRange selectedYear selectedMonth) in
  ReportFetch.error st = None
  /\ ReportFetch.usersForEach docs
       (fst (ReportFetch.fetchAll keys getDeposits "deposits" chunks
                                  startDate endDate))
       (fst (ReportFetch.fetchAll keys getLoans "loans" chunks
                                  startDate endDate)) ∅
     = Exc.Ok (ReportFetch.userReports st)
  /\ (forall k, is_Some (ReportFetch.userReports st !! k)
                <-> k ∈ map ReportFetch.id docs)
  /\ forall user, user ∈ docs ->
       exists report,
         ReportFetch.userReports st !! ReportFetch.id user = Some report
         /\ ExportToPDF.user report = Some (ReportFetch.info user)
         /\ ExportToPDF.deposits report
            ≡ₚ ReportFetch.recordsOf depositStore (ReportFetch.id user)
                                     startDate endDate
         /\ ExportToPDF.loans report
            ≡ₚ ReportFetch.recordsOf loanStore (ReportFetch.id user)
                                     startDate endDate
         /\ ExportToPDF.totals report
            = AnnualReports.calculateUserTotals (ExportToPDF.deposits report)
                                                (ExportToPDF.loans report).
Proof.
  intros Hkeys Hnd Hordinary Hdeposits Hloans st chunks startDate endDate.
  split; [exact (proj1 (st_error keys docs getDeposits getLoans
                                 selectedYear selectedMonth))|].
  split; [|split].
  - rewrite usersForEach_ordinary by exact Hordinary. f_equal. symmetry.
    apply st_reports.
  - intros k. now apply (st_keys keys Hkeys docs Hnd depositStore loanStore).
  - intros user Huser. now apply st_row.
Qed.

Lemma fetchUserReports_rows_witness :
  ReportFetch.error
    (ReportFetch.fetchUserReports ReportFetch.mapKeys
       (Fetcher.Snapshot ReportFetch.exampleUsers)
       (ReportFetch.storeBackend example_deposits)
       (ReportFetch.storeBackend example_loans) 1970 ReportFetch.AllMonths)
  = None.
Proof.
  exact (proj1 (fetchUserReports_rows
                  ReportFetch.mapKeys ReportFetch.exampleUsers
                  example_deposits example_loans
                  (ReportFetch.storeBackend example_deposits)
                  (ReportFetch.storeBackend example_loans)
                  1970 ReportFetch.AllMonths
                  mapKeys_spec exampleUsers_NoDup exampleUsers_ordinary
                  (storeBackend_answers example_deposits)
                  (storeBackend_answers example_loans))).
Defined.

(** The figures above the table are the sums of the rows: with a store that
    answers, users whose ids differ and name no member of
    [Object.prototype], and whole amounts whose absolute values add up to
    2^53 at most over the store (the engine then adds the records fetched as
    integers are added), the total of the deposits that [fetchUserReports]
    sets for the period is the sum of the amounts of the deposits of the
    users within the dates, each counted once, and it is the sum of the
    deposit totals of the reports; the same for the loans. *)
Theorem fetchUserReports_figures
        (keys : forall R : Type, gmap string (list R) -> list string)
        (docs : list ReportFetch.UserDoc)
        (depositStore : list Deposit) (loanStore : list Loan)
        (getDeposits : Fetcher.Query -> Fetcher.QueryResult Deposit)
        (getLoans : Fetcher.Query -> Fetcher.QueryResult Loan)
        (selectedYear : Z) (selectedMonth : ReportFetch.MonthChoice) :
  (forall R (m : gmap string (list R)), NoDup (keys R m)) ->
  (forall R (m : gmap string (list R)) (k : string),
      k ∈ keys R m <-> is_Some (m !! k)) ->
  NoDup (map ReportFetch.id docs) ->
  Forall PlainObject.ordinary (map ReportFetch.id docs) ->
  ReportFetch.answers depositStore getDeposits ->
  ReportFetch.answers loanStore getLoans ->
  Binary64.magnitude (map amount depositStore) <= 2 ^ 53 ->
  Binary64.magnitude (map amount loanStore) <= 2 ^ 53 ->
  let st := ReportFetch.fetchUserReports keys (Fetcher.Snapshot docs)
              getDeposits getLoans selectedYear selectedMonth in
  let startDate := fst (ReportFetch.dateRange selectedYear selectedMonth) in
  let endDate := snd (ReportFetch.dateRange selectedYear selectedMonth) in
  let chunks := ReportFetch.userIdChunks (map ReportFetch.id docs) in
  let allDeposits :=
    snd (ReportFetch.fetchAll keys getDeposits "deposits" chunks
                              startDate endDate) in
  let allLoans :=
    snd (ReportFetch.fetchAll keys getLoans "loans" chunks startDate endDate) in
  ReportFetch.yearDeposits (ReportFetch.currentYear st)
  = JS.total (map amount
                  (ReportFetch.periodRecords depositStore (map ReportFetch.id docs)
                                             startDate endDate))
  /\ ReportFetch.yearLoans (ReportFetch.currentYear st)
     = JS.total (map amount
                     (ReportFetch.periodRecords loanStore (map ReportFetch.id docs)
                                                startDate endDate))
  /\ ReportFetch.yearDeposits (ReportFetch.currentYear st)
     = JS.total (map (ReportFetch.rowFigure (ReportFetch.userReports st)
                                            totalDeposits) docs)
  /\ ReportFetch.yearLoans (ReportFetch.currentYear st)
     = JS.total (map (ReportFetch.rowFigure (ReportFetch.userReports st)
                                            totalLoans) docs)
  /\ Binary64.reduce_sum (fun d => Binary64.ofZ (amount d)) allDeposits
     = Binary64.ofZ (ReportFetch.yearDeposits (ReportFetch.currentYear st))
  /\ Binary64.reduce_sum (fun l => Binary64.ofZ (amount l)) allLoans
     = Binary64.ofZ (ReportFetch.yearLoans (ReportFetch.currentYear st)).
Proof.
  intros Hnodup Hkeys Hnd Hordinary Hdeposits Hloans Hdbound Hlbound
         st startDate endDate chunks allDeposits allLoans.
  destruct (st_figures keys Hnodup Hkeys docs Hnd depositStore loanStore
                       getDeposits getLoans Hdeposits Hloans
                       selectedYear selectedMonth)
    as (Hd & Hl & Hdrows & Hlrows).
  split; [exact Hd|]. split; [exact Hl|]. split; [exact Hdrows|].
  split; [exact Hlrows|].
  assert (Hchunks : NoDup (concat chunks))
    by (unfold chunks;
        rewrite (proj1 (userIdChunks_concat (map ReportFetch.id docs)));
        exact Hnd).
  pose proof (st_currentYear keys docs getDeposits getLoans
                             selectedYear selectedMonth) as Hyear.
  fold st in Hyear. rewrite Hyear. cbn [ReportFetch.yearDeposits ReportFetch.yearLoans].
  split; apply reduce_sum_exact.
  - rewrite (magnitude_Permutation _ _
               (fetchAll_all keys Hnodup Hkeys depositStore getDeposits Hdeposits
                             "deposits" startDate endDate chunks Hchunks)).
    pose proof (magnitude_filter amount
                  (fun r => bool_decide (userId r ∈ concat chunks)
                            && within startDate endDate r) depositStore).
    unfold ReportFetch.periodRecords. lia.
  - rewrite (magnitude_Permutation _ _
               (fetchAll_all keys Hnodup Hkeys loanStore getLoans Hloans
                             "loans" startDate endDate chunks Hchunks)).
    pose proof (magnitude_filter amount
                  (fun r => bool_decide (userId r ∈ concat chunks)
                            && within startDate endDate r) loanStore).
    unfold ReportFetch.periodRecords. lia.
Qed.

Lemma fetchUserReports_figures_witness :
  ReportFetch.yearDeposits
    (ReportFetch.currentYear
       (ReportFetch.fetchUserReports ReportFetch.mapKeys
          (Fetcher.Snapshot ReportFetch.exampleUsers)
          (ReportFetch.storeBackend example_deposits)
          (ReportFetch.storeBackend example_loans) 1970 ReportFetch.AllMonths))
  = JS.total
      (map amount
           (ReportFetch.periodRecords example_deposits
              (map ReportFetch.id ReportFetch.exampleUsers)
              (fst (ReportFetch.dateRange 1970 ReportFetch.AllMonths))
              (snd (ReportFetch.dateRange 1970 ReportFetch.AllMonths)))).
Proof.
  exact (proj1 (fetchUserReports_figures
                  ReportFetch.mapKeys ReportFetch.exampleUsers
                  example_deposits example_loans
                  (ReportFetch.storeBackend example_deposits)
                  (ReportFetch.storeBackend example_loans)
                  1970 ReportFetch.AllMonths
                  mapKeys_NoDup mapKeys_spec exampleUsers_NoDup
                  exampleUsers_ordinary
                  (storeBackend_answers example_deposits)
                  (storeBackend_answers example_loans)
                  ltac:(vm_compute; discriminate)
                  ltac:(vm_compute; discriminate))).
Defined.

Section RefusedFacts.

Import ReportFetch.

Variable keys : forall R : Type, gmap string (list R) -> list string.
Hypothesis keys_spec :
  forall R (m : gmap string (list R)) (k : string),
    k ∈ keys R m <-> is_Some (m !! k).

Lemma keys_empty (R : Type) : keys R ∅ = [].
Proof.
  destruct (keys R ∅) as [|k ks] eqn:Hks; [reflexivity|].
  assert (Hk : k ∈ keys R ∅) by (rewrite Hks; now left).
  apply keys_spec in Hk as [l Hl]. rewrite lookup_empty in Hl. discriminate.
Qed.

Lemma fetchForUsers_refused {R} `{Doc R}
      (getDocs : Fetcher.Query -> Fetcher.QueryResult R) (coll : string)
      (chunk : list string) (startDate endDate : Z) :
  (forall q, exists message, getDocs q = Fetcher.Rejected message) ->
  Fetcher.fetchForUsers getDocs coll chunk startDate endDate = ∅.
Proof.
  intros Hrefused. unfold Fetcher.fetchForUsers.
  destruct (Hrefused (Fetcher.rangeOrderQuery coll chunk startDate endDate))
    as [message ->].
  destruct (Hrefused (Fetcher.equalityQuery coll chunk)) as [message' ->].
  now destruct (JS.includes message "requires an index").
Qed.

Lemma fetchAll_refused {R} `{Doc R}
      (getDocs : Fetcher.Query -> Fetcher.QueryResult R) (coll : string)
      (chunks : list (list string)) (startDate endDate : Z) :
  (forall q, exists message, getDocs q = Fetcher.Rejected message) ->
  fetchAll keys getDocs coll chunks startDate endDate = (∅, []).
Proof.
  intros Hrefused. unfold fetchAll, combine.
  generalize (∅ : gmap string (list R), @nil R).
  induction chunks as [|chunk chunks IH]; intros acc; [reflexivity|].
  cbn [map fold_left]. rewrite fetchForUsers_refused by exact Hrefused.
  unfold mergeResult at 2. rewrite keys_empty. cbn [fold_left]. apply IH.
Qed.

End RefusedFacts.

(** The failure of the record queries is not reported: when the store
    refuses every query for deposits and loans and the ids of the users
    differ and name no member of [Object.prototype], [fetchUserReports] still
    sets no error; the loop over the users throws nothing on the empty
    objects and makes the reports that are set; every user has a report
    without records and with totals of 0, the figures of the period are 0
    and so are the twelve bars of the chart. *)
Theorem fetchUserReports_hides_refusal
        (keys : forall R : Type, gmap string (list R) -> list string)
        (docs : list ReportFetch.UserDoc)
        (getDeposits : Fetcher.Query -> Fetcher.QueryResult Deposit)
        (getLoans : Fetcher.Query -> Fetcher.QueryResult Loan)
        (selectedYear : Z) (selectedMonth : ReportFetch.MonthChoice) :
  (forall R (m : gmap string (list R)) (k : string),
      k ∈ keys R m <-> is_Some (m !! k)) ->
  NoDup (map ReportFetch.id docs) ->
  Forall PlainObject.ordinary (map ReportFetch.id docs) ->
  (forall q, exists message, getDeposits q = Fetcher.Rejected message) ->
  (forall q, exists message, getLoans q = Fetcher.Rejected message) ->
  let st := ReportFetch.fetchUserReports keys (Fetcher.Snapshot docs)
              getDeposits getLoans selectedYear selectedMonth in
  ReportFetch.error st = None
  /\ ReportFetch.loading st = false
  /\ ReportFetch.usersForEach docs ∅ ∅ ∅
     = Exc.Ok (ReportFetch.userReports st)
  /\ (forall user, user ∈ docs ->
        ReportFetch.userReports st !! ReportFetch.id user
        = Some {| ExportToPDF.user := Some (ReportFetch.info user);
                  ExportToPDF.deposits := [];
                  ExportToPDF.loans := [];
                  ExportToPDF.totals := mkUserTotals 0 0 0 0 |})
  /\ ReportFetch.yearDeposits (ReportFetch.currentYear st) = 0
  /\ ReportFetch.yearLoans (ReportFetch.currentYear st) = 0
  /\ Forall (fun bucket => MonthGrouping.deposits bucket = 0
                           /\ MonthGrouping.loans bucket = 0)
            (ReportFetch.chartData st).
Proof.
  intros Hkeys Hnd Hordinary Hdeposits Hloans st. subst st.
  unfold ReportFetch.fetchUserReports, ReportFetch.fetchUsers.
  destruct (ReportFetch.dateRange selectedYear selectedMonth) as [s e].
  rewrite !(fetchAll_refused keys Hkeys getDeposits) by exact Hdeposits.
  rewrite !(fetchAll_refused keys Hkeys getLoans) by exact Hloans.
  cbn [ReportFetch.error ReportFetch.loading ReportFetch.userReports
       ReportFetch.currentYear ReportFetch.yearDeposits ReportFetch.yearLoans
       ReportFetch.chartData].
  split; [reflexivity|]. split; [reflexivity|]. split; [|split].
  - now rewrite usersForEach_ordinary by exact Hordinary.
  - intros user Huser. rewrite buildReports_lookup by assumption.
    unfold ReportFetch.reportOf. now rewrite !lookup_empty.
  - split; [reflexivity|]. split; [reflexivity|].
    unfold MonthGrouping.groupDataByMonth. apply Forall_forall.
    intros bucket Hbucket. apply list_elem_of_fmap in Hbucket as (i & -> & _).
    split; reflexivity.
Qed.

Lemma fetchUserReports_hides_refusal_witness :
  ReportFetch.error
    (ReportFetch.fetchUserReports ReportFetch.mapKeys
       (Fetcher.Snapshot ReportFetch.exampleUsers)
       ReportFetch.refusing ReportFetch.refusing 2023 ReportFetch.AllMonths)
  = None.
Proof.
  exact (proj1 (fetchUserReports_hides_refusal
                  ReportFetch.mapKeys ReportFetch.exampleUsers
                  ReportFetch.refusing ReportFetch.refusing
                  2023 ReportFetch.AllMonths
                  mapKeys_spec exampleUsers_NoDup exampleUsers_ordinary
                  (fun q => ex_intro _ _ eq_refl)
                  (fun q => ex_intro _ _ eq_refl))).
Defined.

(** ** Further properties of the fetching *)

(** When the users cannot be read, [fetchUserReports] ends with the error of
    [fetchUsers] and with nothing else to show: no report, totals of 0 for
    the year and for the year before, and a chart whose months are all 0,
    whatever the stores of deposits and loans hold. *)
Theorem fetchUserReports_without_users
        (keys : forall R : Type, gmap string (list R) -> list string)
        (message : string)
        (getDeposits : Fetcher.Query -> Fetcher.QueryResult Deposit)
        (getLoans : Fetcher.Query -> Fetcher.QueryResult Loan)
        (selectedYear : Z) (selectedMonth : ReportFetch.MonthChoice) :
  let st := ReportFetch.fetchUserReports keys (Fetcher.Rejected message)
              getDeposits getLoans selectedYear selectedMonth in
  ReportFetch.error st = Some "Failed to fetch users data"%string
  /\ ReportFetch.loading st = false
  /\ ReportFetch.userReports st = ∅
  /\ ReportFetch.yearDeposits (ReportFetch.currentYear st) = 0
  /\ ReportFetch.yearLoans (ReportFetch.currentYear st) = 0
  /\ ReportFetch.yearDeposits (ReportFetch.previousYear st) = 0
  /\ ReportFetch.yearLoans (ReportFetch.previousYear st) = 0
  /\ Forall (fun bucket => MonthGrouping.deposits bucket = 0
                           /\ MonthGrouping.loans bucket = 0)
            (ReportFetch.chartData st).
Proof.
  intros st. subst st.
  unfold ReportFetch.fetchUserReports, ReportFetch.fetchUsers.
  destruct (ReportFetch.dateRange selectedYear selectedMonth) as [s e].
  cbn [map ReportFetch.userIdChunks length ReportFetch.chunkLoop
       ReportFetch.fetchAll ReportFetch.combine fold_left snd].
  unfold ReportFetch.userIdChunks. cbn [map length ReportFetch.chunkLoop].
  unfold ReportFetch.fetchAll, ReportFetch.combine.
  cbn [map fold_left snd ReportFetch.error ReportFetch.loading
       ReportFetch.userReports ReportFetch.currentYear ReportFetch.previousYear
       ReportFetch.yearDeposits
       ReportFetch.yearLoans ReportFetch.chartData ReportFetch.buildReports].
  repeat (split; [reflexivity|]).
  unfold MonthGrouping.groupDataByMonth. apply Forall_forall.
  intros bucket Hbucket. apply list_elem_of_fmap in Hbucket as (i & -> & _).
  split; reflexivity.
Qed.

(** The grouping by user of the indexed path loses and invents nothing: when
    the query with the range and the order is answered with documents whose
    [userId] names no member of [Object.prototype], the loop over the
    snapshot throws nothing on the object it fills and leaves it with the
    keys and arrays that [fetchDepositsForUsers] returns; what is filed under
    a user id is the list of the documents of the snapshot with that
    [userId], in the order of the snapshot and never empty, and every
    document of the snapshot is filed under its own [userId]. *)
Theorem fetchForUsers_groups {R} `{Doc R}
        (getDocs : Fetcher.Query -> Fetcher.QueryResult R) (coll : string)
        (userIds : list string) (startDate endDate : Z) (docs : list R) :
  getDocs (Fetcher.rangeOrderQuery coll userIds startDate endDate)
  = Fetcher.Snapshot docs ->
  Forall (fun r => PlainObject.ordinary (userId r)) docs ->
  let result := Fetcher.fetchForUsers getDocs coll userIds startDate endDate in
  (forall callee, PlainObject.collect callee docs = Exc.Ok result)
  /\ (forall k l, result !! k = Some l ->
                  l <> [] /\ l = filter (fun r => userId r = k) docs)
  /\ (forall r, r ∈ docs ->
                exists l, result !! userId r = Some l /\ r ∈ l).
Proof.
  intros Hdocs Hordinary result. subst result.
  unfold Fetcher.fetchForUsers. rewrite Hdocs.
  split; [|split].
  - intros callee. now apply pushAll_ordinary.
  - intros k l. rewrite collect_lookup.
    destruct (filter (fun r => userId r = k) docs) as [|r rest]; [discriminate|].
    intros [= <-]. split; [discriminate|reflexivity].
  - intros r Hr. rewrite collect_lookup.
    assert (Hin : r ∈ filter (fun r' => userId r' = userId r) docs)
      by (apply list_elem_of_filter; split; [reflexivity|exact Hr]).
    destruct (filter (fun r' => userId r' = userId r) docs) as [|r' rest];
      [inversion Hin|].
    eexists. split; [reflexivity|exact Hin].
Qed.

Lemma fetchForUsers_groups_witness :
  ReportFetch.storeBackend example_deposits
    (Fetcher.rangeOrderQuery "deposits" ["u1"%string] 0 10)
  = Fetcher.Snapshot example_deposits
  /\ (forall k l,
         Fetcher.fetchForUsers (ReportFetch.storeBackend example_deposits)
                               "deposits" ["u1"%string] 0 10 !! k = Some l ->
         l <> [] /\ l = filter (fun r => userId r = k) example_deposits).
Proof.
  assert (Hdocs : ReportFetch.storeBackend example_deposits
                     (Fetcher.rangeOrderQuery "deposits" ["u1"%string] 0 10)
                   = Fetcher.Snapshot example_deposits)
    by (vm_compute; reflexivity).
  split; [exact Hdocs|].
  refine (proj1 (proj2 (fetchForUsers_groups _ _ _ _ _ _ Hdocs _))).
  repeat constructor.
Defined.

(** With a month selected, [fetchUserReports] asks for the records from
    [getStartOfMonth] to [getEndOfMonth], and so not for those of the last
    day of the month after midnight, which the range of the whole year
    holds; whatever the month holds, the year holds. *)
Theorem month_range_misses_last_day {R} `{Doc R} (year month : Z) (r : R) :
  1 <= month <= 12 ->
  let monthRange := ReportFetch.dateRange year (ReportFetch.OneMonth month) in
  let yearRange := ReportFetch.dateRange year ReportFetch.AllMonths in
  (MonthWindows.afterMonthEnd year month r = true ->
   within (fst monthRange) (snd monthRange) r = false
   /\ within (fst yearRange) (snd yearRange) r = true)
  /\ (within (fst monthRange) (snd monthRange) r = true ->
      within (fst yearRange) (snd yearRange) r = true).
Proof.
  intros Hmonth monthRange yearRange. subst monthRange yearRange.
  cbn [ReportFetch.dateRange fst snd].
  unfold MonthWindows.afterMonthEnd, within.
  rewrite getStartOfYear_month.
  pose proof (getEndOfYear_month year) as Hyear.
  pose proof (getEndOfMonth_next year month) as Hnext.
  pose proof (getStartOfMonth_step year month Hmonth) as Hstep.
  pose proof (getStartOfMonth_mono year 1 month ltac:(lia) ltac:(lia) ltac:(lia))
    as Hfirst.
  pose proof (getStartOfMonth_mono year (month + 1) 13 ltac:(lia) ltac:(lia)
                                   ltac:(lia)) as Hlast.
  unfold JSDate.msPerDay in *.
  rewrite !andb_true_iff, !andb_false_iff, !Z.leb_le, !Z.ltb_lt, !Z.leb_gt.
  split; intros; lia.
Qed.

Lemma month_range_misses_last_day_witness :
  within (fst (ReportFetch.dateRange 2023 (ReportFetch.OneMonth 1)))
         (snd (ReportFetch.dateRange 2023 (ReportFetch.OneMonth 1)))
         MonthGrouping.last_day_deposit = false
  /\ within (fst (ReportFetch.dateRange 2023 ReportFetch.AllMonths))
            (snd (ReportFetch.dateRange 2023 ReportFetch.AllMonths))
            MonthGrouping.last_day_deposit = true.
Proof.
  apply (proj1 (month_range_misses_last_day 2023 1 MonthGrouping.last_day_deposit
                                            ltac:(lia))).
  vm_compute. reflexivity.
Defined.

(** ** Properties of the caption, the year options and the status display *)

(** On a page within the pages, the table shows as many rows as its caption
    says (from [startIndex + 1] to [min(endIndex, data.length)]): at least
    one and at most [itemsPerPage], and a full page before the last.  The
    buttons that are disabled, Previous on the first page and Next on the
    last, would leave the page where it is. *)
Theorem caption_counts_rows {A : Type} (itemsPerPage : Z) (data : list A)
        (currentPage : Z) :
  0 < itemsPerPage ->
  1 <= currentPage <= Pagination.totalPages itemsPerPage data ->
  let shown := Z.of_nat (length (Pagination.currentData itemsPerPage data currentPage)) in
  shown = Caption.showingTo itemsPerPage data currentPage
          - Caption.showingFrom itemsPerPage currentPage + 1
  /\ 1 <= shown <= itemsPerPage
  /\ (currentPage < Pagination.totalPages itemsPerPage data -> shown = itemsPerPage)
  /\ (Caption.previousDisabled currentPage = true ->
      Pagination.onPrevious currentPage = currentPage)
  /\ (Caption.nextDisabled itemsPerPage data currentPage = true ->
      Pagination.onNext itemsPerPage data currentPage = currentPage).
Proof.
  intros Hpos Hpage shown. subst shown.
  pose proof (Math_ceil_div_bounds (Z.of_nat (length data)) itemsPerPage Hpos) as Hb.
  unfold Caption.showingTo, Caption.showingFrom, Caption.previousDisabled,
    Caption.nextDisabled, Pagination.onPrevious, Pagination.onNext,
    Pagination.currentData, Pagination.endIndex, Pagination.startIndex,
    Pagination.totalPages in *.
  set (pages := Pagination.Math_ceil_div (Z.of_nat (length data)) itemsPerPage) in *.
  rewrite slice_nonneg by nia.
  rewrite length_take, length_drop.
  assert (Hstart : (currentPage - 1) * itemsPerPage < Z.of_nat (length data)) by nia.
  split; [|split; [|split; [|split]]].
  - nia.
  - nia.
  - intros Hlast. nia.
  - intros Hfirst. apply Z.eqb_eq in Hfirst. lia.
  - intros Hlast. apply Z.eqb_eq in Hlast. lia.
Qed.

Lemma caption_counts_rows_witness :
  Z.of_nat (length (Pagination.currentData 5 twelve_rows 3)) = 12 - 11 + 1.
Proof.
  exact (proj1 (caption_counts_rows 5 twelve_rows 3 ltac:(lia)
                                    ltac:(vm_compute; split; discriminate))).
Defined.

Lemma yearLoop_spec (fuel : nat) :
  forall (year : Z) (options : list Z),
    year - 2021 <= Z.of_nat fuel ->
    ReportPage.yearLoop fuel year options
    = options ++ map (fun i => year - Z.of_nat i) (seq 0 (Z.to_nat (year - 2021))).
Proof.
  induction fuel as [|fuel IH]; intros year options Hfuel.
  - cbn [ReportPage.yearLoop]. replace (Z.to_nat (year - 2021)) with 0%nat by lia.
    cbn [seq map]. now rewrite app_nil_r.
  - cbn [ReportPage.yearLoop]. destruct (Z.leb_spec 2022 year) as [Hge|Hlt].
    + rewrite IH by lia. rewrite <- app_assoc. f_equal.
      replace (Z.to_nat (year - 2021)) with (S (Z.to_nat (year - 1 - 2021))) by lia.
      cbn [seq map app]. f_equal; [lia|].
      rewrite <- seq_shift, map_map. apply map_ext. intros i. lia.
    + replace (Z.to_nat (year - 2021)) with 0%nat by lia.
      cbn [seq map]. now rewrite app_nil_r.
Qed.

(** The years offered: from the current year down to 2022, each once, and
    none when the current year is before 2022; the loop is at its end by
    then. *)
Theorem generateYearOptions_spec (currentYear : Z) :
  ReportPage.generateYearOptions currentYear
  = map (fun i => currentYear - Z.of_nat i)
        (seq 0 (Z.to_nat (currentYear - 2021)))
  /\ (forall year, In year (ReportPage.generateYearOptions currentYear)
                   <-> 2022 <= year <= currentYear)
  /\ (forall fuel, (Z.to_nat (currentYear - 2021) <= fuel)%nat ->
                   ReportPage.yearLoop fuel currentYear []
                   = ReportPage.generateYearOptions currentYear).
Proof.
  unfold ReportPage.generateYearOptions.
  rewrite (yearLoop_spec _ currentYear []) by lia. cbn [app].
  split; [reflexivity|]. split.
  - intros year. rewrite in_map_iff. split.
    + intros (i & <- & Hi). apply in_seq in Hi. lia.
    + intros Hyear. exists (Z.to_nat (currentYear - year)). split; [lia|].
      apply in_seq. lia.
  - intros fuel Hfuel. now rewrite (yearLoop_spec fuel currentYear []) by lia.
Qed.

Lemma toUpperCase_approved (s : string) :
  ExportToPDF.toUpperCase s = "PAID"%string -> String.eqb s "approved" = false.
Proof.
  intros Hs. destruct (String.eqb_spec s "approved") as [->|]; [|reflexivity].
  vm_compute in Hs. discriminate.
Qed.

(** The page, the PDF and the counts agree on the status of a loan: for every
    payment status, [getLoanStatusInfo] shows the text that [getStatusText]
    prints, or throws as it does; it shows green exactly when
    [getStatusColor] prints green, which is exactly when the status is
    "approved"; and [calculateUserTotals] counts as paid the loans shown in
    green.  The text is not the colour: a status that reads PAID in upper
    case, as "paid" does, is shown as PAID in red. *)
Theorem loan_status_agrees (status : JS.value) :
  Exc.bind (ReportPage.getLoanStatusInfo status)
           (fun info => Exc.Ok (ReportPage.text info))
  = ExportToPDF.getStatusText status
  /\ (forall info,
        ReportPage.getLoanStatusInfo status = Exc.Ok info ->
        (ReportPage.className info = "bg-green-100 text-green-800"%string
         <-> JS.strict_eq_str status "approved" = true)
        /\ (ReportPage.getStatusColor status = (0, 128, 0)
            <-> JS.strict_eq_str status "approved" = true))
  /\ (forall deposits loans,
        paidLoansCount (AnnualReports.calculateUserTotals deposits loans)
        = length (List.filter
                    (fun loan =>
                       let '(r, g, b) :=
                         ReportPage.getStatusColor (paymentStatus loan) in
                       (r =? 0) && (g =? 128) && (b =? 0))
                    loans))
  /\ (forall s,
        status = JS.Str s ->
        ExportToPDF.toUpperCase s = "PAID"%string ->
        ReportPage.getLoanStatusInfo status
        = Exc.Ok {| ReportPage.text := "PAID";
                    ReportPage.className := "bg-red-100 text-red-800" |}).
Proof.
  split; [|split; [|split]].
  - unfold ReportPage.getLoanStatusInfo, ExportToPDF.getStatusText.
    destruct (JS.strict_eq_str status "approved"); [reflexivity|].
    destruct (JS.truthy status); [|reflexivity].
    destruct status; reflexivity.
  - intros info. unfold ReportPage.getLoanStatusInfo, ReportPage.getStatusColor.
    destruct (JS.strict_eq_str status "approved").
    + intros [= <-]. cbn [ReportPage.className]. repeat split; reflexivity.
    + intros Hinfo.
      assert (Hred : ReportPage.className info = "bg-red-100 text-red-800"%string).
      { destruct (JS.truthy status); [destruct status|]; cbn [Exc.bind] in Hinfo;
          try discriminate; injection Hinfo as <-; reflexivity. }
      rewrite Hred. repeat split; discriminate.
  - intros deposits loans. unfold AnnualReports.calculateUserTotals.
    cbn [paidLoansCount]. f_equal. apply filter_ext. intros loan.
    unfold ReportPage.getStatusColor.
    destruct (JS.strict_eq_str (paymentStatus loan) "approved"); reflexivity.
  - intros s -> Hs. unfold ReportPage.getLoanStatusInfo.
    cbn [JS.strict_eq_str JS.truthy]. rewrite (toUpperCase_approved s Hs).
    destruct (String.eqb_spec s "") as [->|_]; [discriminate|].
    cbn [negb Exc.bind]. now rewrite Hs.
Qed.

(** ** Properties of a session on the interest-rate page *)

Section SessionFacts.

Import InterestSettings InterestSession.

Variable t : string -> string.
Variable round : Q -> JSNumber.number.

#[local] Arguments JSNumber.lt : simpl never.
#[local] Arguments JSNumber.gt : simpl never.
#[local] Arguments JSNumber.parseFloat : simpl never.
#[local] Arguments JSNumber.Number : simpl never.
#[local] Arguments String.eqb : simpl never.

(** What one [handleSave] leaves, case by case: nothing is sent, or one
    write is sent and is rejected, or it is sent and done. *)
Lemma handleSave_cases (now : Z) (newDocId : string) (w : World) :
  let w' := afterSave t round now newDocId w in
  let interestData :=
    {| doc_interest := JSNumber.parseFloat round (interest (state w));
       doc_timestamp := now |} in
  fst (handleSave t round now newDocId w) = Exc.Ok tt
  /\ interest (state w') = interest (state w)
  /\ is_Some (message (state w'))
  /\ ((issued w' = issued w
       /\ store w' = store w
       /\ interestDocId (state w') = interestDocId (state w)
       /\ messageType (state w') = "error"%string)
      \/ (exists c,
             issued w' = issued w ++ [c]
             /\ callData c = interestData
             /\ c = match interestDocId (state w) with
                    | Some id => UpdateDoc id interestData
                    | None => SetDoc newDocId interestData
                    end
             /\ saving (state w') = false
             /\ ((store w' = store w
                  /\ interestDocId (state w') = interestDocId (state w)
                  /\ messageType (state w') = "error"%string
                  /\ (is_Some (answerAt 0 w)
                      \/ exists id, interestDocId (state w) = Some id
                                    /\ store w !! id = None))
                 \/ (store w' = <[callId c := interestData]> (store w)
                     /\ interestDocId (state w') = Some (callId c)
                     /\ answerAt 0 w = None
                     /\ (forall id, interestDocId (state w) = Some id ->
                                    is_Some (store w !! id))
                     /\ saved t w w')))).
Proof.
  intros w' interestData.
  destruct (String.eqb (interest (state w)) ""
            || JSNumber.isNaN (JSNumber.Number round (interest (state w))))
    eqn:Hok.
  { subst w'. unfold afterSave, handleSave. rewrite Hok.
    cbn. repeat split; eauto. }
  destruct (JSNumber.lt (JSNumber.parseFloat round (interest (state w)))
                        (JSNumber.Finite 0)
            || JSNumber.gt (JSNumber.parseFloat round (interest (state w)))
                           (JSNumber.Finite 100)) eqn:Hrange.
  { subst w'. unfold afterSave, handleSave. rewrite Hok.
    unfold bind, setSaving, modify, try_catch_finally, saveBody.
    cbn [state interest interestDocId store issued pending fst snd].
    rewrite Hrange. cbn. repeat split; eauto. }
  destruct (afterSave_valid t round now newDocId w Hok Hrange)
    as (Hret & Hinput & Hsaving & Hissued & Hsave).
  fold w' interestData in Hinput, Hsaving, Hissued, Hsave.
  split; [exact Hret|]. split; [exact Hinput|].
  assert (Hcall : forall c, c = match interestDocId (state w) with
                                | Some id => UpdateDoc id interestData
                                | None => SetDoc newDocId interestData
                                end ->
                            callData c = interestData
                            /\ callId c = match interestDocId (state w) with
                                          | Some id => id
                                          | None => newDocId
                                          end).
  { intros c ->. destruct (interestDocId (state w)); split; reflexivity. }
  destruct (answerAt 0 w) as [error|] eqn:Hanswer.
  - destruct Hsave as (Hstore & Hid & Htype & Hmsg).
    split; [rewrite Hmsg; eauto|]. right. eexists. split; [exact Hissued|].
    split; [now apply Hcall|]. split; [reflexivity|]. split; [exact Hsaving|].
    left. repeat split; eauto.
  - destruct (interestDocId (state w)) as [id|] eqn:Hdoc.
    + destruct (store w !! id) as [old|] eqn:Hold.
      * destruct Hsave as (Hstore & Hid & Hsaved).
        split.
        { unfold saved in Hsaved. destruct (answerAt 1 w);
            destruct Hsaved as [_ Hmsg]; rewrite Hmsg; eauto. }
        right. eexists. split; [exact Hissued|].
        split; [reflexivity|]. split; [reflexivity|]. split; [exact Hsaving|].
        right. cbn [callId]. repeat split; try assumption.
        intros id' [= <-]. eauto.
      * destruct Hsave as (Hstore & Hid & Htype & Hmsg).
        split; [rewrite Hmsg; eauto|]. right. eexists. split; [exact Hissued|].
        split; [reflexivity|]. split; [reflexivity|]. split; [exact Hsaving|].
        left. repeat split; eauto. congruence.
    + destruct Hsave as (Hstore & Hid & Hsaved).
      split.
      { unfold saved in Hsaved. destruct (answerAt 1 w);
          destruct Hsaved as [_ Hmsg]; rewrite Hmsg; eauto. }
      right. eexists. split; [exact Hissued|].
      split; [reflexivity|]. split; [reflexivity|]. split; [exact Hsaving|].
      right. cbn [callId]. repeat split; try assumption.
      intros id' Hid'. discriminate Hid'.
Qed.

Lemma onChange_fields (value : string) (w : World) :
  store (onChange value w) = store w
  /\ issued (onChange value w) = issued w
  /\ interestDocId (state (onChange value w)) = interestDocId (state w).
Proof. repeat split. Qed.

(** What a run of events leaves, from any world. *)
Lemma run_writes (events : list Event) :
  forall w : World,
    let w' := run t round events w in
    (forall k, interestDocId (state w') <> Some k -> store w' !! k = store w !! k)
    /\ match interestDocId (state w) with
       | Some id =>
           interestDocId (state w') = Some id
           /\ dom (store w') = dom (store w)
           /\ exists calls,
                issued w' = issued w ++ calls
                /\ Forall (fun c => isSetDoc c = false /\ callId c = id) calls
       | None => (size (store w') <= size (store w) + 1)%nat
       end.
Proof.
  induction events as [|e events IH]; intros w.
  - cbn. split; [reflexivity|].
    destruct (interestDocId (state w)) as [id|]; [|lia].
    split; [reflexivity|]. split; [reflexivity|].
    exists []. now rewrite app_nil_r.
  - cbn [run fold_left]. fold (run t round events (step t round w e)).
    destruct (IH (step t round w e)) as (Hothers & Hrest).
    cbv zeta in *. set (w' := run t round events (step t round w e)) in *.
    destruct e as [value|now newDocId].
    + cbn [step] in *. destruct (onChange_fields value w) as (Hs & Hi & Hd).
      rewrite Hs, Hi, Hd in *. split; [exact Hothers|exact Hrest].
    + cbn [step] in *.
      destruct (handleSave_cases now newDocId w) as (_ & _ & _ & Hcase).
      cbv zeta in Hcase. set (w1 := afterSave t round now newDocId w) in *.
      destruct Hcase as [(Hcalls & Hstore & Hid & _)
                        |(c & Hcalls & _ & Hc & _ &
                          [(Hstore & Hid & _)
                          |(Hstore & Hid & _ & Hexists & _)])].
      * rewrite Hstore, Hid, Hcalls in *. split; [exact Hothers|exact Hrest].
      * rewrite Hstore, Hid in *. split; [exact Hothers|].
        destruct (interestDocId (state w)) as [id|]; [|exact Hrest].
        destruct Hrest as (Hsame & Hdom & calls & Hissued & Hall).
        split; [exact Hsame|]. split; [exact Hdom|].
        exists (c :: calls). rewrite Hissued, Hcalls, <- app_assoc.
        split; [reflexivity|]. constructor; [|exact Hall].
        subst c. split; reflexivity.
      * rewrite Hid in Hrest. destruct Hrest as (Hsame & Hdom & calls & Hissued & Hall).
        split.
        { intros k Hk. rewrite Hothers by exact Hk. rewrite Hstore.
          apply lookup_insert_ne. congruence. }
        destruct (interestDocId (state w)) as [id|] eqn:Hdoc.
        -- subst c. cbn [callId] in *.
           split; [exact Hsame|]. split.
           ++ rewrite Hdom, Hstore. apply dom_insert_lookup_L. now apply Hexists.
           ++ exists (UpdateDoc id
                        {| doc_interest :=
                             JSNumber.parseFloat round (interest (state w));
                           doc_timestamp := now |} :: calls).
              rewrite Hissued, Hcalls, <- app_assoc.
              split; [reflexivity|]. constructor; [|exact Hall].
              split; reflexivity.
        -- assert (Hsize : size (store w') = size (store w1)).
           { rewrite <- (size_dom (D := gset string) (store w')).
             rewrite <- (size_dom (D := gset string) (store w1)).
             now rewrite Hdom. }
           rewrite Hsize, Hstore.
           destruct (store w !! callId c) as [old|] eqn:Hold.
           ++ rewrite map_size_insert_Some by eauto. lia.
           ++ rewrite map_size_insert_None by exact Hold. lia.
Qed.

End SessionFacts.

(** Every press of Save ends with a message, and the message of success is
    shown only when the write and the refresh of the chart went through:
    [handleSave] does not throw; it leaves the text of the input as it is and
    sets a message of type "error" or "success"; after "success", one write
    was issued, Firestore fulfilled it, the record it names holds the rate
    and the time just given, and [saving] is off again.  After "error" the
    collection is as it was, but for one case: the record was written and
    Firestore then rejected the query that refreshes the chart, which runs in
    the same [try]; the message is then the one of that rejection. *)
Theorem handleSave_outcome (t : string -> string) (round : Q -> JSNumber.number)
        (now : Z) (newDocId : string) (w : InterestSettings.World) :
  let w' := InterestSettings.afterSave t round now newDocId w in
  let interestData :=
    {| InterestSettings.doc_interest :=
         JSNumber.parseFloat round
                             (InterestSettings.interest (InterestSettings.state w));
       InterestSettings.doc_timestamp := now |} in
  fst (InterestSettings.handleSave t round now newDocId w) = Exc.Ok tt
  /\ InterestSettings.interest (InterestSettings.state w')
     = InterestSettings.interest (InterestSettings.state w)
  /\ is_Some (InterestSettings.message (InterestSettings.state w'))
  /\ (InterestSettings.messageType (InterestSettings.state w') = "success"%string
      \/ InterestSettings.messageType (InterestSettings.state w') = "error"%string)
  /\ (InterestSettings.messageType (InterestSettings.state w') = "success"%string ->
      InterestSettings.saving (InterestSettings.state w') = false
      /\ InterestSettings.answerAt 0 w = None
      /\ InterestSettings.answerAt 1 w = None
      /\ exists c,
           InterestSettings.issued w' = InterestSettings.issued w ++ [c]
           /\ InterestSettings.store w' !! InterestSession.callId c
              = Some interestData)
  /\ (InterestSettings.messageType (InterestSettings.state w') = "error"%string ->
      InterestSettings.store w' = InterestSettings.store w
      \/ exists error c,
           InterestSettings.answerAt 0 w = None
           /\ InterestSettings.answerAt 1 w = Some error
           /\ InterestSettings.issued w' = InterestSettings.issued w ++ [c]
           /\ InterestSettings.store w' !! InterestSession.callId c
              = Some interestData
           /\ InterestSettings.message (InterestSettings.state w')
              = Some (t "error_save_interest_rate" ++ Exc.message error)%string).
Proof.
  intros w' interestData. subst w'.
  destruct (handleSave_cases t round now newDocId w)
    as (Hret & Hinput & Hmsg & Hcase).
  cbv zeta in Hcase. fold interestData in Hcase.
  split; [exact Hret|]. split; [exact Hinput|]. split; [exact Hmsg|].
  destruct Hcase as [(_ & Hstore & _ & Htype)
                    |(c & Hcalls & _ & _ & Hsaving &
                      [(Hstore & _ & Htype & _)
                      |(Hstore & _ & Hanswer & _ & Hsaved)])].
  - split; [now right|]. split; [rewrite Htype; discriminate|]. intros _. now left.
  - split; [now right|]. split; [rewrite Htype; discriminate|]. intros _. now left.
  - unfold InterestSettings.saved in Hsaved.
    destruct (InterestSettings.answerAt 1 w) as [error|] eqn:Hrefresh;
      destruct Hsaved as [Htype Hmessage].
    + split; [now right|]. split; [rewrite Htype; discriminate|]. intros _.
      right. exists error, c. repeat split; try assumption.
      rewrite Hstore. apply lookup_insert_eq.
    + split; [now left|]. split; [|rewrite Htype; discriminate]. intros _.
      repeat split; try assumption.
      exists c. split; [exact Hcalls|]. rewrite Hstore. apply lookup_insert_eq.
Qed.

(** A session writes to one record only.  Whatever is typed, however often
    Save is pressed after the page has loaded and whatever Firestore answers,
    every record but the one the page holds in the end is as it was.  When
    the load gave a newest record, the page holds that record to the end,
    all writes update it and the collection keeps its records; when the load
    failed or found nothing, the collection grows by one record at most. *)
Theorem session_writes_one_record
        (t : string -> string) (round : Q -> JSNumber.number)
        (toFixed2 : JSNumber.number -> string)
        (docs : gmap string InterestSettings.InterestDoc)
        (snap : Exc.result (list (string * InterestSettings.InterestDoc)))
        (answers : list (option Exc.Error))
        (events : list InterestSession.Event) :
  let w' := InterestSession.run t round events
              (InterestSession.loaded t toFixed2 docs snap answers) in
  (forall k, InterestSettings.interestDocId (InterestSettings.state w') <> Some k ->
             InterestSettings.store w' !! k = docs !! k)
  /\ match snap with
     | Exc.Ok ((id, _) :: _) =>
         InterestSettings.interestDocId (InterestSettings.state w') = Some id
         /\ Forall (fun c => InterestSession.isSetDoc c = false
                             /\ InterestSession.callId c = id)
                   (InterestSettings.issued w')
         /\ dom (InterestSettings.store w') = dom docs
     | _ => (size (InterestSettings.store w') <= size docs + 1)%nat
     end.
Proof.
  intros w'. subst w'.
  destruct (run_writes t round events
                       (InterestSession.loaded t toFixed2 docs snap answers))
    as (Hothers & Hrest).
  assert (Hloaded :
            InterestSettings.issued
              (InterestSession.loaded t toFixed2 docs snap answers) = []
            /\ InterestSettings.store
                 (InterestSession.loaded t toFixed2 docs snap answers) = docs
            /\ InterestSettings.interestDocId
                 (InterestSettings.state
                    (InterestSession.loaded t toFixed2 docs snap answers))
               = match snap with
                 | Exc.Ok ((id, _) :: _) => Some id
                 | _ => None
                 end).
  { unfold InterestSession.loaded, InterestSettings.fetchInterest.
    destruct snap as [[|[id docData] snap]|e]; repeat split. }
  destruct Hloaded as (Hnone & Hdocs & Hid).
  rewrite Hdocs in Hothers. rewrite Hdocs, Hid in Hrest.
  split; [exact Hothers|].
  destruct snap as [[|[id docData] snap]|e]; try exact Hrest.
  destruct Hrest as (Hsame & Hdom & calls & Hissued & Hall).
  rewrite Hnone in Hissued. cbn [app] in Hissued. rewrite Hissued.
  split; [exact Hsame|]. split; [exact Hall|exact Hdom].
Qed.

(** A write that Firestore rejects leaves no record and no identifier, and
    the next save creates the record under a new identifier; a refresh that
    Firestore rejects leaves the message of an error and the record
    written. *)
Example session_with_rejections :
  let first :=
    InterestSettings.afterSave InterestExamples.keys JSNumber.exact 1000 "r1"
      (InterestExamples.answering [Some InterestExamples.denied]
         (InterestExamples.typed "10" None ∅)) in
  let second :=
    InterestSettings.afterSave InterestExamples.keys JSNumber.exact 2000 "r2"
      (InterestExamples.answering [None; Some InterestExamples.denied] first) in
  InterestSettings.store first = ∅
  /\ InterestSettings.interestDocId (InterestSettings.state first) = None
  /\ InterestSettings.issued second
     = [InterestSettings.SetDoc "r1"
          {| InterestSettings.doc_interest := JSNumber.Finite 10;
             InterestSettings.doc_timestamp := 1000 |};
        InterestSettings.SetDoc "r2"
          {| InterestSettings.doc_interest := JSNumber.Finite 10;
             InterestSettings.doc_timestamp := 2000 |}]
  /\ InterestSettings.store second !! "r2"%string
     = Some {| InterestSettings.doc_interest := JSNumber.Finite 10;
               InterestSettings.doc_timestamp := 2000 |}
  /\ InterestSettings.store second !! "r1"%string = None
  /\ InterestSettings.interestDocId (InterestSettings.state second) = Some "r2"%string
  /\ InterestSettings.messageType (InterestSettings.state second) = "error"%string.
Proof.
  repeat split; vm_compute; reflexivity.
Qed.

(** ** Properties of the handling of a blocked user *)

Lemma checkUserBlockStatus_cases (currentUser : option UserBlocking.User)
      (getDoc : string -> Exc.result UserBlocking.DocumentSnapshot) :
  exists isBlocked,
    UserBlocking.checkUserBlockStatus currentUser getDoc = Exc.Ok isBlocked
    /\ (isBlocked = true
        <-> exists user, currentUser = Some user /\ BlockedUser.blockedIn getDoc user).
Proof.
  unfold UserBlocking.checkUserBlockStatus, BlockedUser.blockedIn.
  destruct currentUser as [user|]; cbn [Exc.try_catch].
  - destruct (getDoc (UserBlocking.uid user)) as [[[userData|]]|e] eqn:Hdoc;
      cbn [Exc.bind Exc.try_catch UserBlocking.data].
    + eexists. split; [reflexivity|]. split.
      * intros Hblocked. exists user. split; [reflexivity|]. exists userData.
        split; [exact Hdoc|].
        unfold UserBlocking.strict_eq_true in Hblocked.
        repeat case_match; congruence.
      * intros (user' & [= <-] & userData' & Hdoc' & Hblocked).
        rewrite Hdoc in Hdoc'. injection Hdoc' as <-. now rewrite Hblocked.
    + exists false. split; [reflexivity|]. split; [discriminate|].
      intros (user' & [= <-] & userData' & Hdoc' & _).
      rewrite Hdoc in Hdoc'. discriminate.
    + exists false. split; [reflexivity|]. split; [discriminate|].
      intros (user' & [= <-] & userData' & Hdoc' & _).
      rewrite Hdoc in Hdoc'. discriminate.
  - exists false. split; [reflexivity|]. split; [discriminate|].
    intros (user & Hnone & _). discriminate.
Qed.

Lemma checkAndHandle_cases
        (getDoc : string -> Exc.result UserBlocking.DocumentSnapshot)
        (failure : option Exc.Error) (navigate : bool) (s : BlockedUser.Session) :
  exists isBlocked s',
    BlockedUser.checkAndHandleUserBlockStatus getDoc failure navigate s
    = Exc.Ok (isBlocked, s')
    /\ (isBlocked = true
        <-> exists user, BlockedUser.currentUser s = Some user
                         /\ BlockedUser.blockedIn getDoc user)
    /\ (isBlocked = false -> s' = s)
    /\ (isBlocked = true ->
        match failure with
        | None =>
            BlockedUser.currentUser s' = None
            /\ BlockedUser.route s'
               = (if navigate then "/blocked"%string else BlockedUser.route s)
        | Some _ => s' = s
        end).
Proof.
  unfold BlockedUser.checkAndHandleUserBlockStatus.
  destruct (checkUserBlockStatus_cases (BlockedUser.currentUser s) getDoc)
    as (isBlocked & -> & Hblocked).
  cbn [Exc.bind]. destruct isBlocked.
  - unfold BlockedUser.handleBlockedUser, BlockedUser.signOut.
    destruct failure as [e|]; cbn [Exc.bind Exc.try_catch].
    + exists true, s. split; [reflexivity|]. split; [exact Hblocked|].
      split; [discriminate|reflexivity].
    + destruct navigate; cbn [Exc.bind Exc.try_catch];
        eexists true, _; (split; [reflexivity|]); (split; [exact Hblocked|]);
        (split; [discriminate|]); intros _; split; reflexivity.
  - exists false, s. split; [reflexivity|]. split; [exact Hblocked|].
    split; [reflexivity|discriminate].
Qed.

(** [checkAndHandleUserBlockStatus] does not throw.  It answers true exactly
    when a user is signed in whose document says [isBlocked: true]; when it
    answers false it leaves the session alone; when it answers true and the
    sign-out goes through, nobody is signed in any more and the route is
    that of the blocked page if [navigate] was given; when the sign-out
    fails, the blocked user stays signed in where they were. *)
Theorem checkAndHandleUserBlockStatus_outcome
        (getDoc : string -> Exc.result UserBlocking.DocumentSnapshot)
        (failure : option Exc.Error) (navigate : bool) (s : BlockedUser.Session) :
  exists isBlocked s',
    BlockedUser.checkAndHandleUserBlockStatus getDoc failure navigate s
    = Exc.Ok (isBlocked, s')
    /\ (isBlocked = true
        <-> exists user, BlockedUser.currentUser s = Some user
                         /\ BlockedUser.blockedIn getDoc user)
    /\ (isBlocked = false -> s' = s)
    /\ (isBlocked = true ->
        match failure with
        | None =>
            BlockedUser.currentUser s' = None
            /\ BlockedUser.route s'
               = (if navigate then "/blocked"%string else BlockedUser.route s)
        | Some _ => s' = s
        end).
Proof. apply checkAndHandle_cases. Qed.

(** The periodic check of [BlockedUserChecker] signs out nobody but a
    blocked user: when the signed-in user is not blocked, or the document
    cannot be read, or the context has no user, the session is as before. *)
Theorem checkUserStatus_spares_others
        (getDoc : string -> Exc.result UserBlocking.DocumentSnapshot)
        (failure : option Exc.Error)
        (contextUser : option UserBlocking.User) (s : BlockedUser.Session) :
  BlockedUser.checkUserStatus getDoc failure contextUser s = s
  \/ (exists user, contextUser <> None
                   /\ BlockedUser.currentUser s = Some user
                   /\ BlockedUser.blockedIn getDoc user
                   /\ failure = None
                   /\ BlockedUser.checkUserStatus getDoc failure contextUser s
                      = {| BlockedUser.currentUser := None;
                           BlockedUser.route := "/blocked" |}).
Proof.
  unfold BlockedUser.checkUserStatus.
  destruct contextUser as [cu|]; [|now left].
  destruct (checkAndHandle_cases getDoc failure true s)
    as (isBlocked & s' & -> & Hblocked & Hfalse & Htrue).
  destruct isBlocked; [|left; now apply Hfalse].
  specialize (Htrue eq_refl). destruct failure as [e|]; [now left|].
  right. destruct (proj1 Hblocked eq_refl) as (user & Huser & Hdoc).
  exists user. repeat split; try assumption; [discriminate|].
  destruct s' as [cu' r']. cbn in Htrue. destruct Htrue as [-> ->]. reflexivity.
Qed.

(** ** Properties of blocking from the user management page *)

(** Blocking takes effect, and unblocking too: when the click on the button
    of a user goes through, the stored [isBlocked] is the boolean opposite of
    what the row showed; [checkUserBlockStatus] for that user then answers
    true exactly when the row now shows Blocked; no other user's document
    changes; and a second click brings back what the row showed. *)
Theorem toggle_then_check (userId : string) (user : UserBlocking.UserData)
        (page : AdminUsers.Page) :
  AdminUsers.users page !! userId = Some user ->
  let page' := AdminUsers.onClick None userId page in
  let page'' := AdminUsers.onClick None userId page' in
  AdminUsers.users page' !! userId
  = Some {| UserBlocking.isBlocked :=
              JS.Bool (negb (AdminUsers.shownBlocked user)) |}
  /\ UserBlocking.checkUserBlockStatus
       (Some (UserBlocking.mkUser userId))
       (AdminUsers.getDocFrom (AdminUsers.users page'))
     = Exc.Ok (negb (AdminUsers.shownBlocked user))
  /\ (forall other, other <> userId ->
        AdminUsers.users page' !! other = AdminUsers.users page !! other)
  /\ AdminUsers.error page' = AdminUsers.error page
  /\ UserBlocking.checkUserBlockStatus
       (Some (UserBlocking.mkUser userId))
       (AdminUsers.getDocFrom (AdminUsers.users page''))
     = Exc.Ok (AdminUsers.shownBlocked user).
Proof.
  intros Huser page' page''.
  assert (Hpage' : page'
                   = {| AdminUsers.users :=
                          <[userId := {| UserBlocking.isBlocked :=
                                           JS.Bool (negb (AdminUsers.shownBlocked user)) |}]>
                            (AdminUsers.users page);
                        AdminUsers.error := AdminUsers.error page |}).
  { unfold page', AdminUsers.onClick, AdminUsers.toggleUserBlockStatus.
    now rewrite Huser. }
  assert (Hlookup : AdminUsers.users page' !! userId
                    = Some {| UserBlocking.isBlocked :=
                                JS.Bool (negb (AdminUsers.shownBlocked user)) |})
    by (rewrite Hpage'; apply lookup_insert_eq).
  assert (Hpage'' : page'' = AdminUsers.onClick None userId page') by reflexivity.
  clearbody page' page''.
  split; [exact Hlookup|]. split; [|split; [|split]].
  - unfold UserBlocking.checkUserBlockStatus, AdminUsers.getDocFrom.
    cbn [Exc.bind Exc.try_catch UserBlocking.data UserBlocking.uid].
    rewrite Hlookup. cbn [UserBlocking.isBlocked UserBlocking.strict_eq_true].
    now destruct (negb (AdminUsers.shownBlocked user)).
  - intros other Hother. rewrite Hpage'. cbn [AdminUsers.users].
    now apply lookup_insert_ne.
  - now rewrite Hpage'.
  - rewrite Hpage''. unfold AdminUsers.onClick, AdminUsers.toggleUserBlockStatus.
    rewrite Hlookup. cbn [AdminUsers.users UserBlocking.isBlocked JS.truthy].
    unfold UserBlocking.checkUserBlockStatus, AdminUsers.getDocFrom.
    cbn [Exc.bind Exc.try_catch UserBlocking.data UserBlocking.uid
         AdminUsers.users].
    rewrite lookup_insert_eq.
    cbn [UserBlocking.isBlocked UserBlocking.strict_eq_true].
    rewrite negb_involutive. now destruct (AdminUsers.shownBlocked user).
Qed.

Lemma toggle_then_check_witness :
  UserBlocking.checkUserBlockStatus
    (Some (UserBlocking.mkUser "u1"))
    (AdminUsers.getDocFrom
       (AdminUsers.users
          (AdminUsers.onClick None "u1"
             {| AdminUsers.users :=
                  {[ "u1"%string := {| UserBlocking.isBlocked := JS.Undefined |} ]};
                AdminUsers.error := None |})))
  = Exc.Ok true.
Proof.
  exact (proj1 (proj2 (toggle_then_check
                         "u1" {| UserBlocking.isBlocked := JS.Undefined |}
                         {| AdminUsers.users :=
                              {[ "u1"%string :=
                                   {| UserBlocking.isBlocked := JS.Undefined |} ]};
                            AdminUsers.error := None |}
                         (lookup_singleton_eq _ _)))).
Defined.

(** ** Properties of the PDF export *)

Section ExportRuns.

Import ExportToPDF ExportCheck.

Variable lib : Library.
Hypothesis lib_takes_all : forall c, rejects lib c = None.
Variable today : string.
Variable userReports : list UserReport.
Variable year : Z.

Lemma succeeds_ret {A} (a : A) : succeeds (ret a).
Proof. intros d. now exists a, d. Qed.

Lemma succeeds_bind {A B} (m : P A) (k : A -> P B) :
  succeeds m -> (forall a, succeeds (k a)) -> succeeds (bind m k).
Proof.
  intros Hm Hk d. destruct (Hm d) as (a & d' & Hd).
  unfold bind. rewrite Hd. apply Hk.
Qed.

Lemma throws_bind_l {A B} (e : Exc.Error) (m : P A) (k : A -> P B) :
  throwsAlways e m -> throwsAlways e (bind m k).
Proof. intros Hm d. unfold bind. now rewrite Hm. Qed.

Lemma throws_bind_r {A B} (e : Exc.Error) (m : P A) (k : A -> P B) :
  succeeds m -> (forall a, throwsAlways e (k a)) -> throwsAlways e (bind m k).
Proof.
  intros Hm Hk d. destruct (Hm d) as (a & d' & Hd).
  unfold bind. rewrite Hd. apply Hk.
Qed.

Lemma succeeds_call (c : Call) : succeeds (call lib c).
Proof. intros d. unfold call. rewrite lib_takes_all. eauto. Qed.

Lemma succeeds_lift {A} (a : A) : succeeds (lift (Exc.Ok a)).
Proof. intros d. now exists a, d. Qed.

Lemma throws_lift {A} (e : Exc.Error) : throwsAlways e (@lift A (Exc.Throw e)).
Proof. intros d. reflexivity. Qed.

Lemma succeeds_getY : succeeds getY.
Proof. intros d. unfold getY. eauto. Qed.

Lemma succeeds_setY (y : Z) : succeeds (setY y).
Proof. intros d. unfold setY. eauto. Qed.

Lemma succeeds_getNumberOfPages : succeeds getNumberOfPages.
Proof. intros d. unfold getNumberOfPages. eauto. Qed.

Lemma succeeds_getLastFinalY : succeeds getLastFinalY.
Proof. intros d. unfold getLastFinalY. eauto. Qed.

Lemma succeeds_step {A} (f : Document -> A * Document) :
  succeeds (fun d => Exc.Ok (f d)).
Proof. intros d. destruct (f d) as [a d'] eqn:Hf. now exists a, d'. Qed.

Ltac run :=
  repeat first
    [ apply succeeds_bind; [|intros ?]
    | apply succeeds_call
    | apply succeeds_ret
    | apply succeeds_getY
    | apply succeeds_setY
    | apply succeeds_getNumberOfPages
    | apply succeeds_getLastFinalY
    | apply succeeds_lift ].

Lemma succeeds_addPage : succeeds (addPage lib).
Proof.
  unfold addPage. apply succeeds_bind; [apply succeeds_call|intros _].
  intros d. eauto.
Qed.

Lemma succeeds_autoTable (startY : Z) (head : list string) (body : list (list string)) :
  succeeds (autoTable lib startY head body).
Proof.
  unfold autoTable. apply succeeds_bind; [apply succeeds_call|intros _].
  intros d. eauto.
Qed.

Lemma succeeds_addHeader : succeeds (addHeader lib year).
Proof. unfold addHeader. run. Qed.

Lemma succeeds_addFooter (pageNumber : nat) : succeeds (addFooter lib pageNumber).
Proof. unfold addFooter. run. Qed.

Lemma succeeds_addTitlePage : succeeds (addTitlePage lib today userReports year).
Proof.
  unfold addTitlePage.
  apply succeeds_bind; [apply succeeds_addHeader|intros _].
  cbv zeta.
  repeat (apply succeeds_bind; [apply succeeds_call|intros _]).
  apply succeeds_bind; [apply succeeds_addFooter|intros _].
  apply succeeds_addPage.
Qed.

Lemma succeeds_check (neededSpace : Z) :
  succeeds (checkAndAddPageIfNeeded lib year neededSpace).
Proof.
  unfold checkAndAddPageIfNeeded.
  apply succeeds_bind; [apply succeeds_getY|intros y]. cbv zeta.
  destruct (_ <? _); [|apply succeeds_ret].
  apply succeeds_bind; [apply succeeds_addPage|intros _].
  apply succeeds_bind; [apply succeeds_addHeader|intros _].
  apply succeeds_bind; [apply succeeds_setY|intros _].
  apply succeeds_bind; [apply succeeds_getNumberOfPages|intros n].
  apply succeeds_bind; [apply succeeds_addFooter|intros _].
  apply succeeds_ret.
Qed.

Lemma succeeds_textLine (s : string) (dy : Z) : succeeds (textLine lib s dy).
Proof. unfold textLine. run. Qed.

Lemma summaryRow_cases (report : UserReport) :
  if lacksUser report
  then summaryRow report
       = Exc.Throw (typeError "Cannot read properties of undefined (reading 'name')")
  else exists row, summaryRow report = Exc.Ok row.
Proof.
  unfold summaryRow, userField, lacksUser.
  destruct (user report); cbn [Exc.bind]; [eexists|]; reflexivity.
Qed.

Lemma mapE_summaryRow :
  if existsb lacksUser userReports
  then mapE summaryRow userReports
       = Exc.Throw (typeError "Cannot read properties of undefined (reading 'name')")
  else exists rows, mapE summaryRow userReports = Exc.Ok rows.
Proof.
  induction userReports as [|report reports IH]; cbn [existsb mapE];
    [eexists; reflexivity|].
  pose proof (summaryRow_cases report) as Hrow.
  destruct (lacksUser report); cbn [orb].
  - now rewrite Hrow.
  - destruct Hrow as [row ->]. cbn [Exc.bind].
    destruct (existsb lacksUser reports).
    + now rewrite IH.
    + destruct IH as [rows ->]. cbn [Exc.bind]. eexists. reflexivity.
Qed.

Lemma loanRow_cases (loan : Loan) :
  if printable (paymentStatus loan)
  then exists row, loanRow loan = Exc.Ok row
  else loanRow loan
       = Exc.Throw (typeError "paymentStatus.toUpperCase is not a function").
Proof.
  unfold loanRow, printable, getStatusText.
  destruct (JS.strict_eq_str _ _); cbn [Exc.bind]; [eexists; reflexivity|].
  destruct (JS.truthy _); cbn [Exc.bind]; [|eexists; reflexivity].
  destruct (paymentStatus loan); cbn [Exc.bind]; try reflexivity.
  eexists; reflexivity.
Qed.

Lemma mapE_loanRow (loans : list Loan) :
  if existsb (fun loan => negb (printable (paymentStatus loan))) loans
  then mapE loanRow loans
       = Exc.Throw (typeError "paymentStatus.toUpperCase is not a function")
  else exists rows, mapE loanRow loans = Exc.Ok rows.
Proof.
  induction loans as [|loan loans IH]; cbn [existsb mapE];
    [eexists; reflexivity|].
  pose proof (loanRow_cases loan) as Hrow.
  destruct (printable (paymentStatus loan)); cbn [negb orb].
  - destruct Hrow as [row ->]. cbn [Exc.bind].
    destruct (existsb _ loans).
    + now rewrite IH.
    + destruct IH as [rows ->]. cbn [Exc.bind]. eexists. reflexivity.
  - now rewrite Hrow.
Qed.

Lemma succeeds_addSummaryTable :
  existsb lacksUser userReports = false ->
  succeeds (addSummaryTable lib userReports year).
Proof.
  intros Husers. pose proof mapE_summaryRow as Hrows. rewrite Husers in Hrows.
  destruct Hrows as [rows Hrows]. unfold addSummaryTable. rewrite Hrows.
  apply succeeds_bind; [apply succeeds_addHeader|intros _].
  apply succeeds_bind; [apply succeeds_lift|intros data].
  apply succeeds_bind; [apply succeeds_autoTable|intros _].
  apply succeeds_bind; [apply succeeds_getLastFinalY|intros finalY].
  apply succeeds_bind; [apply succeeds_setY|intros _].
  apply succeeds_bind; [apply succeeds_getNumberOfPages|intros n].
  apply succeeds_addFooter.
Qed.

Lemma throws_addSummaryTable :
  existsb lacksUser userReports = true ->
  throwsAlways (typeError "Cannot read properties of undefined (reading 'name')")
               (addSummaryTable lib userReports year).
Proof.
  intros Husers. pose proof mapE_summaryRow as Hrows. rewrite Husers in Hrows.
  unfold addSummaryTable. rewrite Hrows.
  apply throws_bind_r; [apply succeeds_addHeader|intros _].
  apply throws_bind_l. apply throws_lift.
Qed.

(** The part of [addUserDetails] for the deposits. *)
Lemma succeeds_deposits (userReport : UserReport) :
  succeeds
    (match deposits userReport with
     | _ :: _ =>
         let depositData :=
           map (fun deposit => [ formatCurrency (amount deposit);
                                 formatDateForPDF (Some (timestamp deposit)) ])
               (deposits userReport) in
         bind (checkAndAddPageIfNeeded lib year 30) (fun _ =>
         bind getY (fun y =>
         bind (autoTable lib y ["Amount"; "Date"]%string depositData) (fun _ =>
         bind getLastFinalY (fun finalY => setY (finalY + 10)))))
     | [] =>
         bind (checkAndAddPageIfNeeded lib year 20) (fun _ =>
         bind (call lib (SetFontSize 10)) (fun _ =>
         bind (call lib (SetTextColor 100 100 100)) (fun _ =>
         bind getY (fun y =>
         bind (call lib (Text "No deposits found" margin y)) (fun _ =>
         bind (call lib (SetTextColor 0 0 0)) (fun _ => setY (y + 10)))))))
     end).
Proof.
  destruct (deposits userReport); cbv zeta.
  - apply succeeds_bind; [apply succeeds_check|intros _]. run.
  - apply succeeds_bind; [apply succeeds_check|intros _].
    apply succeeds_bind; [apply succeeds_getY|intros y].
    apply succeeds_bind; [apply succeeds_autoTable|intros _]. run.
Qed.

Lemma addUserDetails_runs (userReport : UserReport) :
  lacksUser userReport = false ->
  if hasUnprintableLoan userReport
  then throwsAlways (typeError "paymentStatus.toUpperCase is not a function")
                    (addUserDetails lib year userReport)
  else succeeds (addUserDetails lib year userReport).
Proof.
  unfold lacksUser, hasUnprintableLoan, addUserDetails, userField.
  destruct (user userReport) as [u|]; [intros _|discriminate]. cbv zeta.
  pose proof (mapE_loanRow (loans userReport)) as Hrows.
  pose proof (succeeds_deposits userReport) as Hdeposits.
  destruct (existsb _ (loans userReport)) eqn:Hbad.
  - apply throws_bind_r; [apply succeeds_check|intros _].
    do 3 (apply throws_bind_r; [apply succeeds_call|intros _]).
    apply throws_bind_r; [apply succeeds_lift|intros n].
    apply throws_bind_r; [apply succeeds_textLine|intros _].
    do 3 (apply throws_bind_r; [apply succeeds_call|intros _]).
    apply throws_bind_r; [apply succeeds_lift|intros e].
    apply throws_bind_r; [apply succeeds_textLine|intros _].
    apply throws_bind_r; [apply succeeds_lift|intros p].
    apply throws_bind_r; [apply succeeds_textLine|intros _].
    apply throws_bind_r; [exact Hdeposits|intros _].
    destruct (loans userReport) as [|loan loans]; [discriminate|].
    apply throws_bind_l. rewrite Hrows. apply throws_lift.
  - apply succeeds_bind; [apply succeeds_check|intros _].
    do 3 (apply succeeds_bind; [apply succeeds_call|intros _]).
    apply succeeds_bind; [apply succeeds_lift|intros n].
    apply succeeds_bind; [apply succeeds_textLine|intros _].
    do 3 (apply succeeds_bind; [apply succeeds_call|intros _]).
    apply succeeds_bind; [apply succeeds_lift|intros e].
    apply succeeds_bind; [apply succeeds_textLine|intros _].
    apply succeeds_bind; [apply succeeds_lift|intros p].
    apply succeeds_bind; [apply succeeds_textLine|intros _].
    apply succeeds_bind; [exact Hdeposits|intros _].
    destruct (loans userReport) as [|loan loans].
    + apply succeeds_bind; [apply succeeds_check|intros _]. run.
    + destruct Hrows as [rows ->].
      apply succeeds_bind; [apply succeeds_lift|intros loanData].
      apply succeeds_bind; [apply succeeds_check|intros _].
      apply succeeds_bind; [apply succeeds_getY|intros y].
      apply succeeds_bind; [apply succeeds_autoTable|intros _]. run.
Qed.

Lemma forEach_details (reports : list UserReport) :
  existsb lacksUser reports = false ->
  if existsb hasUnprintableLoan reports
  then throwsAlways (typeError "paymentStatus.toUpperCase is not a function")
                    (forEach (addUserDetails lib year) reports)
  else succeeds (forEach (addUserDetails lib year) reports).
Proof.
  induction reports as [|report reports IH]; cbn [existsb forEach].
  - intros _. apply succeeds_ret.
  - intros Husers. apply orb_false_elim in Husers as [Huser Husers].
    pose proof (addUserDetails_runs report Huser) as Hreport.
    specialize (IH Husers).
    destruct (hasUnprintableLoan report); cbn [orb].
    + now apply throws_bind_l.
    + destruct (existsb hasUnprintableLoan reports).
      * apply throws_bind_r; [exact Hreport|intros _; exact IH].
      * apply succeeds_bind; [exact Hreport|intros _; exact IH].
Qed.

Lemma succeeds_footers (pages : list nat) :
  succeeds (forEach (fun i => bind (call lib (SetPage i))
                                   (fun _ => addFooter lib i)) pages).
Proof.
  induction pages as [|i pages IH]; cbn [forEach]; [apply succeeds_ret|].
  apply succeeds_bind; [|intros _; exact IH].
  apply succeeds_bind; [apply succeeds_call|intros _; apply succeeds_addFooter].
Qed.

Lemma succeeds_firstPage :
  succeeds (match userReports with
            | _ :: _ =>
                bind (addPage lib) (fun _ =>
                bind (addHeader lib year) (fun _ => setY 40))
            | [] => ret tt
            end).
Proof.
  destruct userReports; [apply succeeds_ret|].
  apply succeeds_bind; [apply succeeds_addPage|intros _].
  apply succeeds_bind; [apply succeeds_addHeader|intros _; apply succeeds_setY].
Qed.

(** How the body of the [try] ends, with a library that takes every call. *)
Lemma generate_runs :
  if existsb lacksUser userReports
  then throwsAlways (typeError "Cannot read properties of undefined (reading 'name')")
                    (generate lib today userReports year)
  else if existsb hasUnprintableLoan userReports
       then throwsAlways (typeError "paymentStatus.toUpperCase is not a function")
                         (generate lib today userReports year)
       else succeeds (generate lib today userReports year).
Proof.
  unfold generate.
  destruct (existsb lacksUser userReports) eqn:Husers.
  - apply throws_bind_r; [apply succeeds_addTitlePage|intros _].
    apply throws_bind_l. now apply throws_addSummaryTable.
  - pose proof (forEach_details userReports Husers) as Hdetails.
    destruct (existsb hasUnprintableLoan userReports).
    + apply throws_bind_r; [apply succeeds_addTitlePage|intros _].
      apply throws_bind_r; [now apply succeeds_addSummaryTable|intros _].
      apply throws_bind_r; [apply succeeds_firstPage|intros _].
      now apply throws_bind_l.
    + apply succeeds_bind; [apply succeeds_addTitlePage|intros _].
      apply succeeds_bind; [now apply succeeds_addSummaryTable|intros _].
      apply succeeds_bind; [apply succeeds_firstPage|intros _].
      apply succeeds_bind; [exact Hdetails|intros _].
      apply succeeds_bind; [apply succeeds_getNumberOfPages|intros pageCount].
      apply succeeds_bind; [apply succeeds_footers|intros _]. cbv zeta.
      apply succeeds_bind; [apply succeeds_call|intros _]. apply succeeds_ret.
Qed.

Lemma exportToPDF_runs :
  exportToPDF lib today userReports year
  = Exc.Ok (if existsb lacksUser userReports
            then Failure "Cannot read properties of undefined (reading 'name')"
            else if existsb hasUnprintableLoan userReports
                 then Failure "paymentStatus.toUpperCase is not a function"
                 else Success (pdfFilename year)).
Proof.
  unfold exportToPDF. pose proof generate_runs as Hgen.
  destruct (existsb lacksUser userReports).
  - now rewrite Hgen.
  - destruct (existsb hasUnprintableLoan userReports).
    + now rewrite Hgen.
    + destruct (Hgen newDocument) as (result & d' & Hd). rewrite Hd.
      destruct (generate_returns lib today userReports year _ Hd) as [Hresult _].
      cbn [Exc.bind Exc.try_catch]. now rewrite Hresult.
Qed.

End ExportRuns.

(** The result of [exportToPDF] with a library that takes every call: the
    failure object of the [TypeError] on [user.name] when a report has no
    user; else the failure object of the [TypeError] on [toUpperCase] when a
    loan has a truthy payment status that is not a string; else the success
    object with the file name of the year. *)
Theorem exportToPDF_result (lib : ExportToPDF.Library) (today : string)
        (userReports : list ExportToPDF.UserReport) (year : Z) :
  (forall c, ExportToPDF.rejects lib c = None) ->
  ExportToPDF.exportToPDF lib today userReports year
  = Exc.Ok (if existsb ExportCheck.lacksUser userReports
            then ExportToPDF.Failure "Cannot read properties of undefined (reading 'name')"
            else if existsb ExportCheck.hasUnprintableLoan userReports
                 then ExportToPDF.Failure
                        "paymentStatus.toUpperCase is not a function"
                 else ExportToPDF.Success
                        ("annual-reports-" ++ pretty year ++ ".pdf")).
Proof. intros Hlib. now apply exportToPDF_runs. Qed.

Lemma exportToPDF_result_witness :
  ExportToPDF.exportToPDF ExportToPDF.permissive "November 2, 2026"
                          [ExportToPDF.johnDoe] 2023
  = Exc.Ok (ExportToPDF.Success "annual-reports-2023.pdf").
Proof.
  exact (exportToPDF_result ExportToPDF.permissive "November 2, 2026"
                            [ExportToPDF.johnDoe] 2023 (fun c => eq_refl)).
Defined.

Section ExportSteps.

Import ExportToPDF ExportCheck.

Variable lib : Library.
Hypothesis lib_takes_all : forall c, rejects lib c = None.
Variable year : Z.

Lemma bind_call {A} (c : Call) (k : unit -> P A) (d : Document) :
  bind (call lib c) k d = k tt (drawn d [c]).
Proof. unfold bind, call. now rewrite lib_takes_all. Qed.

Lemma drawn_drawn (d : Document) (more more' : list Call) :
  drawn (drawn d more) more' = drawn d (more ++ more').
Proof. unfold drawn. cbn. now rewrite app_assoc. Qed.

Lemma call_drawn (c : Call) (d : Document) :
  call lib c d = Exc.Ok (tt, drawn d [c]).
Proof. unfold call. now rewrite lib_takes_all. Qed.

Lemma addHeader_drawn (d : Document) :
  addHeader lib year d = Exc.Ok (tt, drawn d (headerCalls year)).
Proof.
  unfold addHeader.
  repeat (rewrite bind_call, ?drawn_drawn; cbn [app]).
  rewrite call_drawn, drawn_drawn. reflexivity.
Qed.

Lemma addFooter_drawn (pageNumber : nat) (d : Document) :
  addFooter lib pageNumber d = Exc.Ok (tt, drawn d (footerCalls pageNumber)).
Proof.
  unfold addFooter.
  repeat (rewrite bind_call, ?drawn_drawn; cbn [app]).
  rewrite call_drawn, drawn_drawn. reflexivity.
Qed.

Lemma addPage_drawn (d : Document) :
  addPage lib d
  = Exc.Ok (tt, mkDocument (S (numberOfPages d)) (currentYPosition d)
                           (lastFinalY d) (calls d ++ [AddPage])).
Proof. unfold addPage. rewrite bind_call. reflexivity. Qed.

(** What the page-break check does. *)
Lemma checkAndAddPageIfNeeded_drawn (neededSpace : Z) (d : Document) :
  checkAndAddPageIfNeeded lib year neededSpace d
  = if pageHeight - currentYPosition d - 20 <? neededSpace
    then Exc.Ok (true,
                 mkDocument (S (numberOfPages d)) 40 (lastFinalY d)
                            (calls d ++ AddPage :: headerCalls year
                                     ++ footerCalls (S (numberOfPages d))))
    else Exc.Ok (false, d).
Proof.
  unfold checkAndAddPageIfNeeded, bind at 1, getY. cbv zeta.
  destruct (_ <? _); [|reflexivity].
  unfold bind at 1. rewrite addPage_drawn.
  unfold bind at 1. rewrite addHeader_drawn.
  unfold bind at 1, setY at 1.
  unfold bind at 1, getNumberOfPages at 1.
  unfold bind at 1. rewrite addFooter_drawn. unfold ret, drawn.
  cbn [numberOfPages currentYPosition lastFinalY calls].
  rewrite <- !app_assoc. reflexivity.
Qed.

End ExportSteps.

(** The page-break check, with a library that takes every call.  It adds a
    page exactly when less than the space needed is left above the footer,
    and then the position is 40 on one more page; it changes nothing
    otherwise.  After it, what is needed fits above the footer whenever it
    fits on a page at all, that is up to 237; more than that, which the
    details of a user with 18 records or more ask for, breaks the page even
    at the top of a fresh one. *)
Theorem checkAndAddPageIfNeeded_room (lib : ExportToPDF.Library) (year : Z)
        (neededSpace : Z) (d : ExportToPDF.Document) :
  (forall c, ExportToPDF.rejects lib c = None) ->
  exists added d',
    ExportToPDF.checkAndAddPageIfNeeded lib year neededSpace d = Exc.Ok (added, d')
    /\ (added = true
        <-> ExportToPDF.pageHeight - ExportToPDF.currentYPosition d - 20
            < neededSpace)
    /\ (added = false -> d' = d)
    /\ (added = true ->
        ExportToPDF.currentYPosition d' = 40
        /\ ExportToPDF.numberOfPages d' = S (ExportToPDF.numberOfPages d)
        /\ exists drawn,
             ExportToPDF.calls d'
             = ExportToPDF.calls d ++ ExportToPDF.AddPage :: drawn)
    /\ (neededSpace <= 237 ->
        ExportToPDF.currentYPosition d' + neededSpace <= ExportToPDF.pageHeight - 20)
    /\ (237 < neededSpace -> 40 <= ExportToPDF.currentYPosition d -> added = true).
Proof.
  intros Hlib. rewrite (checkAndAddPageIfNeeded_drawn lib Hlib).
  unfold ExportToPDF.pageHeight.
  destruct (Z.ltb_spec (297 - ExportToPDF.currentYPosition d - 20) neededSpace)
    as [Hlt|Hge].
  - eexists true, _. split; [reflexivity|].
    cbn [ExportToPDF.numberOfPages ExportToPDF.currentYPosition ExportToPDF.calls].
    split; [tauto|]. split; [discriminate|]. split.
    + intros _. split; [reflexivity|]. split; [reflexivity|].
      eexists. reflexivity.
    + split; [lia|reflexivity].
  - exists false, d. split; [reflexivity|]. split; [split; [discriminate|lia]|].
    split; [reflexivity|]. split; [discriminate|]. split; lia.
Qed.

Lemma checkAndAddPageIfNeeded_room_witness :
  exists added d',
    ExportToPDF.checkAndAddPageIfNeeded ExportToPDF.permissive 2023 240
      (ExportToPDF.mkDocument 3 40 0 []) = Exc.Ok (added, d')
    /\ added = true.
Proof.
  destruct (checkAndAddPageIfNeeded_room ExportToPDF.permissive 2023 240
              (ExportToPDF.mkDocument 3 40 0 []) (fun c => eq_refl))
    as (added & d' & Hrun & _ & _ & _ & _ & Hbreak).
  exists added, d'. split; [exact Hrun|]. apply Hbreak; cbn; lia.
Defined.

Section ExportGrows.

Import ExportToPDF ExportCheck.

Variable lib : Library.
Variable year : Z.

Lemma grows_ret {A} (a : A) : grows (ret a).
Proof. intros d a' d' [= _ <-]. exists []. now rewrite app_nil_r. Qed.

Lemma grows_bind {A B} (m : P A) (k : A -> P B) :
  grows m -> (forall a, grows (k a)) -> grows (bind m k).
Proof.
  intros Hm Hk d b d'' Hrun. unfold bind in Hrun.
  destruct (m d) as [[a d']|e] eqn:Hd; [|discriminate].
  destruct (Hm d a d' Hd) as [more Hmore].
  destruct (Hk a d' b d'' Hrun) as [more' Hmore'].
  exists (more ++ more'). now rewrite Hmore', Hmore, app_assoc.
Qed.

Lemma grows_call (c : Call) : grows (call lib c).
Proof.
  intros d a d'. unfold call. destruct (rejects lib c); [discriminate|].
  intros [= _ <-]. now exists [c].
Qed.

Lemma grows_lift {A} (r : Exc.result A) : grows (lift r).
Proof.
  intros d a d'. unfold lift. destruct r; [|discriminate].
  intros [= _ <-]. exists []. now rewrite app_nil_r.
Qed.

Lemma grows_getY : grows getY.
Proof. intros d a d' [= _ <-]. exists []. now rewrite app_nil_r. Qed.

Lemma grows_setY (y : Z) : grows (setY y).
Proof. intros d a d' [= _ <-]. exists []. cbn. now rewrite app_nil_r. Qed.

Lemma grows_getNumberOfPages : grows getNumberOfPages.
Proof. intros d a d' [= _ <-]. exists []. now rewrite app_nil_r. Qed.

Lemma grows_getLastFinalY : grows getLastFinalY.
Proof. intros d a d' [= _ <-]. exists []. now rewrite app_nil_r. Qed.

Lemma grows_addPage : grows (addPage lib).
Proof.
  unfold addPage. apply grows_bind; [apply grows_call|intros _].
  intros d a d' [= _ <-]. exists []. cbn. now rewrite app_nil_r.
Qed.

Lemma grows_autoTable (startY : Z) (head : list string) (body : list (list string)) :
  grows (autoTable lib startY head body).
Proof.
  unfold autoTable. apply grows_bind; [apply grows_call|intros _].
  intros d a d' [= _ <-]. exists []. cbn. now rewrite app_nil_r.
Qed.

Ltac grow :=
  repeat first
    [ apply grows_call
    | apply grows_ret
    | apply grows_getY
    | apply grows_setY
    | apply grows_getNumberOfPages
    | apply grows_getLastFinalY
    | apply grows_lift
    | apply grows_addPage
    | apply grows_autoTable
    | apply grows_bind; [|intros ?] ].

Lemma grows_addHeader : grows (addHeader lib year).
Proof. unfold addHeader. grow. Qed.

Lemma grows_addFooter (pageNumber : nat) : grows (addFooter lib pageNumber).
Proof. unfold addFooter. grow. Qed.

Lemma grows_check (neededSpace : Z) :
  grows (checkAndAddPageIfNeeded lib year neededSpace).
Proof.
  unfold checkAndAddPageIfNeeded.
  apply grows_bind; [apply grows_getY|intros y]. cbv zeta.
  destruct (_ <? _); [|apply grows_ret].
  apply grows_bind; [apply grows_addPage|intros _].
  apply grows_bind; [apply grows_addHeader|intros _].
  apply grows_bind; [apply grows_setY|intros _].
  apply grows_bind; [apply grows_getNumberOfPages|intros n].
  apply grows_bind; [apply grows_addFooter|intros _].
  apply grows_ret.
Qed.

Lemma grows_textLine (s : string) (dy : Z) : grows (textLine lib s dy).
Proof. unfold textLine. grow. Qed.

(** What [addUserDetails] does once the page-break check is done. *)
Lemma grows_details (userReport : UserReport) :
  exists rest : P unit,
    addUserDetails lib year userReport
    = bind (checkAndAddPageIfNeeded lib year (estimatedSpace userReport))
           (fun _ => rest)
    /\ grows rest.
Proof.
  eexists. split; [reflexivity|].
  do 3 (apply grows_bind; [apply grows_call|intros _]).
  apply grows_bind; [apply grows_lift|intros n].
  apply grows_bind; [apply grows_textLine|intros _].
  do 3 (apply grows_bind; [apply grows_call|intros _]).
  apply grows_bind; [apply grows_lift|intros e].
  apply grows_bind; [apply grows_textLine|intros _].
  apply grows_bind; [apply grows_lift|intros p].
  apply grows_bind; [apply grows_textLine|intros _].
  apply grows_bind; [|intros _].
  - destruct (deposits userReport); cbv zeta.
    + apply grows_bind; [apply grows_check|intros _]. grow.
    + apply grows_bind; [apply grows_check|intros _]. grow.
  - destruct (loans userReport).
    + apply grows_bind; [apply grows_check|intros _]. grow.
    + apply grows_bind; [apply grows_lift|intros loanData].
      apply grows_bind; [apply grows_check|intros _]. grow.
Qed.

Lemma grows_addUserDetails (userReport : UserReport) :
  grows (addUserDetails lib year userReport).
Proof.
  destruct (grows_details userReport) as (rest & -> & Hrest).
  apply grows_bind; [apply grows_check|intros _; exact Hrest].
Qed.

Lemma grows_forEach {A} (f : A -> P unit) (l : list A) :
  (forall x, grows (f x)) -> grows (forEach f l).
Proof.
  intros Hf. induction l as [|x l IH]; cbn [forEach]; [apply grows_ret|].
  apply grows_bind; [apply Hf|intros _; exact IH].
Qed.

End ExportGrows.

Section BlankPage.

Import ExportToPDF ExportCheck.

Variable lib : Library.
Hypothesis lib_takes_all : forall c, rejects lib c = None.
Variable today : string.
Variable year : Z.

Lemma grows_footers (pages : list nat) :
  grows (forEach (fun i => bind (call lib (SetPage i)) (fun _ => addFooter lib i))
                 pages).
Proof.
  apply grows_forEach. intros i.
  apply grows_bind; [apply grows_call|intros _; apply grows_addFooter].
Qed.

(** The page opened for the details stays empty when the first user needs
    more than a page. *)
Lemma generate_breaks_first (report : UserReport) (reports : list UserReport)
      (result : ExportResult) (d : Document) :
  237 < estimatedSpace report ->
  generate lib today (report :: reports) year newDocument = Exc.Ok (result, d) ->
  exists before after,
    calls d = before ++ [AddPage] ++ headerCalls year ++ [AddPage] ++ after.
Proof.
  intros Hspace Hgen. unfold generate in Hgen.
  apply bind_Ok in Hgen as (? & d1 & _ & Hgen).
  apply bind_Ok in Hgen as (? & d2 & _ & Hgen).
  apply bind_Ok in Hgen as (? & d3 & Hfirst & Hgen).
  apply bind_Ok in Hgen as (? & d4 & Heach & Hgen).
  apply bind_Ok in Hfirst as (? & dp & Hpage & Hfirst).
  apply bind_Ok in Hfirst as (? & dh & Hheader & Hfirst).
  rewrite (addPage_drawn lib lib_takes_all) in Hpage. injection Hpage as _ <-.
  rewrite (addHeader_drawn lib lib_takes_all) in Hheader. injection Hheader as _ <-.
  unfold setY in Hfirst. injection Hfirst as _ <-.
  cbn [forEach] in Heach.
  apply bind_Ok in Heach as (? & dA & Hdetails & Hrest).
  destruct (grows_details lib year report) as (rest & Heq & Hgrows).
  rewrite Heq in Hdetails.
  apply bind_Ok in Hdetails as (added & dC & Hcheck & Hdetails).
  rewrite (checkAndAddPageIfNeeded_drawn lib lib_takes_all) in Hcheck.
  cbn [currentYPosition drawn numberOfPages lastFinalY calls] in Hcheck.
  unfold pageHeight in Hcheck.
  destruct (Z.ltb_spec (297 - 40 - 20) (estimatedSpace report)) as [_|Hfits];
    [|lia].
  injection Hcheck as _ <-.
  destruct (Hgrows _ _ _ Hdetails) as [more1 Hmore1].
  destruct (grows_forEach (addUserDetails lib year) reports
                          (grows_addUserDetails lib year) _ _ _ Hrest)
    as [more2 Hmore2].
  assert (Hend : exists more3, calls d = calls d4 ++ more3).
  { revert Hgen. generalize d4. intros d0 Hgen.
    apply bind_Ok in Hgen as (pageCount & d5 & Hcount & Hgen).
    injection Hcount as _ <-.
    apply bind_Ok in Hgen as (? & d6 & Hfooters & Hgen).
    destruct (grows_footers _ _ _ _ Hfooters) as [moreF HmoreF].
    cbv zeta in Hgen.
    apply bind_Ok in Hgen as (? & d7 & Hsave & Hgen).
    destruct (grows_call lib _ _ _ _ Hsave) as [moreS HmoreS].
    injection Hgen as _ <-.
    exists (moreF ++ moreS). now rewrite HmoreS, HmoreF, app_assoc. }
  destruct Hend as [more3 Hmore3].
  rewrite Hmore3, Hmore2, Hmore1. cbn [calls].
  exists (calls d2). eexists.
  rewrite <- !app_assoc. cbn [app]. reflexivity.
Qed.

End BlankPage.

(** An empty page in the PDF: when the first user has 18 deposits and loans
    or more, the details ask for more room than a page has, so the page
    break comes at once; the page that [exportToPDF] has just opened for the
    details, with its header, gets nothing but the header (and the page
    number added at the end).  With a library that takes every call and
    reports that can be printed, the export succeeds and the calls made on
    the document hold a page opened, its header drawn, and the next page
    opened right after. *)
Theorem exportToPDF_empty_page (lib : ExportToPDF.Library) (today : string)
        (report : ExportToPDF.UserReport) (reports : list ExportToPDF.UserReport)
        (year : Z) :
  (forall c, ExportToPDF.rejects lib c = None) ->
  existsb ExportCheck.lacksUser (report :: reports) = false ->
  existsb ExportCheck.hasUnprintableLoan (report :: reports) = false ->
  (18 <= length (ExportToPDF.deposits report) + length (ExportToPDF.loans report))%nat ->
  exists result d before after,
    ExportToPDF.generate lib today (report :: reports) year ExportToPDF.newDocument
    = Exc.Ok (result, d)
    /\ ExportToPDF.calls d
       = before ++ [ExportToPDF.AddPage] ++ ExportCheck.headerCalls year
                ++ [ExportToPDF.AddPage] ++ after.
Proof.
  intros Hlib Husers Hloans Hmany.
  pose proof (generate_runs lib Hlib today (report :: reports) year) as Hruns.
  rewrite Husers, Hloans in Hruns.
  destruct (Hruns ExportToPDF.newDocument) as (result & d & Hgen).
  exists result, d.
  destruct (generate_breaks_first lib Hlib today year report reports result d)
    as (before & after & Hcalls); [unfold ExportCheck.estimatedSpace; lia|exact Hgen|].
  exists before, after. split; [exact Hgen|exact Hcalls].
Qed.

Lemma exportToPDF_empty_page_witness :
  exists result d before after,
    ExportToPDF.generate ExportToPDF.permissive "November 2, 2026"
                         [ExportCheck.busyUser] 2023 ExportToPDF.newDocument
    = Exc.Ok (result, d)
    /\ ExportToPDF.calls d
       = before ++ [ExportToPDF.AddPage] ++ ExportCheck.headerCalls 2023
                ++ [ExportToPDF.AddPage] ++ after.
Proof.
  apply (exportToPDF_empty_page ExportToPDF.permissive "November 2, 2026"
                                ExportCheck.busyUser [] 2023).
  - intros c. reflexivity.
  - reflexivity.
  - reflexivity.
  - vm_compute. lia.
Defined.

Section PageNumbers.

Import ExportToPDF ExportCheck ExportPages.

Variable lib : Library.
Hypothesis lib_takes_all : forall c, rejects lib c = None.
Variable today : string.
Variable year : Z.

Lemma advances_step {A} (f : Document -> A * Document) :
  (forall d, (numberOfPages d <= numberOfPages (snd (f d)))%nat
             /\ calls (snd (f d)) = calls d) ->
  advances (fun d => Exc.Ok (f d)).
Proof.
  intros Hf d a d' [= Hd]. destruct (Hf d) as [Hpages Hcalls].
  rewrite Hd in Hpages, Hcalls. cbn [snd] in Hpages, Hcalls.
  split; [exact Hpages|]. exists []. now rewrite app_nil_r.
Qed.

Lemma advances_ret {A} (a : A) : advances (ret a).
Proof. apply (advances_step (fun d => (a, d))). now intros d. Qed.

Lemma advances_bind {A B} (m : P A) (k : A -> P B) :
  advances m -> (forall a, advances (k a)) -> advances (bind m k).
Proof.
  intros Hm Hk d b d'' Hrun.
  apply bind_Ok in Hrun as (a & d' & Hd & Hrun).
  destruct (Hm d a d' Hd) as [Hpages [more Hmore]].
  destruct (Hk a d' b d'' Hrun) as [Hpages' [more' Hmore']].
  split; [lia|]. exists (more ++ more'). now rewrite Hmore', Hmore, app_assoc.
Qed.

Lemma advances_call (c : Call) : advances (call lib c).
Proof.
  intros d a d'. rewrite (call_drawn lib lib_takes_all). intros [= _ <-].
  split; [reflexivity|]. now exists [c].
Qed.

Lemma advances_lift {A} (r : Exc.result A) : advances (lift r).
Proof.
  intros d a d'. unfold lift. destruct r; [|discriminate].
  intros [= _ <-]. split; [reflexivity|]. exists []. now rewrite app_nil_r.
Qed.

Lemma advances_getY : advances getY.
Proof. apply (advances_step (fun d => (currentYPosition d, d))). now intros d. Qed.

Lemma advances_setY (y : Z) : advances (setY y).
Proof.
  apply (advances_step
           (fun d => (tt, mkDocument (numberOfPages d) y (lastFinalY d) (calls d)))).
  now intros d.
Qed.

Lemma advances_getNumberOfPages : advances getNumberOfPages.
Proof. apply (advances_step (fun d => (numberOfPages d, d))). now intros d. Qed.

Lemma advances_getLastFinalY : advances getLastFinalY.
Proof. apply (advances_step (fun d => (lastFinalY d, d))). now intros d. Qed.

Lemma advances_addPage : advances (addPage lib).
Proof.
  unfold addPage. apply advances_bind; [apply advances_call|intros _].
  apply (advances_step
           (fun d => (tt, mkDocument (S (numberOfPages d)) (currentYPosition d)
                                     (lastFinalY d) (calls d)))).
  intros d. cbn. split; [lia|reflexivity].
Qed.

Lemma advances_autoTable (startY : Z) (head : list string)
      (body : list (list string)) :
  advances (autoTable lib startY head body).
Proof.
  unfold autoTable. apply advances_bind; [apply advances_call|intros _].
  apply (advances_step
           (fun d => (tt, mkDocument (numberOfPages d + tablePages lib startY body)
                                     (currentYPosition d)
                                     (tableFinalY lib startY body) (calls d)))).
  intros d. cbn. split; [lia|reflexivity].
Qed.

Ltac advance :=
  repeat first
    [ apply advances_call
    | apply advances_ret
    | apply advances_getY
    | apply advances_setY
    | apply advances_getNumberOfPages
    | apply advances_getLastFinalY
    | apply advances_lift
    | apply advances_addPage
    | apply advances_autoTable
    | apply advances_bind; [|intros ?] ].

Lemma advances_addHeader : advances (addHeader lib year).
Proof. unfold addHeader. advance. Qed.

Lemma advances_addFooter (pageNumber : nat) : advances (addFooter lib pageNumber).
Proof. unfold addFooter. advance. Qed.

Lemma advances_check (neededSpace : Z) :
  advances (checkAndAddPageIfNeeded lib year neededSpace).
Proof.
  unfold checkAndAddPageIfNeeded.
  apply advances_bind; [apply advances_getY|intros y]. cbv zeta.
  destruct (_ <? _); [|apply advances_ret].
  apply advances_bind; [apply advances_addPage|intros _].
  apply advances_bind; [apply advances_addHeader|intros _].
  apply advances_bind; [apply advances_setY|intros _].
  apply advances_bind; [apply advances_getNumberOfPages|intros n].
  apply advances_bind; [apply advances_addFooter|intros _].
  apply advances_ret.
Qed.

Lemma advances_textLine (s : string) (dy : Z) : advances (textLine lib s dy).
Proof. unfold textLine. advance. Qed.

Lemma advances_addUserDetails (userReport : UserReport) :
  advances (addUserDetails lib year userReport).
Proof.
  unfold addUserDetails. cbv zeta.
  apply advances_bind; [apply advances_check|intros _].
  do 3 (apply advances_bind; [apply advances_call|intros _]).
  apply advances_bind; [apply advances_lift|intros n].
  apply advances_bind; [apply advances_textLine|intros _].
  do 3 (apply advances_bind; [apply advances_call|intros _]).
  apply advances_bind; [apply advances_lift|intros e].
  apply advances_bind; [apply advances_textLine|intros _].
  apply advances_bind; [apply advances_lift|intros p].
  apply advances_bind; [apply advances_textLine|intros _].
  apply advances_bind; [|intros _].
  - destruct (deposits userReport).
    + apply advances_bind; [apply advances_check|intros _]. advance.
    + apply advances_bind; [apply advances_check|intros _]. advance.
  - destruct (loans userReport).
    + apply advances_bind; [apply advances_check|intros _]. advance.
    + apply advances_bind; [apply advances_lift|intros loanData].
      apply advances_bind; [apply advances_check|intros _]. advance.
Qed.

Lemma advances_forEach {A} (f : A -> P unit) (l : list A) :
  (forall x, advances (f x)) -> advances (forEach f l).
Proof.
  intros Hf. induction l as [|x l IH]; cbn [forEach]; [apply advances_ret|].
  apply advances_bind; [apply Hf|intros _; exact IH].
Qed.

Lemma advances_addSummaryTable (userReports : list UserReport) :
  advances (addSummaryTable lib userReports year).
Proof.
  unfold addSummaryTable.
  apply advances_bind; [apply advances_addHeader|intros _].
  apply advances_bind; [apply advances_lift|intros data].
  apply advances_bind; [apply advances_autoTable|intros _].
  apply advances_bind; [apply advances_getLastFinalY|intros finalY].
  apply advances_bind; [apply advances_setY|intros _].
  apply advances_bind; [apply advances_getNumberOfPages|intros n].
  apply advances_addFooter.
Qed.

(** The title page ends with its page number and a new page. *)
Lemma addTitlePage_drawn (userReports : list UserReport) :
  exists title,
    forall d,
      addTitlePage lib today userReports year d
      = Exc.Ok (tt, mkDocument (S (numberOfPages d)) (currentYPosition d)
                               (lastFinalY d)
                               (calls d ++ title ++ footerCalls 1 ++ [AddPage])).
Proof.
  eexists. intros d. unfold addTitlePage. cbv zeta.
  unfold bind at 1. rewrite (addHeader_drawn lib lib_takes_all). cbv beta iota.
  repeat (rewrite (bind_call lib lib_takes_all), ?drawn_drawn).
  unfold bind at 1. rewrite (addFooter_drawn lib lib_takes_all), drawn_drawn.
  cbv beta iota. rewrite (addPage_drawn lib lib_takes_all).
  cbn [numberOfPages currentYPosition lastFinalY calls drawn].
  match goal with
  | |- Exc.Ok (_, mkDocument _ _ _ ((_ ++ (?big ++ _)) ++ _)) = _ =>
      instantiate (1 := big);
      rewrite <- (app_assoc (calls d)), <- (app_assoc big)
  end.
  reflexivity.
Qed.

(** The loop at the end writes the number of each page in turn. *)
Lemma footers_drawn (pages : list nat) (d : Document) :
  forEach (fun i => bind (call lib (SetPage i)) (fun _ => addFooter lib i)) pages d
  = Exc.Ok (tt, drawn d (flat_map (fun i => SetPage i :: footerCalls i) pages)).
Proof.
  revert d. induction pages as [|i pages IH]; intros d.
  - cbn [forEach flat_map]. unfold ret, drawn. rewrite app_nil_r. now destruct d.
  - cbn [forEach flat_map]. unfold bind at 1.
    rewrite (bind_call lib lib_takes_all), (addFooter_drawn lib lib_takes_all).
    cbv beta iota. rewrite IH, !drawn_drawn. reflexivity.
Qed.

Lemma generate_numbers (userReports : list UserReport) (result : ExportResult)
      (d : Document) :
  generate lib today userReports year newDocument = Exc.Ok (result, d) ->
  (2 <= numberOfPages d)%nat
  /\ exists title content,
       calls d = title ++ footerCalls 1 ++ [AddPage] ++ content
                 ++ pageNumbers (numberOfPages d) ++ [Save (pdfFilename year)].
Proof.
  intros Hgen. unfold generate in Hgen.
  apply bind_Ok in Hgen as (? & d1 & Htitle & Hgen).
  apply bind_Ok in Hgen as (? & d2 & Hsummary & Hgen).
  apply bind_Ok in Hgen as (? & d3 & Hfirst & Hgen).
  apply bind_Ok in Hgen as (? & d4 & Heach & Hgen).
  apply bind_Ok in Hgen as (pageCount & d5 & Hcount & Hgen).
  injection Hcount as <- <-.
  apply bind_Ok in Hgen as (? & d6 & Hfooters & Hgen).
  rewrite footers_drawn in Hfooters. injection Hfooters as _ <-.
  cbv zeta in Hgen.
  rewrite (bind_call lib lib_takes_all), drawn_drawn in Hgen.
  injection Hgen as _ <-.
  destruct (addTitlePage_drawn userReports) as [title Hdrawn].
  rewrite Hdrawn in Htitle. injection Htitle as _ <-.
  destruct (advances_addSummaryTable userReports _ _ _ Hsummary)
    as [Hpages2 [more2 Hmore2]].
  assert (Hadv3 : advances (match userReports with
                            | _ :: _ => bind (addPage lib) (fun _ =>
                                          bind (addHeader lib year)
                                               (fun _ => setY 40))
                            | [] => ret tt
                            end)).
  { destruct userReports; [apply advances_ret|].
    apply advances_bind; [apply advances_addPage|intros _].
    apply advances_bind; [apply advances_addHeader|intros _].
    apply advances_setY. }
  destruct (Hadv3 _ _ _ Hfirst) as [Hpages3 [more3 Hmore3]].
  destruct (advances_forEach (addUserDetails lib year) userReports
                             advances_addUserDetails _ _ _ Heach)
    as [Hpages4 [more4 Hmore4]].
  cbn [numberOfPages calls drawn] in *.
  split; [lia|].
  exists title, (more2 ++ more3 ++ more4).
  rewrite Hmore4, Hmore3, Hmore2. unfold pageNumbers.
  rewrite <- !app_assoc. reflexivity.
Qed.

End PageNumbers.

(** The page numbers of the PDF: with a library that takes every call and
    reports that can be printed, the export succeeds with two pages or more;
    the calls end with the loop that visits every page, from the first to
    the last, and writes its number at the foot, and then with the one call
    that saves the file under the name of the year.  The number of the title
    page was written before, when that page was drawn: it is written
    twice. *)
Theorem exportToPDF_page_numbers (lib : ExportToPDF.Library) (today : string)
        (userReports : list ExportToPDF.UserReport) (year : Z) :
  (forall c, ExportToPDF.rejects lib c = None) ->
  existsb ExportCheck.lacksUser userReports = false ->
  existsb ExportCheck.hasUnprintableLoan userReports = false ->
  exists result d title content,
    ExportToPDF.generate lib today userReports year ExportToPDF.newDocument
    = Exc.Ok (result, d)
    /\ (2 <= ExportToPDF.numberOfPages d)%nat
    /\ ExportToPDF.calls d
       = title ++ ExportCheck.footerCalls 1 ++ [ExportToPDF.AddPage] ++ content
         ++ ExportPages.pageNumbers (ExportToPDF.numberOfPages d)
         ++ [ExportToPDF.Save (ExportToPDF.pdfFilename year)].
Proof.
  intros Hlib Husers Hloans.
  pose proof (generate_runs lib Hlib today userReports year) as Hruns.
  rewrite Husers, Hloans in Hruns.
  destruct (Hruns ExportToPDF.newDocument) as (result & d & Hgen).
  destruct (generate_numbers lib Hlib today year userReports result d Hgen)
    as (Hpages & title & content & Hcalls).
  exists result, d, title, content. repeat split; assumption.
Qed.

Lemma exportToPDF_page_numbers_witness :
  exists result d title content,
    ExportToPDF.generate ExportToPDF.permissive "November 2, 2026"
                         [ExportToPDF.johnDoe] 2023 ExportToPDF.newDocument
    = Exc.Ok (result, d)
    /\ (2 <= ExportToPDF.numberOfPages d)%nat
    /\ ExportToPDF.calls d
       = title ++ ExportCheck.footerCalls 1 ++ [ExportToPDF.AddPage] ++ content
         ++ ExportPages.pageNumbers (ExportToPDF.numberOfPages d)
         ++ [ExportToPDF.Save (ExportToPDF.pdfFilename 2023)].
Proof.
  apply (exportToPDF_page_numbers ExportToPDF.permissive "November 2, 2026"
                                  [ExportToPDF.johnDoe] 2023).
  - intros c. reflexivity.
  - reflexivity.
  - reflexivity.
Defined.

(** ** Properties of the exports of the fetched reports *)






